(** * Multi-agent scoring and aggregation engine: a shallow embedding

    The development follows [core/base_agent.py], [core/orchestrator.py]
    and the five agents under [agents/].

    Modelling conventions.
    - A Python [float] is an exact rational ([Q]); [==] is equality of
      rationals.  NaN, infinities and binary rounding are outside the model.
    - A Python dict is an association list in insertion order with unique
      keys ([dict]); [dict_set] is item assignment, [dict_get] is [d.get(k)].
    - A result dict whose keys may be absent ([AgentResult]) is a record of
      options: [Some v] when the key is present, [None] when it is not.
    - A function that can raise returns a [result]; [try_except] is
      [try: ... except Exception as e: ...].
    - The names of the agents are the five keys of [self.agents] and
      [self.weights]; they form the type [agent_name]. *)

From Stdlib Require Import QArith Qabs Qround Lqa List String Ascii Bool Lia ZArith.
Import ListNotations.
#[local] Open Scope Q_scope.
#[local] Open Scope string_scope.

(** ** Python prelude *)

Module Py.

Inductive exn : Type :=
| ZeroDivisionError
| TypeError
| ValueError
| IndexError
| NameError (name : string)
| Exception (msg : string).

Inductive result (A : Type) : Type :=
| Ok (a : A)
| Raise (e : exn).
Arguments Ok {A} a.
Arguments Raise {A} e.

Definition bind {A B} (m : result A) (k : A -> result B) : result B :=
  match m with
  | Ok a => k a
  | Raise e => Raise e
  end.

(** [try: body except Exception as e: handler(e)] *)
Definition try_except {A} (body : result A) (handler : exn -> result A)
  : result A :=
  match body with
  | Ok a => Ok a
  | Raise e => handler e
  end.

(** [str(e)] *)
Definition str_of_exn (e : exn) : string :=
  match e with
  | ZeroDivisionError => "float division by zero"
  | TypeError => "'>=' not supported between instances of 'NoneType' and 'int'"
  | ValueError => "value is not in list"
  | IndexError => "list index out of range"
  | NameError n => "name '" ++ n ++ "' is not defined"
  | Exception msg => msg
  end.

Definition Qlt_bool (x y : Q) : bool := negb (Qle_bool y x).

(** [min(a, b)] and [max(a, b)]: the first argument is kept on a tie. *)
Definition min (a b : Q) : Q := if Qlt_bool b a then b else a.
Definition max (a b : Q) : Q := if Qlt_bool a b then b else a.

(** [a / b] on floats *)
Definition div (a b : Q) : result Q :=
  if Qeq_bool b 0 then Raise ZeroDivisionError else Ok (a / b).

(** Truth value of a number-or-None: [None] and [0] are false. *)
Definition truthy (v : option Q) : bool :=
  match v with
  | None => false
  | Some q => negb (Qeq_bool q 0)
  end.

(** The number held by a value that an arithmetic comparison is about to
    read: comparing [None] with a number raises [TypeError]. *)
Definition num (v : option Q) : result Q :=
  match v with
  | Some q => Ok q
  | None => Raise TypeError
  end.

(** [sum(l)] *)
Definition sum (l : list Q) : Q := fold_left Qplus l 0.

(** [len(l)] as a float operand *)
Definition len {A} (l : list A) : Q := inject_Z (Z.of_nat (List.length l)).

(** [l[i]] *)
Definition item {A} (l : list A) (i : nat) : result A :=
  match nth_error l i with
  | Some a => Ok a
  | None => Raise IndexError
  end.

(** [l.index(x)]: the position of the first element equal to [x]. *)
Fixpoint index (l : list Q) (x : Q) : result nat :=
  match l with
  | [] => Raise ValueError
  | y :: l' =>
      if Qeq_bool y x then Ok O
      else match index l' x with
           | Ok i => Ok (S i)
           | Raise e => Raise e
           end
  end.

(** [sorted(l)] and [sorted(l, reverse=True)]: stable insertion into an
    ordered list. *)
Fixpoint insert (le : Q -> Q -> bool) (x : Q) (l : list Q) : list Q :=
  match l with
  | [] => [x]
  | y :: l' => if le x y then x :: y :: l' else y :: insert le x l'
  end.

Definition sorted (l : list Q) : list Q :=
  fold_right (insert Qle_bool) [] l.

Definition sorted_reverse (l : list Q) : list Q :=
  fold_right (insert (fun x y => Qle_bool y x)) [] l.

(** [round(x, 3)]: round half to even at the third decimal. *)
Definition round_half_even (x : Q) : Z :=
  let f := Qfloor x in
  let r := x - inject_Z f in
  if Qlt_bool r 0.5 then f
  else if Qlt_bool 0.5 r then (f + 1)%Z
  else if Z.even f then f else (f + 1)%Z.

Definition round3 (x : Q) : Q := inject_Z (round_half_even (x * 1000)) / 1000.

(** Reading [datetime.now().isoformat()] in a module whose top level binds
    the names [globals]: the global name [datetime] is looked up first;
    [clock] is what the system clock then answers. *)
Definition datetime_now (globals : list string) (clock : string)
  : result string :=
  if existsb (String.eqb "datetime") globals then Ok clock
  else Raise (NameError "datetime").

(** Keys of a dict: a type with a boolean equality. *)
Class Key (K : Type) := key_eqb : K -> K -> bool.

#[export] Instance string_Key : Key string := String.eqb.

Section Dict.
Context {K V : Type} `{Key K}.

Definition dict := list (K * V).

Fixpoint dict_get (d : dict) (k : K) : option V :=
  match d with
  | [] => None
  | (k', v) :: d' => if key_eqb k' k then Some v else dict_get d' k
  end.

(** [d[k] = v]: an existing key keeps its position. *)
Fixpoint dict_set (d : dict) (k : K) (v : V) : dict :=
  match d with
  | [] => [(k, v)]
  | (k', v') :: d' =>
      if key_eqb k' k then (k, v) :: d' else (k', v') :: dict_set d' k v
  end.

Definition dict_mem (d : dict) (k : K) : bool :=
  match dict_get d k with Some _ => true | None => false end.

Definition keys (d : dict) : list K := map fst d.
Definition values (d : dict) : list V := map snd d.
End Dict.
Arguments dict K V : clear implicits.

End Py.

Import Py.

Declare Scope py_scope.
Notation "x <- m ;; k" := (Py.bind m (fun x => k))
  (at level 61, m at next level, right associativity) : py_scope.
#[local] Open Scope py_scope.

(** ** The six ordinal signals *)

Inductive signal : Type :=
| STRONG_SELL | SELL | WEAK_HOLD | HOLD | BUY | STRONG_BUY.

Definition signal_eqb (a b : signal) : bool :=
  match a, b with
  | STRONG_SELL, STRONG_SELL | SELL, SELL | WEAK_HOLD, WEAK_HOLD
  | HOLD, HOLD | BUY, BUY | STRONG_BUY, STRONG_BUY => true
  | _, _ => false
  end.

#[export] Instance signal_Key : Key signal := signal_eqb.

(** Position of a signal in the ordinal scale. *)
Definition signal_rank (s : signal) : nat :=
  match s with
  | STRONG_SELL => 0 | SELL => 1 | WEAK_HOLD => 2
  | HOLD => 3 | BUY => 4 | STRONG_BUY => 5
  end.

(** ** Agent results ([Dict[str, Any]] built by the agents) *)

Record AgentResult : Type := mkAgentResult {
  agent_name_of : string;
  weight : option Q;
  error : option string;
  scores : option (dict string Q);
  overall_score : option Q;
  analysis : option string;
  (** numeric diagnostics; a value is a number or [None] *)
  key_metrics : option (dict string (option Q));
  recommendation_signal : option signal;
  confidence : option Q;
  timestamp : option string
}.

(** ** [core/base_agent.py] *)

Module BaseAgent.

(** Names bound at module level by the [import] lines of the file. *)
Definition module_globals : list string :=
  ["ABC"; "abstractmethod"; "Dict"; "Any"; "Optional"; "datetime"; "BaseAgent"].

Definition get_recommendation_signal (score : Q) : signal :=
  if Qle_bool 0.75 score then STRONG_BUY
  else if Qle_bool 0.65 score then BUY
  else if Qle_bool 0.55 score then HOLD
  else if Qle_bool 0.45 score then WEAK_HOLD
  else if Qle_bool 0.35 score then SELL
  else STRONG_SELL.

Definition create_response (name : string) (w : Q) (clock : string)
    (scores : dict string Q) (analysis : string)
    (key_metrics : dict string (option Q)) (confidence : Q)
  : result AgentResult :=
  overall <- Py.div (Py.sum (values scores)) (Py.len scores) ;;
  now <- datetime_now module_globals clock ;;
  Ok {| agent_name_of := name;
        weight := Some w;
        error := None;
        scores := Some scores;
        overall_score := Some overall;
        analysis := Some analysis;
        key_metrics := Some key_metrics;
        recommendation_signal := Some (get_recommendation_signal overall);
        confidence := Some confidence;
        timestamp := Some now |}.

End BaseAgent.

(** ** What the data collaborators hand to the agents *)

(** The dict [PriceFetcher.fetch_fundamentals] returns on success.  A numeric
    field is a number or [None]. *)
Record Fundamentals : Type := mkFundamentals {
  sector : option string;
  market_cap : option Q;
  pe_ratio : option Q;
  pb_ratio : option Q;
  roe : option Q;
  debt_to_equity : option Q;
  profit_margin : option Q;
  revenue_growth : option Q
}.

(** The dict [PriceFetcher.fetch_price_data] returns on success; [None] is a
    key that is not there, which [.get(k, 0)] reads as [0]. *)
Record PriceData : Type := mkPriceData {
  current_price : option Q;
  high_52w : option Q;
  low_52w : option Q;
  volume_avg : option Q
}.

(** A fetcher answers with the data or with [{"error": msg}]. *)
Inductive fetched (A : Type) : Type :=
| Fetched (data : A)
| FetchError (msg : string).
Arguments Fetched {A} data.
Arguments FetchError {A} msg.

(** The price history ([yfinance] DataFrame).  Only its length and the two
    statistics the risk agent derives from the closing prices with pandas and
    numpy are kept; the statistics are taken as given. *)
Record Hist : Type := mkHist {
  hist_len : nat;
  annualized_volatility : Q;   (* returns.std() * np.sqrt(252) *)
  hist_max_drawdown : Q        (* abs(drawdown.min()) *)
}.

(** [not hist.empty and len(hist) >= 252] *)
Definition year_of_history (hist : Hist) : bool :=
  negb (Nat.eqb (hist_len hist) 0) && Nat.leb 252 (hist_len hist).

(** The dict [TechnicalCalculator.calculate_indicators] returns; [None] is a
    key that is absent or holds [None]. *)
Record Indicators : Type := mkIndicators {
  ind_current_price : option Q;
  rsi14 : option Q;
  sma20 : option Q;
  sma50 : option Q;
  sma200 : option Q;
  macd : option Q;
  macd_signal : option Q;
  bb_upper : option Q;
  bb_middle : option Q;
  bb_lower : option Q
}.

(** Everything outside the engine that an [analyze] call consults. *)
Record World : Type := mkWorld {
  fetch_fundamentals : string -> fetched Fundamentals;
  fetch_price_data : string -> fetched PriceData;
  (** [yf.Ticker(ticker).history(period=...)], which may raise *)
  history : string -> string -> result Hist;
  calculate_indicators : Hist -> fetched Indicators;
  (** the peers read from the NSE file when the ticker has no predefined ones *)
  nse_group_a_peers : string -> list string;
  (** the text an agent's [_generate_analysis] writes; its wording is not
      modelled *)
  narrative : string -> string;
  clock : string
}.

(** [d.get(k, default)] on a field that may be absent *)
Definition get_or {A} (v : option A) (default : A) : A :=
  match v with Some a => a | None => default end.

(** [max(0, min(1, x))] *)
Definition clamp01 (x : Q) : Q := Py.max 0 (Py.min 1 x).

(** Number of values that are not [None] *)
Definition available (l : list (option Q)) : Q :=
  Py.len (filter (fun v => match v with Some _ => true | None => false end) l).

(** ** [agents/fundamental_agent.py] *)

Module FundamentalAnalysisAgent.

(** Lines 1-8: [sys], [os], [BaseAgent], [PriceFetcher], [Dict], [Any],
    [pd]; then the class itself. *)
Definition module_globals : list string :=
  ["sys"; "os"; "BaseAgent"; "PriceFetcher"; "Dict"; "Any"; "pd";
   "FundamentalAnalysisAgent"].

Definition self_name : string := "Fundamental_Analysis_Agent".
Definition self_weight : Q := 0.30.

Definition valuation_score (f : Fundamentals) : Q :=
  let s := 0.5 in
  let s :=
    match pe_ratio f with
    | Some pe =>
        if Qeq_bool pe 0 then s
        else if Qle_bool 10 pe && Qle_bool pe 20 then s + 0.3
        else if Qlt_bool pe 10 then s + 0.4
        else if Qlt_bool 30 pe then s - 0.2
        else s
    | None => s
    end in
  let s :=
    match pb_ratio f with
    | Some pb =>
        if Qeq_bool pb 0 then s
        else if Qle_bool 1 pb && Qle_bool pb 3 then s + 0.2
        else if Qlt_bool pb 1 then s + 0.3
        else s
    | None => s
    end in
  clamp01 s.

Definition profitability_score (f : Fundamentals) : Q :=
  let s := 0.5 in
  let s :=
    match roe f with
    | Some r =>
        if negb (Qeq_bool r 0) && Qlt_bool 0 r then
          if Qle_bool 0.15 r then s + 0.3
          else if Qle_bool 0.10 r then s + 0.2
          else s
        else s
    | None => s
    end in
  let s :=
    match profit_margin f with
    | Some m =>
        if negb (Qeq_bool m 0) && Qlt_bool 0 m then
          if Qle_bool 0.15 m then s + 0.2
          else if Qle_bool 0.10 m then s + 0.1
          else s
        else s
    | None => s
    end in
  clamp01 s.

Definition financial_health_score (f : Fundamentals) : Q :=
  match debt_to_equity f with
  | Some d =>
      if Qle_bool d 0.3 then 0.9
      else if Qle_bool d 0.6 then 0.7
      else if Qle_bool d 1.0 then 0.5
      else 0.3
  | None => 0.7
  end.

Definition growth_score (f : Fundamentals) : Q :=
  match revenue_growth f with
  | Some g =>
      if Qeq_bool g 0 then 0.5
      else if Qle_bool 0.15 g then 0.9
      else if Qle_bool 0.10 g then 0.7
      else if Qle_bool 0.05 g then 0.6
      else if Qlt_bool g 0 then 0.3
      else 0.5
  | None => 0.5
  end.

Definition _calculate_fundamental_scores (f : Fundamentals) : dict string Q :=
  let scores := [] in
  let scores := dict_set scores "valuation_score" (valuation_score f) in
  let scores := dict_set scores "profitability_score" (profitability_score f) in
  let scores := dict_set scores "financial_health_score" (financial_health_score f) in
  let scores := dict_set scores "growth_score" (growth_score f) in
  scores.

Definition _extract_key_metrics (f : Fundamentals) : dict string (option Q) :=
  [("pe_ratio", pe_ratio f); ("pb_ratio", pb_ratio f); ("roe", roe f);
   ("debt_to_equity", debt_to_equity f); ("profit_margin", profit_margin f);
   ("revenue_growth", revenue_growth f); ("market_cap", market_cap f)].

Definition _calculate_confidence (f : Fundamentals) : Q :=
  let key_metrics := [pe_ratio f; roe f; debt_to_equity f; profit_margin f] in
  Py.min 0.95 (0.5 + (available key_metrics / Py.len key_metrics) * 0.4).

Definition _create_error_response (clock : string) (error_msg : string)
  : result AgentResult :=
  now <- datetime_now module_globals clock ;;
  Ok {| agent_name_of := self_name;
        weight := Some self_weight;
        error := Some error_msg;
        scores := Some [];
        overall_score := Some 0.5;
        analysis := Some ("Unable to perform fundamental analysis: " ++ error_msg);
        key_metrics := Some [];
        recommendation_signal := Some HOLD;
        confidence := Some 0.1;
        timestamp := Some now |}.

Definition analyze (w : World) (ticker : string) : result AgentResult :=
  try_except
    (match fetch_fundamentals w ticker with
     | FetchError msg => _create_error_response (clock w) msg
     | Fetched fundamentals =>
         let scores := _calculate_fundamental_scores fundamentals in
         let analysis := narrative w self_name in
         BaseAgent.create_response self_name self_weight (clock w) scores analysis
           (_extract_key_metrics fundamentals)
           (_calculate_confidence fundamentals)
     end)
    (fun e => _create_error_response (clock w) (str_of_exn e)).

End FundamentalAnalysisAgent.

(** ** [agents/macro_context_agent.py] *)

(** The dict [_get_macro_indicators] builds; [None] is a key that is not
    there, read through [.get(k, default)]. *)
Record MacroData : Type := mkMacroData {
  india_gdp_growth : option Q;
  inflation_rate : option Q;
  repo_rate : option Q;
  usd_inr_rate : option Q;
  usd_inr_volatility : option Q;
  india_market_sentiment : option string;
  fii_flows : option string
}.

Module MacroContextAgent.

Definition module_globals : list string :=
  ["sys"; "os"; "BaseAgent"; "Dict"; "Any"; "requests"; "datetime";
   "MacroContextAgent"].

Definition self_name : string := "Macro_Context_Agent".
Definition self_weight : Q := 0.15.

Definition sector_sensitivities : dict string (dict string Q) :=
  [("Technology", [("interest_rates", -0.3); ("gdp_growth", 0.4); ("inflation", -0.2); ("currency", 0.3)]);
   ("Banking", [("interest_rates", 0.5); ("gdp_growth", 0.6); ("inflation", -0.3); ("currency", 0.1)]);
   ("Energy", [("interest_rates", -0.2); ("gdp_growth", 0.3); ("inflation", 0.4); ("currency", 0.2)]);
   ("Consumer", [("interest_rates", -0.4); ("gdp_growth", 0.5); ("inflation", -0.5); ("currency", -0.1)]);
   ("Healthcare", [("interest_rates", -0.1); ("gdp_growth", 0.2); ("inflation", -0.1); ("currency", 0.1)]);
   ("Industrials", [("interest_rates", -0.3); ("gdp_growth", 0.7); ("inflation", -0.3); ("currency", 0.2)]);
   ("Materials", [("interest_rates", -0.2); ("gdp_growth", 0.6); ("inflation", 0.3); ("currency", 0.3)])].

Definition _get_macro_indicators : MacroData :=
  {| india_gdp_growth := Some 6.2;
     inflation_rate := Some 4.8;
     repo_rate := Some 6.5;
     usd_inr_rate := Some 83.2;
     usd_inr_volatility := Some 0.8;
     india_market_sentiment := Some "BULLISH";
     fii_flows := Some "POSITIVE" |}.

(** [self.sector_sensitivities.get(sector, {})]; a [None] sector is no key
    of the table. *)
Definition sensitivity_of (sector : option string) : dict string Q :=
  match sector with
  | Some s => get_or (dict_get sector_sensitivities s) []
  | None => []
  end.

Definition gdp_impact_score (sector : option string) (m : MacroData) : Q :=
  let gdp_growth := get_or (india_gdp_growth m) 6.0 in
  let gdp_score :=
    if Qle_bool 7.0 gdp_growth then 0.8
    else if Qle_bool 6.0 gdp_growth then 0.7
    else if Qle_bool 5.0 gdp_growth then 0.5
    else 0.3 in
  let gdp_sensitivity := get_or (dict_get (sensitivity_of sector) "gdp_growth") 0.3 in
  let gdp_score := 0.5 + (gdp_score - 0.5) * Qabs gdp_sensitivity in
  clamp01 gdp_score.

Definition interest_rate_impact_score (sector : option string) (m : MacroData) : Q :=
  let rate := get_or (repo_rate m) 6.5 in
  let interest_score :=
    if Qle_bool rate 5.0 then 0.7
    else if Qle_bool rate 6.5 then 0.6
    else if Qle_bool rate 8.0 then 0.4
    else 0.3 in
  let interest_sensitivity := get_or (dict_get (sensitivity_of sector) "interest_rates") 0 in
  let interest_score :=
    if Qlt_bool interest_sensitivity 0 then 1 - interest_score + 0.5
    else interest_score in
  clamp01 interest_score.

Definition inflation_impact_score (m : MacroData) : Q :=
  let inflation := get_or (inflation_rate m) 4.8 in
  if Qle_bool inflation 4.0 then 0.7
  else if Qle_bool inflation 6.0 then 0.6
  else if Qle_bool inflation 8.0 then 0.4
  else 0.2.

Definition is_str (v : option string) (s : string) : bool :=
  match v with Some x => String.eqb x s | None => false end.

Definition currency_impact_score (sector : option string) (m : MacroData) : Q :=
  let usd_inr := get_or (usd_inr_rate m) 83.0 in
  let currency_volatility := get_or (usd_inr_volatility m) 1.0 in
  let currency_score := 0.5 in
  let currency_score :=
    if is_str sector "Technology" then
      if Qle_bool 82 usd_inr then 0.7
      else if Qle_bool usd_inr 78 then 0.4
      else currency_score
    else currency_score in
  let currency_score :=
    if Qle_bool currency_volatility 0.5 then currency_score + 0.1
    else if Qle_bool 2.0 currency_volatility then currency_score - 0.1
    else currency_score in
  clamp01 currency_score.

Definition market_sentiment_score (m : MacroData) : Q :=
  let market_sentiment := get_or (india_market_sentiment m) "NEUTRAL" in
  let flows := get_or (fii_flows m) "NEUTRAL" in
  let sentiment_score := 0.5 in
  let sentiment_score :=
    if String.eqb market_sentiment "BULLISH" then sentiment_score + 0.2
    else if String.eqb market_sentiment "BEARISH" then sentiment_score - 0.2
    else sentiment_score in
  let sentiment_score :=
    if String.eqb flows "POSITIVE" then sentiment_score + 0.1
    else if String.eqb flows "NEGATIVE" then sentiment_score - 0.1
    else sentiment_score in
  clamp01 sentiment_score.

Definition _calculate_macro_scores (sector : option string) (m : MacroData)
  : dict string Q :=
  let scores := [] in
  let scores := dict_set scores "gdp_impact_score" (gdp_impact_score sector m) in
  let scores := dict_set scores "interest_rate_impact_score" (interest_rate_impact_score sector m) in
  let scores := dict_set scores "inflation_impact_score" (inflation_impact_score m) in
  let scores := dict_set scores "currency_impact_score" (currency_impact_score sector m) in
  let scores := dict_set scores "market_sentiment_score" (market_sentiment_score m) in
  scores.

Definition _extract_key_metrics (m : MacroData) : dict string (option Q) :=
  [("gdp_growth", india_gdp_growth m); ("inflation_rate", inflation_rate m);
   ("repo_rate", repo_rate m); ("usd_inr_rate", usd_inr_rate m)].

Definition _calculate_confidence (m : MacroData) : Q :=
  let key_indicators :=
    [india_gdp_growth m; inflation_rate m; repo_rate m; usd_inr_rate m] in
  Py.min 0.85 (0.5 + (available key_indicators / Py.len key_indicators) * 0.3).

Definition _create_error_response (clock : string) (error_msg : string)
  : result AgentResult :=
  now <- datetime_now module_globals clock ;;
  Ok {| agent_name_of := self_name;
        weight := Some self_weight;
        error := Some error_msg;
        scores := Some [];
        overall_score := Some 0.5;
        analysis := Some ("Unable to perform macro analysis: " ++ error_msg);
        key_metrics := Some [];
        recommendation_signal := Some HOLD;
        confidence := Some 0.1;
        timestamp := Some now |}.

Definition analyze (w : World) (ticker : string) : result AgentResult :=
  try_except
    (let sector :=
       match fetch_fundamentals w ticker with
       | Fetched fundamentals => sector fundamentals
       | FetchError _ => Some "Unknown"
       end in
     let macro_data := _get_macro_indicators in
     let scores := _calculate_macro_scores sector macro_data in
     let analysis := narrative w self_name in
     BaseAgent.create_response self_name self_weight (clock w) scores analysis
       (_extract_key_metrics macro_data) (_calculate_confidence macro_data))
    (fun e => _create_error_response (clock w) (str_of_exn e)).

End MacroContextAgent.

(** ** [agents/risk_assessment_agent.py] *)

Module RiskAssessmentAgent.

Definition module_globals : list string :=
  ["sys"; "os"; "BaseAgent"; "PriceFetcher"; "Dict"; "Any"; "yf"; "np";
   "datetime"; "RiskAssessmentAgent"].

Definition self_name : string := "Risk_Assessment_Agent".
Definition self_weight : Q := 0.15.

Definition valuation_risk_score (f : Fundamentals) : Q :=
  let s := 0.5 in
  let s :=
    match pe_ratio f with
    | Some pe =>
        if Qeq_bool pe 0 then s
        else if Qle_bool pe 15 then s + 0.3
        else if Qle_bool pe 25 then s + 0.1
        else if Qle_bool 40 pe then s - 0.3
        else if Qle_bool 30 pe then s - 0.1
        else s
    | None => s
    end in
  let s :=
    match pb_ratio f with
    | Some pb =>
        if Qeq_bool pb 0 then s
        else if Qle_bool pb 2 then s + 0.2
        else if Qle_bool 5 pb then s - 0.2
        else s
    | None => s
    end in
  clamp01 s.

Definition financial_risk_score (f : Fundamentals) : Q :=
  match debt_to_equity f with
  | Some d =>
      if Qle_bool d 0.3 then 0.9
      else if Qle_bool d 0.6 then 0.7
      else if Qle_bool d 1.0 then 0.4
      else 0.2
  | None => 0.7
  end.

Definition volatility_risk_score (hist : Hist) : Q :=
  if year_of_history hist then
    let volatility := annualized_volatility hist in
    if Qle_bool volatility 0.20 then 0.8
    else if Qle_bool volatility 0.35 then 0.6
    else if Qle_bool volatility 0.50 then 0.4
    else 0.2
  else 0.5.

(** [market_cap] holds what the fetcher stored, possibly [None]: the first
    comparison then raises [TypeError]. *)
Definition liquidity_risk_score (f : Fundamentals) (p : PriceData) : result Q :=
  cap <- Py.num (market_cap f) ;;
  let avg_volume := get_or (volume_avg p) 0 in
  let s :=
    if Qle_bool 100000000000 cap then 0.8
    else if Qle_bool 50000000000 cap then 0.6
    else if Qle_bool 10000000000 cap then 0.4
    else 0.3 in
  Ok (if negb (Qeq_bool avg_volume 0) && Qlt_bool 1000000 avg_volume
      then Py.min 1.0 (s + 0.1)
      else if negb (Qeq_bool avg_volume 0) && Qlt_bool avg_volume 100000
      then Py.max 0.1 (s - 0.2)
      else s).

Definition _calculate_safety_margin_score (f : Fundamentals) (p : PriceData) : Q :=
  let price := get_or (current_price p) 0 in
  if Qeq_bool price 0 || negb (Py.truthy (pe_ratio f)) then 0.5
  else
    let pe := get_or (pe_ratio f) 0 in
    let fair_pe :=
      match roe f with
      | Some r =>
          if Qeq_bool r 0 then 15
          else if Qle_bool 0.20 r then 20
          else if Qle_bool 0.15 r then 18
          else if Qle_bool r 0.10 then 12
          else 15
      | None => 15
      end in
    let estimated_eps := price / pe in
    let intrinsic_value := estimated_eps * fair_pe in
    if Qlt_bool 0 intrinsic_value then
      let safety_margin := (intrinsic_value - price) / intrinsic_value in
      if Qle_bool 0.30 safety_margin then 0.9
      else if Qle_bool 0.20 safety_margin then 0.8
      else if Qle_bool 0.10 safety_margin then 0.7
      else if Qle_bool 0 safety_margin then 0.6
      else if Qle_bool (-0.20) safety_margin then 0.4
      else 0.2
    else 0.5.

Definition _calculate_downside_risk_score (p : PriceData) (hist : Hist) : result Q :=
  let price := get_or (current_price p) 0 in
  let low := get_or (low_52w p) 0 in
  let high := get_or (high_52w p) 0 in
  s <- (if negb (Qeq_bool price 0) && negb (Qeq_bool low 0) && negb (Qeq_bool high 0)
        then
          range_position <- Py.div (price - low) (high - low) ;;
          Ok (if Qle_bool 0.8 range_position then 0.3
              else if Qle_bool 0.6 range_position then 0.5
              else if Qle_bool 0.4 range_position then 0.6
              else if Qle_bool 0.2 range_position then 0.7
              else 0.8)
        else Ok 0.5) ;;
  Ok (if year_of_history hist then
        let max_drawdown := hist_max_drawdown hist in
        if Qle_bool max_drawdown 0.20 then Py.min 1.0 (s + 0.1)
        else if Qle_bool 0.50 max_drawdown then Py.max 0.1 (s - 0.2)
        else s
      else s).

Definition _calculate_risk_scores (f : Fundamentals) (p : PriceData) (hist : Hist)
  : result (dict string Q) :=
  let scores := [] in
  let scores := dict_set scores "valuation_risk_score" (valuation_risk_score f) in
  let scores := dict_set scores "financial_risk_score" (financial_risk_score f) in
  let scores := dict_set scores "volatility_risk_score" (volatility_risk_score hist) in
  liquidity <- liquidity_risk_score f p ;;
  let scores := dict_set scores "liquidity_risk_score" liquidity in
  let scores := dict_set scores "safety_margin_score" (_calculate_safety_margin_score f p) in
  downside <- _calculate_downside_risk_score p hist ;;
  let scores := dict_set scores "downside_risk_score" downside in
  Ok scores.

Definition _extract_key_metrics (f : Fundamentals) (p : PriceData) (hist : Hist)
  : dict string (option Q) :=
  let metrics :=
    [("current_price", current_price p); ("pe_ratio", pe_ratio f);
     ("debt_to_equity", debt_to_equity f); ("market_cap", market_cap f);
     ("high_52w", high_52w p); ("low_52w", low_52w p);
     ("volume_avg", volume_avg p)] in
  let metrics :=
    if year_of_history hist then
      dict_set (dict_set metrics "annualized_volatility" (Some (annualized_volatility hist)))
        "max_drawdown" (Some (hist_max_drawdown hist))
    else metrics in
  let price := get_or (current_price p) 0 in
  if negb (Qeq_bool price 0) && Py.truthy (pe_ratio f) then
    let intrinsic_value := (price / get_or (pe_ratio f) 0) * 15 in
    dict_set (dict_set metrics "estimated_intrinsic_value" (Some intrinsic_value))
      "safety_margin_percent"
      (if Qlt_bool 0 intrinsic_value
       then Some ((intrinsic_value - price) / intrinsic_value * 100)
       else None)
  else metrics.

Definition _calculate_confidence (f : Fundamentals) (hist : Hist) : Q :=
  let key_metrics := [pe_ratio f; debt_to_equity f; market_cap f] in
  let data_quality_factor := available key_metrics / Py.len key_metrics in
  let history_factor := if year_of_history hist then 1.0 else 0.5 in
  Py.min 0.9 (0.4 + data_quality_factor * 0.3 + history_factor * 0.2).

Definition _create_error_response (clock : string) (error_msg : string)
  : result AgentResult :=
  now <- datetime_now module_globals clock ;;
  Ok {| agent_name_of := self_name;
        weight := Some self_weight;
        error := Some error_msg;
        scores := Some [];
        overall_score := Some 0.5;
        analysis := Some ("Unable to perform risk assessment: " ++ error_msg);
        key_metrics := Some [];
        recommendation_signal := Some HOLD;
        confidence := Some 0.1;
        timestamp := Some now |}.

Definition analyze (w : World) (ticker : string) : result AgentResult :=
  try_except
    (match fetch_fundamentals w ticker, fetch_price_data w ticker with
     | Fetched fundamentals, Fetched price_data =>
         hist <- history w ticker "2y" ;;
         scores <- _calculate_risk_scores fundamentals price_data hist ;;
         let analysis := narrative w self_name in
         BaseAgent.create_response self_name self_weight (clock w) scores analysis
           (_extract_key_metrics fundamentals price_data hist)
           (_calculate_confidence fundamentals hist)
     | _, _ =>
         _create_error_response (clock w)
           "Unable to fetch required data for risk analysis"
     end)
    (fun e => _create_error_response (clock w) (str_of_exn e)).

End RiskAssessmentAgent.

(** ** [agents/technical_agent.py] *)

Module TechnicalAnalysisAgent.

Definition module_globals : list string :=
  ["sys"; "os"; "BaseAgent"; "TechnicalCalculator"; "PriceFetcher"; "Dict";
   "Any"; "yf"; "datetime"; "TechnicalAnalysisAgent"].

Definition self_name : string := "Technical_Analysis_Agent".
Definition self_weight : Q := 0.25.

Definition momentum_score (i : Indicators) : Q :=
  match rsi14 i with
  | Some rsi =>
      if Qeq_bool rsi 0 then 0.5
      else if Qle_bool 40 rsi && Qle_bool rsi 60 then 0.6
      else if Qle_bool 30 rsi && Qlt_bool rsi 40 then 0.8
      else if Qlt_bool 60 rsi && Qle_bool rsi 70 then 0.4
      else if Qlt_bool rsi 30 then 0.9
      else if Qlt_bool 80 rsi then 0.2
      else 0.5
  | None => 0.5
  end.

Definition trend_score (i : Indicators) : Q :=
  let price := get_or (ind_current_price i) 0 in
  let s20 := get_or (sma20 i) 0 in
  let s50 := get_or (sma50 i) 0 in
  let s200 := get_or (sma200 i) 0 in
  if negb (Qeq_bool price 0) && negb (Qeq_bool s20 0) && negb (Qeq_bool s50 0) then
    if Qlt_bool s20 price && Qlt_bool s50 s20 then
      if negb (Qeq_bool s200 0) && Qlt_bool s200 s50 then 0.9 else 0.8
    else if Qlt_bool price s20 && Qlt_bool s20 s50 then
      if negb (Qeq_bool s200 0) && Qlt_bool s50 s200 then 0.1 else 0.2
    else if Qlt_bool s20 price then 0.6
    else if Qlt_bool price s20 then 0.4
    else 0.5
  else 0.5.

Definition macd_score (i : Indicators) : Q :=
  match macd i, macd_signal i with
  | Some m, Some sg =>
      if Qlt_bool sg m && Qlt_bool 0 m then 0.8
      else if Qlt_bool sg m && Qlt_bool m 0 then 0.6
      else if Qlt_bool m sg && Qlt_bool m 0 then 0.2
      else if Qlt_bool m sg && Qlt_bool 0 m then 0.4
      else 0.5
  | _, _ => 0.5
  end.

Definition volatility_score (i : Indicators) : result Q :=
  let price := get_or (ind_current_price i) 0 in
  if negb (Qeq_bool price 0) && Py.truthy (bb_upper i) && Py.truthy (bb_lower i) then
    let upper := get_or (bb_upper i) 0 in
    let lower := get_or (bb_lower i) 0 in
    bb_position <- Py.div (price - lower) (upper - lower) ;;
    Ok (if Qle_bool 0.3 bb_position && Qle_bool bb_position 0.7 then 0.7
        else if Qlt_bool bb_position 0.2 then 0.8
        else if Qlt_bool 0.8 bb_position then 0.3
        else 0.5)
  else Ok 0.5.

Definition price_position_score (i : Indicators) (p : PriceData) : result Q :=
  let price := get_or (ind_current_price i) 0 in
  let high := get_or (high_52w p) 0 in
  let low := get_or (low_52w p) 0 in
  if negb (Qeq_bool high 0) && negb (Qeq_bool low 0) && negb (Qeq_bool price 0) then
    position <- Py.div (price - low) (high - low) ;;
    Ok (if Qle_bool 0.6 position && Qle_bool position 0.8 then 0.8
        else if Qle_bool 0.4 position && Qlt_bool position 0.6 then 0.6
        else if Qlt_bool position 0.3 then 0.7
        else if Qlt_bool 0.9 position then 0.4
        else 0.5)
  else Ok 0.5.

Definition _calculate_technical_scores (i : Indicators) (price_data : fetched PriceData)
  : result (dict string Q) :=
  let scores := [] in
  let scores := dict_set scores "momentum_score" (momentum_score i) in
  let scores := dict_set scores "trend_score" (trend_score i) in
  let scores := dict_set scores "macd_score" (macd_score i) in
  volatility <- volatility_score i ;;
  let scores := dict_set scores "volatility_score" volatility in
  match price_data with
  | Fetched p =>
      position <- price_position_score i p ;;
      Ok (dict_set scores "price_position_score" position)
  | FetchError _ => Ok scores
  end.

Definition _extract_key_metrics (i : Indicators) (price_data : fetched PriceData)
  : dict string (option Q) :=
  let metrics :=
    [("current_price", ind_current_price i); ("rsi14", rsi14 i);
     ("sma20", sma20 i); ("sma50", sma50 i); ("sma200", sma200 i);
     ("macd", macd i); ("macd_signal", macd_signal i);
     ("bb_upper", bb_upper i); ("bb_middle", bb_middle i);
     ("bb_lower", bb_lower i)] in
  match price_data with
  | Fetched p =>
      dict_set (dict_set (dict_set metrics "high_52w" (high_52w p))
                  "low_52w" (low_52w p)) "volume_avg" (volume_avg p)
  | FetchError _ => metrics
  end.

Definition _calculate_confidence (i : Indicators) : Q :=
  let key_indicators := [rsi14 i; sma20 i; sma50 i; macd i; bb_upper i] in
  Py.min 0.95 (0.6 + (available key_indicators / Py.len key_indicators) * 0.3).

Definition _create_error_response (clock : string) (error_msg : string)
  : result AgentResult :=
  now <- datetime_now module_globals clock ;;
  Ok {| agent_name_of := self_name;
        weight := Some self_weight;
        error := Some error_msg;
        scores := Some [];
        overall_score := Some 0.5;
        analysis := Some ("Unable to perform technical analysis: " ++ error_msg);
        key_metrics := Some [];
        recommendation_signal := Some HOLD;
        confidence := Some 0.1;
        timestamp := Some now |}.

Definition analyze (w : World) (ticker : string) : result AgentResult :=
  try_except
    (hist <- history w ticker "1y" ;;
     if Nat.eqb (hist_len hist) 0 || Nat.ltb (hist_len hist) 50 then
       _create_error_response (clock w) "Insufficient historical data"
     else
       match calculate_indicators w hist with
       | FetchError msg => _create_error_response (clock w) msg
       | Fetched indicators =>
           let price_data := fetch_price_data w ticker in
           scores <- _calculate_technical_scores indicators price_data ;;
           let analysis := narrative w self_name in
           BaseAgent.create_response self_name self_weight (clock w) scores
             analysis (_extract_key_metrics indicators price_data)
             (_calculate_confidence indicators)
       end)
    (fun e => _create_error_response (clock w) (str_of_exn e)).

End TechnicalAnalysisAgent.

(** ** [agents/peer_comparison_agent.py] *)

Module PeerComparisonAgent.

Definition module_globals : list string :=
  ["sys"; "os"; "BaseAgent"; "PriceFetcher"; "Dict"; "Any"; "List"; "pd";
   "datetime"; "PeerComparisonAgent"].

Definition self_name : string := "Peer_Comparison_Agent".
Definition self_weight : Q := 0.15.

Definition sector_peers : dict string (list string) :=
  [("INFY.NS", ["TCS.NS"; "WIPRO.NS"; "HCLTECH.NS"; "TECHM.NS"]);
   ("TCS.NS", ["INFY.NS"; "WIPRO.NS"; "HCLTECH.NS"; "TECHM.NS"]);
   ("RELIANCE.NS", ["ONGC.NS"; "IOC.NS"; "BPCL.NS"]);
   ("HDFCBANK.NS", ["ICICIBANK.NS"; "AXISBANK.NS"; "KOTAKBANK.NS"; "SBIN.NS"]);
   ("ICICIBANK.NS", ["HDFCBANK.NS"; "AXISBANK.NS"; "KOTAKBANK.NS"; "SBIN.NS"]);
   ("ITC.NS", ["HUL.NS"; "NESTLEIND.NS"; "BRITANNIA.NS"]);
   ("HINDUNILVR.NS", ["ITC.NS"; "NESTLEIND.NS"; "BRITANNIA.NS"]);
   ("MARUTI.NS", ["TATAMOTORS.NS"; "M&M.NS"; "BAJAJ-AUTO.NS"]);
   ("TATAMOTORS.NS", ["MARUTI.NS"; "M&M.NS"; "BAJAJ-AUTO.NS"])].

Definition _get_peers (w : World) (ticker : string) : list string :=
  match dict_get sector_peers ticker with
  | Some peers => peers
  | None => nse_group_a_peers w ticker
  end.

Definition _fetch_peer_data (w : World) (peers : list string) : list Fundamentals :=
  flat_map (fun peer_ticker =>
              match fetch_fundamentals w peer_ticker with
              | Fetched f => [f]
              | FetchError _ => []
              end)
           (firstn 4 peers).

(** [[p.get(k) for p in peers if p.get(k)]] *)
Definition truthy_values (field : Fundamentals -> option Q) (peers : list Fundamentals)
  : list Q :=
  flat_map (fun p => if Py.truthy (field p) then [get_or (field p) 0] else []) peers.

(** [sorted(l)[len(l)//2]] *)
Definition median (l : list Q) : result Q :=
  Py.item (Py.sorted l) (Nat.div (List.length l) 2).

Definition relative_valuation_score (target : Fundamentals) (peers : list Fundamentals)
  : result Q :=
  let peer_pes := truthy_values pe_ratio peers in
  if Py.truthy (pe_ratio target) && negb (Nat.eqb (List.length peer_pes) 0) then
    let target_pe := get_or (pe_ratio target) 0 in
    peer_median_pe <- median peer_pes ;;
    Ok (if Qlt_bool target_pe (peer_median_pe * 0.8) then 0.8
        else if Qlt_bool target_pe peer_median_pe then 0.7
        else if Qlt_bool (peer_median_pe * 1.2) target_pe then 0.3
        else if Qlt_bool peer_median_pe target_pe then 0.4
        else 0.5)
  else Ok 0.5.

Definition relative_profitability_score (target : Fundamentals) (peers : list Fundamentals)
  : result Q :=
  let peer_roes := truthy_values roe peers in
  if Py.truthy (roe target) && negb (Nat.eqb (List.length peer_roes) 0) then
    let target_roe := get_or (roe target) 0 in
    peer_median_roe <- median peer_roes ;;
    Ok (if Qlt_bool (peer_median_roe * 1.2) target_roe then 0.8
        else if Qlt_bool peer_median_roe target_roe then 0.7
        else if Qlt_bool target_roe (peer_median_roe * 0.8) then 0.3
        else if Qlt_bool target_roe peer_median_roe then 0.4
        else 0.5)
  else Ok 0.5.

(** [(len(all) - rank + 1) / len(all)] with [rank = ordered.index(x) + 1] *)
Definition percentile (ordered : list Q) (x : Q) : result Q :=
  idx <- Py.index ordered x ;;
  let rank := inject_Z (Z.of_nat idx) + 1 in
  Py.div (Py.len ordered - rank + 1) (Py.len ordered).

Definition ranking_factors (target : Fundamentals) (peers : list Fundamentals)
  : result (list Q) :=
  let peer_pes := truthy_values pe_ratio peers in
  let peer_roes := truthy_values roe peers in
  factors <-
    (if Py.truthy (pe_ratio target) && negb (Nat.eqb (List.length peer_pes) 0) then
       let target_pe := get_or (pe_ratio target) 0 in
       let all_pes := (peer_pes ++ [target_pe])%list in
       pe_percentile <- percentile (Py.sorted all_pes) target_pe ;;
       Ok [pe_percentile]
     else Ok []) ;;
  (if Py.truthy (roe target) && negb (Nat.eqb (List.length peer_roes) 0) then
     let target_roe := get_or (roe target) 0 in
     let all_roes := (peer_roes ++ [target_roe])%list in
     roe_percentile <- percentile (Py.sorted_reverse all_roes) target_roe ;;
     Ok (factors ++ [roe_percentile])%list
   else Ok factors).

Definition peer_ranking_score (target : Fundamentals) (peers : list Fundamentals)
  : result Q :=
  factors <- ranking_factors target peers ;;
  match factors with
  | [] => Ok 0.5
  | _ => Py.div (Py.sum factors) (Py.len factors)
  end.

Definition _calculate_peer_scores (target : Fundamentals) (peers : list Fundamentals)
  : result (dict string Q) :=
  match peers with
  | [] =>
      Ok [("relative_valuation_score", 0.5);
          ("relative_profitability_score", 0.5);
          ("peer_ranking_score", 0.5)]
  | _ =>
      let scores := [] in
      valuation <- relative_valuation_score target peers ;;
      let scores := dict_set scores "relative_valuation_score" valuation in
      profitability <- relative_profitability_score target peers ;;
      let scores := dict_set scores "relative_profitability_score" profitability in
      ranking <- peer_ranking_score target peers ;;
      Ok (dict_set scores "peer_ranking_score" ranking)
  end.

Definition _extract_key_metrics (target : Fundamentals) (peers : list Fundamentals)
  : result (dict string (option Q)) :=
  let metrics :=
    [("target_pe", pe_ratio target); ("target_roe", roe target);
     ("target_market_cap", market_cap target);
     ("peer_count", Some (Py.len peers))] in
  match peers with
  | [] => Ok metrics
  | _ =>
      let peer_pes := truthy_values pe_ratio peers in
      let peer_roes := truthy_values roe peers in
      metrics <-
        (match peer_pes with
         | [] => Ok metrics
         | _ =>
             m <- median peer_pes ;;
             a <- Py.div (Py.sum peer_pes) (Py.len peer_pes) ;;
             Ok (dict_set (dict_set metrics "peer_median_pe" (Some m))
                   "peer_avg_pe" (Some a))
         end) ;;
      match peer_roes with
      | [] => Ok metrics
      | _ =>
          m <- median peer_roes ;;
          a <- Py.div (Py.sum peer_roes) (Py.len peer_roes) ;;
          Ok (dict_set (dict_set metrics "peer_median_roe" (Some m))
                "peer_avg_roe" (Some a))
      end
  end.

Definition _calculate_confidence (peers : list Fundamentals) : result Q :=
  match peers with
  | [] => Ok 0.2
  | _ =>
      let peer_count_factor := Py.min 1.0 (Py.len peers / 3) in
      let complete_peers :=
        Py.len (filter (fun p => Py.truthy (pe_ratio p) && Py.truthy (roe p)) peers) in
      data_quality_factor <- Py.div complete_peers (Py.len peers) ;;
      Ok (Py.min 0.9 (0.4 + peer_count_factor * 0.3 + data_quality_factor * 0.2))
  end.

Definition _create_limited_analysis (clock : string) (target : Fundamentals)
    (reason : string) (text : string) : result AgentResult :=
  now <- datetime_now module_globals clock ;;
  Ok {| agent_name_of := self_name;
        weight := Some self_weight;
        error := None;
        scores := Some [("relative_valuation_score", 0.5);
                        ("relative_profitability_score", 0.5);
                        ("peer_ranking_score", 0.5)];
        overall_score := Some 0.5;
        analysis := Some ("Peer comparison limited: " ++ reason ++ text);
        key_metrics := Some [("target_pe", pe_ratio target);
                             ("target_roe", roe target);
                             ("peer_count", Some 0)];
        recommendation_signal := Some HOLD;
        confidence := Some 0.3;
        timestamp := Some now |}.

Definition _create_error_response (clock : string) (error_msg : string)
  : result AgentResult :=
  now <- datetime_now module_globals clock ;;
  Ok {| agent_name_of := self_name;
        weight := Some self_weight;
        error := Some error_msg;
        scores := Some [];
        overall_score := Some 0.5;
        analysis := Some ("Unable to perform peer comparison: " ++ error_msg);
        key_metrics := Some [];
        recommendation_signal := Some HOLD;
        confidence := Some 0.1;
        timestamp := Some now |}.

Definition analyze (w : World) (ticker : string) : result AgentResult :=
  try_except
    (match fetch_fundamentals w ticker with
     | FetchError msg =>
         _create_error_response (clock w) ("Cannot fetch target stock data: " ++ msg)
     | Fetched target_fundamentals =>
         match _get_peers w ticker with
         | [] =>
             _create_limited_analysis (clock w) target_fundamentals
               "No peer data available" (narrative w self_name)
         | peers =>
             let peer_data := _fetch_peer_data w peers in
             scores <- _calculate_peer_scores target_fundamentals peer_data ;;
             let analysis := narrative w self_name in
             metrics <- _extract_key_metrics target_fundamentals peer_data ;;
             conf <- _calculate_confidence peer_data ;;
             BaseAgent.create_response self_name self_weight (clock w) scores
               analysis metrics conf
         end
     end)
    (fun e => _create_error_response (clock w) (str_of_exn e)).

End PeerComparisonAgent.

(** ** [core/orchestrator.py] *)

(** The keys of [self.agents] and of [self.weights]. *)
Inductive agent_name : Type :=
| fundamental | technical | peer_comparison | macro_context | risk_assessment.

Definition agent_name_eqb (a b : agent_name) : bool :=
  match a, b with
  | fundamental, fundamental | technical, technical
  | peer_comparison, peer_comparison | macro_context, macro_context
  | risk_assessment, risk_assessment => true
  | _, _ => false
  end.

#[export] Instance agent_name_Key : Key agent_name := agent_name_eqb.

(** The key as the string the source writes. *)
Definition name_str (a : agent_name) : string :=
  match a with
  | fundamental => "fundamental"
  | technical => "technical"
  | peer_comparison => "peer_comparison"
  | macro_context => "macro_context"
  | risk_assessment => "risk_assessment"
  end.

(** An entry of [key_insights]; the two formatted numbers are kept as
    numbers. *)
Inductive insight : Type :=
| AttractiveValuation (pe : Q)      (* "Attractive valuation with P/E of {pe_ratio:.1f}" *)
| StrongProfitability (roe : Q)     (* "Strong profitability with ROE of {roe*100:.1f}%" *)
| Oversold                          (* "Oversold conditions may present buying opportunity" *)
| Overbought                        (* "Overbought conditions suggest caution" *)
| ConservativeBalanceSheet          (* "Conservative balance sheet with low debt" *)
| HighDebt.                         (* "High debt levels warrant careful monitoring" *)

(** The value of the ['recommendation'] key *)
Record Recommendation : Type := mkRecommendation {
  rec_signal : signal;
  rec_score : Q;
  rec_confidence : Q
}.

(** The dict [_aggregate_agent_results] returns *)
Record Aggregate : Type := mkAggregate {
  recommendation : Recommendation;
  agent_scores : dict agent_name Q;
  summary_analysis : string;
  key_insights : list insight;
  risk_factors : list string;
  opportunities : list string
}.

(** What [analyze_stock] returns: the aggregate and the metadata added to it *)
Record Analysis : Type := mkAnalysis {
  aggregate : Aggregate;
  active_agents : list agent_name;
  agent_results : dict agent_name AgentResult
}.

Module MultiAgentOrchestrator.

Definition weights (a : agent_name) : Q :=
  match a with
  | fundamental => 0.30
  | technical => 0.25
  | peer_comparison => 0.15
  | macro_context => 0.15
  | risk_assessment => 0.15
  end.

Definition all_agents : list agent_name :=
  [fundamental; technical; peer_comparison; macro_context; risk_assessment].

(** *** Agent selection *)

(** [str.lower()] on ASCII text, character by character *)
Definition lower_ascii (c : ascii) : ascii :=
  let n := nat_of_ascii c in
  if Nat.leb 65 n && Nat.leb n 90 then ascii_of_nat (n + 32) else c.

Definition lower (s : string) : list ascii :=
  map lower_ascii (list_ascii_of_string s).

Fixpoint starts_with (word s : list ascii) : bool :=
  match word, s with
  | [], _ => true
  | _ :: _, [] => false
  | a :: word', b :: s' => Ascii.eqb a b && starts_with word' s'
  end.

(** [word in s] on strings: [word] occurs as a contiguous run of [s]. *)
Fixpoint occurs (word s : list ascii) : bool :=
  starts_with word s ||
  match s with
  | [] => false
  | _ :: s' => occurs word s'
  end.

(** [any(word in query_lower for word in words)] *)
Definition any_in (words : list string) (query_lower : list ascii) : bool :=
  existsb (fun word => occurs (list_ascii_of_string word) query_lower) words.

Definition _determine_active_agents (user_query : string) : list agent_name :=
  let query_lower := lower user_query in
  let active_agents := all_agents in
  if any_in ["fundamental"; "valuation"; "p/e"; "financial"; "balance sheet"] query_lower
  then [fundamental; peer_comparison; risk_assessment]
  else if any_in ["technical"; "chart"; "trend"; "momentum"; "rsi"; "macd"] query_lower
  then [technical; risk_assessment]
  else if any_in ["compare"; "peer"; "sector"; "vs"; "against"] query_lower
  then [fundamental; peer_comparison; technical]
  else if any_in ["macro"; "economy"; "gdp"; "inflation"; "interest rate"] query_lower
  then [macro_context; fundamental; risk_assessment]
  else if any_in ["risk"; "safe"; "downside"; "volatility"] query_lower
  then [risk_assessment; fundamental; technical]
  else if any_in ["buy"; "sell"; "invest"; "recommendation"] query_lower
  then [fundamental; technical; peer_comparison; macro_context; risk_assessment]
  else active_agents.

(** *** Aggregation *)

(** One turn of the loop of lines 121-128 on
    [(total_weighted_score, total_weight, agent_scores)]. *)
Definition accumulate (agent_results : dict agent_name AgentResult)
    (st : Q * Q * dict agent_name Q) (a : agent_name)
  : Q * Q * dict agent_name Q :=
  let '(total_weighted_score, total_weight, agent_scores) := st in
  match dict_get agent_results a with
  | Some r =>
      match overall_score r with
      | Some score =>
          let weight := weights a in
          (total_weighted_score + score * weight,
           total_weight + weight,
           dict_set agent_scores a score)
      | None => st
      end
  | None => st
  end.

Definition weighted_totals (agent_results : dict agent_name AgentResult)
    (active_agents : list agent_name) : Q * Q * dict agent_name Q :=
  fold_left (accumulate agent_results) active_agents (0, 0, []).

Definition final_score (agent_results : dict agent_name AgentResult)
    (active_agents : list agent_name) : Q :=
  let '(total_weighted_score, total_weight, _) :=
    weighted_totals agent_results active_agents in
  if Qlt_bool 0 total_weight then total_weighted_score / total_weight else 0.5.

(** Lines 159-170: the base recommendation of a score *)
Definition base_signal (score : Q) : signal :=
  if Qle_bool 0.75 score then STRONG_BUY
  else if Qle_bool 0.65 score then BUY
  else if Qle_bool 0.55 score then HOLD
  else if Qle_bool 0.45 score then WEAK_HOLD
  else if Qle_bool 0.35 score then SELL
  else STRONG_SELL.

(** Lines 173-176 and 205-208: the signals of all results that carry one *)
Definition agent_signals (agent_results : dict agent_name AgentResult)
  : list signal :=
  flat_map (fun r => match recommendation_signal r with
                     | Some s => [s]
                     | None => []
                     end)
           (values agent_results).

Definition is_negative (s : signal) : bool :=
  match s with STRONG_SELL | SELL => true | _ => false end.

Definition is_positive (s : signal) : bool :=
  match s with STRONG_BUY | BUY => true | _ => false end.

(** [sum(1 for signal in signals if p(signal))] *)
Definition count (p : signal -> bool) (signals : list signal) : nat :=
  List.length (filter p signals).

Definition _get_final_recommendation_signal (score : Q)
    (agent_results : dict agent_name AgentResult) : signal :=
  let base := base_signal score in
  let signals := agent_signals agent_results in
  let strong_negative_count := count is_negative signals in
  let strong_positive_count := count is_positive signals in
  if Nat.leb 3 (List.length signals) then
    if Nat.leb 2 strong_negative_count && is_positive base then HOLD
    else if Nat.leb 2 strong_positive_count && is_negative base then WEAK_HOLD
    else base
  else base.

(** Line 214: [signal_counts[signal] = signal_counts.get(signal, 0) + 1] *)
Definition tally (counts : dict signal nat) (s : signal) : dict signal nat :=
  dict_set counts s (get_or (dict_get counts s) O + 1)%nat.

(** Lines 212-214: the occurrence count of every signal *)
Definition signal_counts (signals : list signal) : dict signal nat :=
  fold_left tally signals [].

(** Lines 193-196 *)
Definition confidences (agent_results : dict agent_name AgentResult)
    (active_agents : list agent_name) : list Q :=
  flat_map (fun a => match dict_get agent_results a with
                     | Some r => match confidence r with
                                 | Some c => [c]
                                 | None => []
                                 end
                     | None => []
                     end)
           active_agents.

Definition _calculate_overall_confidence
    (agent_results : dict agent_name AgentResult)
    (active_agents : list agent_name) : Q :=
  let cs := confidences agent_results active_agents in
  match cs with
  | [] => 0.5
  | _ =>
      let avg_confidence := Py.sum cs / Py.len cs in
      let signals := agent_signals agent_results in
      if Nat.leb 2 (List.length signals) then
        let max_count := fold_left Nat.max (values (signal_counts signals)) O in
        let consensus_factor := inject_Z (Z.of_nat max_count) / Py.len signals in
        if Qle_bool 0.8 consensus_factor then Py.min 0.95 (avg_confidence + 0.1)
        else if Qle_bool consensus_factor 0.4 then Py.max 0.2 (avg_confidence - 0.1)
        else avg_confidence
      else avg_confidence
  end.

(** *** Summary and extraction *)

(** [agent_name.replace('_', ' ').title()] *)
Definition display_name (a : agent_name) : string :=
  match a with
  | fundamental => "Fundamental"
  | technical => "Technical"
  | peer_comparison => "Peer Comparison"
  | macro_context => "Macro Context"
  | risk_assessment => "Risk Assessment"
  end.

Definition _generate_summary_analysis (agent_results : dict agent_name AgentResult)
    (final_score : Q) (final_signal : signal) : string :=
  let overall :=
    if Qle_bool 0.7 final_score then
      "Strong investment opportunity with favorable metrics across multiple dimensions."
    else if Qle_bool 0.6 final_score then
      "Positive investment case with good fundamentals and technical setup."
    else if Qle_bool 0.5 final_score then
      "Mixed signals suggest a balanced risk-reward profile."
    else if Qle_bool 0.4 final_score then
      "Cautious outlook with several concerning factors."
    else "Weak investment case with multiple risk factors." in
  let summary_parts :=
    overall ::
    flat_map (fun '(a, r) =>
                match analysis r with
                | Some text =>
                    if String.eqb text "" then []
                    else [display_name a ++ ": " ++ text]
                | None => []
                end)
             agent_results in
  String.concat " " summary_parts.

(** [metrics.get(k)] where the stored value may itself be [None] *)
Definition metric (metrics : dict string (option Q)) (k : string) : option Q :=
  match dict_get metrics k with
  | Some v => v
  | None => None
  end.

(** [v and p(v)] *)
Definition and_then (v : option Q) (p : Q -> bool) : bool :=
  match v with
  | Some q => negb (Qeq_bool q 0) && p q
  | None => false
  end.

(** The key metrics of one agent's result, when it has any *)
Definition metrics_of (agent_results : dict agent_name AgentResult) (a : agent_name)
  : option (dict string (option Q)) :=
  match dict_get agent_results a with
  | Some r => key_metrics r
  | None => None
  end.

Definition _extract_key_insights (agent_results : dict agent_name AgentResult)
  : list insight :=
  let insights := [] in
  let insights :=
    match metrics_of agent_results fundamental with
    | Some metrics =>
        let pe_ratio := metric metrics "pe_ratio" in
        let roe := metric metrics "roe" in
        let insights :=
          if and_then pe_ratio (fun pe => Qlt_bool pe 15)
          then (insights ++ [AttractiveValuation (get_or pe_ratio 0)])%list
          else insights in
        if and_then roe (fun r => Qlt_bool 0.15 r)
        then (insights ++ [StrongProfitability (get_or roe 0)])%list
        else insights
    | None => insights
    end in
  let insights :=
    match metrics_of agent_results technical with
    | Some metrics =>
        let rsi := metric metrics "rsi14" in
        if and_then rsi (fun r => Qlt_bool r 30)
        then (insights ++ [Oversold])%list
        else if and_then rsi (fun r => Qlt_bool 70 r)
        then (insights ++ [Overbought])%list
        else insights
    | None => insights
    end in
  let insights :=
    match metrics_of agent_results risk_assessment with
    | Some metrics =>
        let debt_equity := metric metrics "debt_to_equity" in
        if and_then debt_equity (fun d => Qlt_bool d 0.3)
        then (insights ++ [ConservativeBalanceSheet])%list
        else if and_then debt_equity (fun d => Qlt_bool 1.0 d)
        then (insights ++ [HighDebt])%list
        else insights
    | None => insights
    end in
  firstn 5 insights.

Definition risk_map : dict agent_name (dict string string) :=
  [(fundamental,
    [("valuation_score", "Expensive valuation multiples");
     ("profitability_score", "Weak profitability metrics");
     ("financial_health_score", "Poor financial health")]);
   (technical,
    [("momentum_score", "Negative price momentum");
     ("trend_score", "Bearish trend signals")]);
   (risk_assessment,
    [("valuation_risk_score", "High valuation risk");
     ("financial_risk_score", "Elevated financial risk");
     ("safety_margin_score", "Limited safety margin")])].

Definition opp_map : dict agent_name (dict string string) :=
  [(fundamental,
    [("valuation_score", "Attractive valuation opportunity");
     ("profitability_score", "Strong profitability metrics");
     ("growth_score", "Solid growth prospects")]);
   (technical,
    [("momentum_score", "Positive momentum building");
     ("trend_score", "Strong uptrend in place")]);
   (macro_context,
    [("gdp_impact_score", "Favorable economic environment");
     ("market_sentiment_score", "Positive market sentiment")])].

Definition _get_risk_description (a : agent_name) (score_name : string)
    (score_value : Q) : string :=
  get_or (dict_get (get_or (dict_get risk_map a) []) score_name) "".

Definition _get_opportunity_description (a : agent_name) (score_name : string)
    (score_value : Q) : string :=
  get_or (dict_get (get_or (dict_get opp_map a) []) score_name) "".

(** The two scans of lines 303-312 and 322-331 differ in the test on the
    score and in the phrase table. *)
Definition scan (hit : Q -> bool) (describe : agent_name -> string -> Q -> string)
    (agent_results : dict agent_name AgentResult) : list string :=
  flat_map (fun '(a, r) =>
              match scores r with
              | Some scores =>
                  flat_map (fun '(score_name, score_value) =>
                              if hit score_value then
                                let description := describe a score_name score_value in
                                if String.eqb description "" then [] else [description]
                              else [])
                           scores
              | None => []
              end)
           agent_results.

Definition _extract_risk_factors (agent_results : dict agent_name AgentResult)
  : list string :=
  firstn 4 (scan (fun v => Qle_bool v 0.4) _get_risk_description agent_results).

Definition _extract_opportunities (agent_results : dict agent_name AgentResult)
  : list string :=
  firstn 4 (scan (fun v => Qle_bool 0.7 v) _get_opportunity_description agent_results).

Definition _create_agent_error (a : agent_name) (error_msg : string) : AgentResult :=
  {| agent_name_of := name_str a;
     weight := None;
     error := Some error_msg;
     scores := None;
     overall_score := Some 0.5;
     analysis := Some ("Agent " ++ name_str a ++ " failed: " ++ error_msg);
     key_metrics := None;
     recommendation_signal := Some HOLD;
     confidence := Some 0.1;
     timestamp := None |}.

Definition _aggregate_agent_results (agent_results : dict agent_name AgentResult)
    (active_agents : list agent_name) : Aggregate :=
  let '(_, _, agent_scores) := weighted_totals agent_results active_agents in
  let final_score := final_score agent_results active_agents in
  let final_signal := _get_final_recommendation_signal final_score agent_results in
  let confidence := _calculate_overall_confidence agent_results active_agents in
  let summary := _generate_summary_analysis agent_results final_score final_signal in
  {| recommendation :=
       {| rec_signal := final_signal;
          rec_score := Py.round3 final_score;
          rec_confidence := Py.round3 confidence |};
     agent_scores := agent_scores;
     summary_analysis := summary;
     key_insights := _extract_key_insights agent_results;
     risk_factors := _extract_risk_factors agent_results;
     opportunities := _extract_opportunities agent_results |}.

(** Lines 51-61: every active agent is run; one that raises is replaced by
    the synthesized error result.  [agents a] is what
    [self.agents[a].analyze(ticker, context)] does. *)
Definition outcome (agents : agent_name -> result AgentResult)
    (a : agent_name) : AgentResult :=
  match agents a with
  | Ok r => r
  | Raise e => _create_agent_error a (str_of_exn e)
  end.

Definition run_agents (agents : agent_name -> result AgentResult)
    (active_agents : list agent_name) : dict agent_name AgentResult :=
  fold_left (fun agent_results a => dict_set agent_results a (outcome agents a))
            active_agents [].

Definition analyze_stock (agents : agent_name -> result AgentResult)
    (user_query : string) : Analysis :=
  let active_agents := _determine_active_agents user_query in
  let agent_results := run_agents agents active_agents in
  {| aggregate := _aggregate_agent_results agent_results active_agents;
     active_agents := active_agents;
     agent_results := agent_results |}.

(** The five agents the constructor registers, run against a world. *)
Definition registered_agents (w : World) (ticker : string) (a : agent_name)
  : result AgentResult :=
  match a with
  | fundamental => FundamentalAnalysisAgent.analyze w ticker
  | technical => TechnicalAnalysisAgent.analyze w ticker
  | peer_comparison => PeerComparisonAgent.analyze w ticker
  | macro_context => MacroContextAgent.analyze w ticker
  | risk_assessment => RiskAssessmentAgent.analyze w ticker
  end.

End MultiAgentOrchestrator.

(** ** The specification's wording, for comparison with the code *)

Module Spec.
Import MultiAgentOrchestrator.

(** The overall score an active agent brings to the aggregate, if any:
    its result is present and carries an overall score. *)
Definition contribution (agent_results : dict agent_name AgentResult)
    (a : agent_name) : option Q :=
  match dict_get agent_results a with
  | Some r => overall_score r
  | None => None
  end.

Definition contributing (agent_results : dict agent_name AgentResult)
    (active : list agent_name) : list agent_name :=
  filter (fun a => match contribution agent_results a with
                   | Some _ => true
                   | None => false
                   end) active.

(** Sum of [g a] over the agents of [l] *)
Definition total (g : agent_name -> Q) (l : list agent_name) : Q :=
  fold_right (fun a acc => g a + acc) 0 l.

(** Weighted sum over [l] divided by the sum of the weights used; [0.5]
    when [l] is empty. *)
Definition weighted_mean (agent_results : dict agent_name AgentResult)
    (l : list agent_name) : Q :=
  match l with
  | [] => 0.5
  | _ =>
      total (fun a => get_or (contribution agent_results a) 0 * weights a) l
      / total weights l
  end.

(** The weighted score over every contributing agent. *)
Definition weighted_score (agent_results : dict agent_name AgentResult)
    (active : list agent_name) : Q :=
  weighted_mean agent_results (contributing agent_results active).

(** The same with the results that carry an [error] left out, as the
    specification words it. *)
Definition non_error (agent_results : dict agent_name AgentResult)
    (active : list agent_name) : list agent_name :=
  filter (fun a => match dict_get agent_results a with
                   | Some r => match error r with
                               | Some _ => false
                               | None => true
                               end
                   | None => false
                   end)
         (contributing agent_results active).

Definition weighted_score_without_errors
    (agent_results : dict agent_name AgentResult)
    (active : list agent_name) : Q :=
  weighted_mean agent_results (non_error agent_results active).

Definition all_signals : list signal :=
  [STRONG_SELL; SELL; WEAK_HOLD; HOLD; BUY; STRONG_BUY].

Definition occurrences (s : signal) (signals : list signal) : nat :=
  List.length (filter (signal_eqb s) signals).

(** How often the most frequent signal occurs *)
Definition mode_frequency (signals : list signal) : nat :=
  fold_right (fun s acc => Nat.max (occurrences s signals) acc) O all_signals.

(** Mode frequency / agent count *)
Definition agreement_share (signals : list signal) : Q :=
  inject_Z (Z.of_nat (mode_frequency signals)) / Py.len signals.

(** The confidence blend of step 4 on the confidences [cs] and the
    signals of the contributing agents. *)
Definition confidence_blend (cs : list Q) (signals : list signal) : Q :=
  let average := Py.sum cs / Py.len cs in
  if Nat.ltb (List.length signals) 2 then average
  else if Qle_bool 0.8 (agreement_share signals)
  then Py.min 0.95 (average + 0.1)
  else if Qle_bool (agreement_share signals) 0.4
  then Py.max 0.2 (average - 0.1)
  else average.

(** The six-band table of section 4.1 *)
Definition band (s : Q) (sg : signal) : Prop :=
  match sg with
  | STRONG_BUY => 0.75 <= s
  | BUY => 0.65 <= s /\ s < 0.75
  | HOLD => 0.55 <= s /\ s < 0.65
  | WEAK_HOLD => 0.45 <= s /\ s < 0.55
  | SELL => 0.35 <= s /\ s < 0.45
  | STRONG_SELL => s < 0.35
  end.

(** The keyword categories in priority order, each with its agent subset *)
Definition categories : list (list string * list agent_name) :=
  [(["fundamental"; "valuation"; "p/e"; "financial"; "balance sheet"],
    [fundamental; peer_comparison; risk_assessment]);
   (["technical"; "chart"; "trend"; "momentum"; "rsi"; "macd"],
    [technical; risk_assessment]);
   (["compare"; "peer"; "sector"; "vs"; "against"],
    [fundamental; peer_comparison; technical]);
   (["macro"; "economy"; "gdp"; "inflation"; "interest rate"],
    [macro_context; fundamental; risk_assessment]);
   (["risk"; "safe"; "downside"; "volatility"],
    [risk_assessment; fundamental; technical]);
   (["buy"; "sell"; "invest"; "recommendation"],
    [fundamental; technical; peer_comparison; macro_context; risk_assessment])].

(** The first category with a keyword in the lower-cased query wins; all
    five agents when there is none. *)
Definition select_active (query : string) : list agent_name :=
  match find (fun c => any_in (fst c) (lower query)) categories with
  | Some c => snd c
  | None => all_agents
  end.

(** Lower-case letters of a text, in order: what is left of a query when
    casing and punctuation are disregarded. *)
Definition is_letter (c : ascii) : bool :=
  let n := nat_of_ascii c in Nat.leb 97 n && Nat.leb n 122.

Definition letters (s : list ascii) : list ascii := filter is_letter s.

Definition technical_setup_query : string := "What's the technical setup?".

(** The results without the entry of agent [a] *)
Definition without (a : agent_name) (rs : dict agent_name AgentResult)
  : dict agent_name AgentResult :=
  filter (fun e => negb (key_eqb (fst e) a)) rs.

(** Arithmetic mean of the values of a non-empty list *)
Definition mean (l : list Q) : Q :=
  fold_right Qplus 0 l / inject_Z (Z.of_nat (List.length l)).

(** Every sub-score of a set lies in [[0, 1]]. *)
Definition in_unit_interval (d : dict string Q) : Prop :=
  Forall (fun kv => 0 <= snd kv /\ snd kv <= 1) d.

(** The error sentinel of section 4.1: empty sub-score set, overall score
    0.5, signal HOLD, confidence 0.1, error populated. *)
Definition is_sentinel (r : AgentResult) : Prop :=
  scores r = Some [] /\
  overall_score r = Some 0.5 /\
  recommendation_signal r = Some HOLD /\
  confidence r = Some 0.1 /\
  exists msg, error r = Some msg.

(** A result the aggregation can read: an overall score with its signal
    and a confidence.  The signal is the band of the score on a result
    without error, and HOLD on the neutral 0.5 of an error or limited
    answer. *)
Definition aggregable (r : AgentResult) : Prop :=
  exists s sg c,
    overall_score r = Some s /\
    recommendation_signal r = Some sg /\
    ((sg = BaseAgent.get_recommendation_signal s /\ error r = None) \/
     (sg = HOLD /\ s = 0.5)) /\
    confidence r = Some c.

(** A result as an agent shapes it: aggregable, with sub-scores in the unit
    interval. *)
Definition agent_shaped (r : AgentResult) : Prop :=
  aggregable r /\
  exists sc, scores r = Some sc /\ in_unit_interval sc.

(** The active agents whose result carries no error *)
Definition answered (agent_results : dict agent_name AgentResult)
    (active : list agent_name) : list agent_name :=
  filter (fun a => match dict_get agent_results a with
                   | Some r => match error r with
                               | Some _ => false
                               | None => true
                               end
                   | None => false
                   end) active.

End Spec.

(** ** Ranges the results keep *)

Module Ranges.

(** The overall score of a result lies in the unit interval and its
    confidence between 0.1 and 0.9. *)
Definition bounded (r : AgentResult) : Prop :=
  exists s c,
    overall_score r = Some s /\ 0 <= s /\ s <= 1 /\
    confidence r = Some c /\ 0.1 <= c /\ c <= 0.9.

(** Every number of a list lies between [lo] and [hi]. *)
Definition all_within (lo hi : Q) (l : list Q) : Prop :=
  Forall (fun c => lo <= c /\ c <= hi) l.

End Ranges.

(** ** Worlds for the scenarios *)

Module Scenarios.

Definition sound : Fundamentals :=
  {| sector := Some "Technology";
     market_cap := Some 6000000000000;
     pe_ratio := Some 24;
     pb_ratio := Some 7.5;
     roe := Some 0.31;
     debt_to_equity := Some 0.1;
     profit_margin := Some 0.17;
     revenue_growth := Some 0.08 |}.

Definition prices : PriceData :=
  {| current_price := Some 1500;
     high_52w := Some 1700;
     low_52w := Some 1200;
     volume_avg := Some 5000000 |}.

(** Prices that never moved: the 52-week high equals the low. *)
Definition flat_prices : PriceData :=
  {| current_price := Some 100;
     high_52w := Some 100;
     low_52w := Some 100;
     volume_avg := Some 5000000 |}.

Definition two_years : Hist :=
  {| hist_len := 500; annualized_volatility := 0.25; hist_max_drawdown := 0.3 |}.

Definition one_month : Hist :=
  {| hist_len := 22; annualized_volatility := 0.25; hist_max_drawdown := 0.1 |}.

Definition indicators : Indicators :=
  {| ind_current_price := Some 1500;
     rsi14 := Some 55;
     sma20 := Some 1480;
     sma50 := Some 1450;
     sma200 := Some 1400;
     macd := Some 12;
     macd_signal := Some 9;
     bb_upper := Some 1560;
     bb_middle := Some 1480;
     bb_lower := Some 1400 |}.

(** Every data source answers. *)
Definition healthy : World :=
  {| fetch_fundamentals := fun _ => Fetched sound;
     fetch_price_data := fun _ => Fetched prices;
     history := fun _ _ => Ok two_years;
     calculate_indicators := fun _ => Fetched indicators;
     nse_group_a_peers := fun _ => [];
     narrative := fun _ => "";
     clock := "2024-01-01T00:00:00" |}.

(** Only a month of price history is available. *)
Definition young_listing : World :=
  {| fetch_fundamentals := fun _ => Fetched sound;
     fetch_price_data := fun _ => Fetched prices;
     history := fun _ _ => Ok one_month;
     calculate_indicators := fun _ => Fetched indicators;
     nse_group_a_peers := fun _ => [];
     narrative := fun _ => "";
     clock := "2024-01-01T00:00:00" |}.

(** The fundamentals carry no market capitalisation. *)
Definition no_market_cap : World :=
  {| fetch_fundamentals :=
       fun _ => Fetched {| sector := Some "Technology";
                           market_cap := None;
                           pe_ratio := Some 24;
                           pb_ratio := Some 7.5;
                           roe := Some 0.31;
                           debt_to_equity := Some 0.1;
                           profit_margin := Some 0.17;
                           revenue_growth := Some 0.08 |};
     fetch_price_data := fun _ => Fetched prices;
     history := fun _ _ => Ok two_years;
     calculate_indicators := fun _ => Fetched indicators;
     nse_group_a_peers := fun _ => [];
     narrative := fun _ => "";
     clock := "2024-01-01T00:00:00" |}.

(** The price never moved over the year. *)
Definition flat_year : World :=
  {| fetch_fundamentals := fun _ => Fetched sound;
     fetch_price_data := fun _ => Fetched flat_prices;
     history := fun _ _ => Ok two_years;
     calculate_indicators := fun _ => Fetched indicators;
     nse_group_a_peers := fun _ => [];
     narrative := fun _ => "";
     clock := "2024-01-01T00:00:00" |}.

(** The target answers, none of its peers does. *)
Definition lonely : World :=
  {| fetch_fundamentals :=
       fun t => if String.eqb t "INFY.NS" then Fetched sound
                else FetchError "No data available";
     fetch_price_data := fun _ => Fetched prices;
     history := fun _ _ => Ok two_years;
     calculate_indicators := fun _ => Fetched indicators;
     nse_group_a_peers := fun _ => [];
     narrative := fun _ => "";
     clock := "2024-01-01T00:00:00" |}.

End Scenarios.

(** ** Concrete inputs *)

Module Examples.
Import MultiAgentOrchestrator.

(** A result as [create_response] shapes it, with one sub-score. *)
Definition scored (name : string) (score conf : Q) : AgentResult :=
  {| agent_name_of := name;
     weight := None;
     error := None;
     scores := Some [("valuation_score", score)];
     overall_score := Some score;
     analysis := Some "text";
     key_metrics := Some [];
     recommendation_signal := Some (BaseAgent.get_recommendation_signal score);
     confidence := Some conf;
     timestamp := Some "2024-01-01T00:00:00" |}.

(** The risk agent answers with score 0.8; every other agent raises. *)
Definition only_risk_answers (a : agent_name) : result AgentResult :=
  match a with
  | risk_assessment => Ok (scored "Risk_Assessment_Agent" 0.8 0.9)
  | _ => Raise (Exception "connection refused")
  end.

(** The query "Is it safe?" activates risk_assessment, fundamental and
    technical, in this order. *)
Definition risk_query : string := "Is it safe?".

(** Pathological fundamentals: negative P/E, debt ratio above 100, huge
    or missing values elsewhere. *)
Definition pathological : Fundamentals :=
  {| sector := None;
     market_cap := Some 1000000000000000000000;
     pe_ratio := Some (-250);
     pb_ratio := Some 100000;
     roe := Some (-75);
     debt_to_equity := Some 12345;
     profit_margin := None;
     revenue_growth := Some (-1000000) |}.

Definition pathological_prices : PriceData :=
  {| current_price := Some 1000000000;
     high_52w := Some 5;
     low_52w := Some (-3);
     volume_avg := None |}.

Definition long_history : Hist :=
  {| hist_len := 500; annualized_volatility := 40; hist_max_drawdown := 1000 |}.

(** A world in which no data source answers. *)
Definition unreachable : World :=
  {| fetch_fundamentals := fun _ => FetchError "No data available";
     fetch_price_data := fun _ => FetchError "No price data available";
     history := fun _ _ => Raise (Exception "connection refused");
     calculate_indicators := fun _ => FetchError "no indicators";
     nse_group_a_peers := fun _ => [];
     narrative := fun _ => "";
     clock := "2024-01-01T00:00:00" |}.

End Examples.

(** * Properties *)

Import MultiAgentOrchestrator.

(** ** Comparisons on rationals *)

Lemma Qle_bool_false (x y : Q) : Qle_bool x y = false -> y < x.
Proof.
  intros H. apply Qnot_le_lt. intros Hle.
  apply Qle_bool_iff in Hle. congruence.
Qed.

Lemma Qlt_bool_true (x y : Q) : Qlt_bool x y = true -> x < y.
Proof.
  unfold Qlt_bool. intros H. apply negb_true_iff in H.
  now apply Qle_bool_false.
Qed.

Lemma Qlt_bool_false (x y : Q) : Qlt_bool x y = false -> y <= x.
Proof.
  unfold Qlt_bool. intros H. apply negb_false_iff in H.
  now apply Qle_bool_iff.
Qed.

Lemma Qlt_bool_iff (x y : Q) : Qlt_bool x y = true <-> x < y.
Proof.
  split; [apply Qlt_bool_true|].
  intros H. destruct (Qlt_bool x y) eqn:E; [reflexivity|].
  apply Qlt_bool_false in E. lra.
Qed.

(** Turns the boolean tests recorded in the context into inequalities. *)
Ltac qprop :=
  repeat match goal with
    | H : Qle_bool _ _ = true |- _ => apply Qle_bool_iff in H
    | H : Qle_bool _ _ = false |- _ => apply Qle_bool_false in H
    | H : Qlt_bool _ _ = true |- _ => apply Qlt_bool_true in H
    | H : Qlt_bool _ _ = false |- _ => apply Qlt_bool_false in H
    | H : Qeq_bool _ _ = true |- _ => apply Qeq_bool_iff in H
    | H : Qeq_bool _ _ = false |- _ => apply Qeq_bool_neq in H
    | H : _ && _ = true |- _ => apply andb_true_iff in H; destruct H
    end.

(** Splits on the first boolean test the goal branches on. *)
Ltac branch :=
  match goal with
  | |- context [if ?b then _ else _] => destruct b eqn:?
  end.

Lemma min_bounds (a b : Q) : Py.min a b <= a /\ Py.min a b <= b.
Proof. unfold Py.min. branch; qprop; lra. Qed.

Lemma max_bounds (a b : Q) : a <= Py.max a b /\ b <= Py.max a b.
Proof. unfold Py.max. branch; qprop; lra. Qed.

Lemma min_cases (a b : Q) : Py.min a b = a \/ Py.min a b = b.
Proof. unfold Py.min. branch; auto. Qed.

Lemma max_cases (a b : Q) : Py.max a b = a \/ Py.max a b = b.
Proof. unfold Py.max. branch; auto. Qed.

Lemma clamp01_bounds (x : Q) : 0 <= clamp01 x /\ clamp01 x <= 1.
Proof.
  unfold clamp01, Py.max, Py.min.
  repeat branch; qprop; lra.
Qed.

(** ** The score-to-signal converter *)

Lemma get_recommendation_signal_band (s : Q) :
  Spec.band s (BaseAgent.get_recommendation_signal s).
Proof.
  unfold BaseAgent.get_recommendation_signal.
  repeat branch; simpl; qprop; lra.
Qed.

Lemma band_unique (s : Q) (a b : signal) :
  Spec.band s a -> Spec.band s b -> a = b.
Proof. destruct a, b; simpl; intros; try reflexivity; lra. Qed.

Lemma band_rank (s1 s2 : Q) (a b : signal) :
  s1 < s2 -> Spec.band s1 a -> Spec.band s2 b ->
  (signal_rank a <= signal_rank b)%nat.
Proof. destruct a, b; simpl; intros; try lia; lra. Qed.

(** C7.  The score-to-signal converter is a total function on scores that
    yields the same signal for equal scores, places every score in its band
    of the six-band table, is monotonic in the score (a larger score never
    has a lower-ranked signal), and is the function by which the
    orchestrator derives its base signal. *)
Theorem score_to_signal_banded_monotone :
  (forall s, exists sg, BaseAgent.get_recommendation_signal s = sg) /\
  (forall s1 s2, s1 == s2 ->
     BaseAgent.get_recommendation_signal s1 =
     BaseAgent.get_recommendation_signal s2) /\
  (forall s sg, BaseAgent.get_recommendation_signal s = sg <-> Spec.band s sg) /\
  (forall s1 s2, s1 < s2 ->
     (signal_rank (BaseAgent.get_recommendation_signal s1) <=
      signal_rank (BaseAgent.get_recommendation_signal s2))%nat) /\
  (forall s, base_signal s = BaseAgent.get_recommendation_signal s).
Proof.
  split; [|split; [|split; [|split]]].
  - intros s. eauto.
  - intros s1 s2 E.
    apply (band_unique s1); [apply get_recommendation_signal_band|].
    pose proof (get_recommendation_signal_band s2) as B.
    destruct (BaseAgent.get_recommendation_signal s2); simpl in *; lra.
  - intros s sg. split.
    + intros <-. apply get_recommendation_signal_band.
    + intros B. eapply band_unique; [apply get_recommendation_signal_band|exact B].
  - intros s1 s2 L.
    eapply band_rank; [exact L| |]; apply get_recommendation_signal_band.
  - reflexivity.
Qed.

(** ** Building an agent result *)

Lemma fold_left_Qplus (l : list Q) (acc : Q) :
  fold_left Qplus l acc == acc + fold_right Qplus 0 l.
Proof.
  revert acc. induction l as [|x l IH]; intros acc; simpl.
  - lra.
  - rewrite IH. lra.
Qed.

Lemma sum_fold_right (l : list Q) : Py.sum l == fold_right Qplus 0 l.
Proof. unfold Py.sum. rewrite fold_left_Qplus. lra. Qed.

Lemma len_pos {A} (l : list A) : l <> [] -> 0 < Py.len l.
Proof.
  intros H. destruct l as [|x l]; [contradiction|].
  unfold Py.len. change 0 with (inject_Z 0). rewrite <- Zlt_Qlt.
  simpl List.length. lia.
Qed.

Lemma div_ok (a b : Q) : ~ b == 0 -> Py.div a b = Ok (a / b).
Proof.
  intros H. unfold Py.div.
  destruct (Qeq_bool b 0) eqn:E; [|reflexivity].
  apply Qeq_bool_iff in E. contradiction.
Qed.

Lemma div_len_ok {A} (a : Q) (l : list A) :
  l <> [] -> Py.div a (Py.len l) = Ok (a / Py.len l).
Proof. intros H. apply div_ok. pose proof (len_pos l H). lra. Qed.

(** C5, as the code has it.  Constructing an agent result from a non-empty
    sub-score set succeeds, and its overall score is the arithmetic mean of
    the sub-score values (its signal is the one of that mean); no default
    stands in for an empty set. *)
Theorem create_response_overall_is_mean
    (name : string) (w : Q) (clock : string) (sub_scores : dict string Q)
    (text : string) (metrics : dict string (option Q)) (conf : Q) :
  sub_scores <> [] ->
  exists r overall,
    BaseAgent.create_response name w clock sub_scores text metrics conf = Ok r /\
    overall_score r = Some overall /\
    overall == Spec.mean (values sub_scores) /\
    recommendation_signal r = Some (BaseAgent.get_recommendation_signal overall) /\
    scores r = Some sub_scores /\
    error r = None.
Proof.
  intros H. unfold BaseAgent.create_response.
  rewrite (div_len_ok _ sub_scores H). simpl.
  eexists. eexists. repeat split.
  unfold Spec.mean, Py.len, values. rewrite sum_fold_right.
  rewrite length_map. reflexivity.
Qed.

Lemma create_response_overall_is_mean_witness :
  exists r overall,
    BaseAgent.create_response "Fundamental_Analysis_Agent" 0.30 "2024-01-01"
      [("valuation_score", 0.8); ("growth_score", 0.6)] "text" [] 0.9 = Ok r /\
    overall_score r = Some overall /\
    overall == Spec.mean (values [("valuation_score", 0.8); ("growth_score", 0.6)]) /\
    recommendation_signal r = Some (BaseAgent.get_recommendation_signal overall) /\
    scores r = Some [("valuation_score", 0.8); ("growth_score", 0.6)] /\
    error r = None.
Proof.
  apply (create_response_overall_is_mean "Fundamental_Analysis_Agent" 0.30
           "2024-01-01" [("valuation_score", 0.8); ("growth_score", 0.6)]
           "text" [] 0.9).
  discriminate.
Defined.

(** C5 as the specification states it fails: on the empty sub-score set the
    mean divides by [len(scores) = 0] and the construction raises. *)
Lemma create_response_empty_raises :
  BaseAgent.create_response "Fundamental_Analysis_Agent" 0.30 "2024-01-01"
    [] "text" [] 0.9 = Raise ZeroDivisionError.
Proof. reflexivity. Qed.

(** ** Dicts *)

Lemma agent_name_eqb_eq (a b : agent_name) : agent_name_eqb a b = true <-> a = b.
Proof. destruct a, b; simpl; split; intros; congruence. Qed.

Lemma signal_eqb_eq (a b : signal) : signal_eqb a b = true <-> a = b.
Proof. destruct a, b; simpl; split; intros; congruence. Qed.

Section DictFacts.
Context {K V : Type} `{Key K}.
Hypothesis key_eqb_eq : forall a b : K, key_eqb a b = true <-> a = b.

Lemma key_eqb_refl (k : K) : key_eqb k k = true.
Proof. now apply key_eqb_eq. Qed.

Lemma key_eqb_neq (a b : K) : a <> b -> key_eqb a b = false.
Proof.
  intros N. destruct (key_eqb a b) eqn:E; [|reflexivity].
  apply key_eqb_eq in E. contradiction.
Qed.

Lemma dict_get_set_same (d : dict K V) (k : K) (v : V) :
  dict_get (dict_set d k v) k = Some v.
Proof.
  induction d as [|[k' v'] d IH]; simpl.
  - now rewrite key_eqb_refl.
  - destruct (key_eqb k' k) eqn:E; simpl.
    + now rewrite key_eqb_refl.
    + now rewrite E.
Qed.

Lemma dict_get_set_other (d : dict K V) (k k' : K) (v : V) :
  k <> k' -> dict_get (dict_set d k v) k' = dict_get d k'.
Proof.
  intros N. induction d as [|[k0 v0] d IH]; simpl.
  - now rewrite key_eqb_neq.
  - destruct (key_eqb k0 k) eqn:E; simpl.
    + apply key_eqb_eq in E. subst k0. now rewrite !key_eqb_neq.
    + destruct (key_eqb k0 k'); [reflexivity|exact IH].
Qed.

Lemma in_dict_set (d : dict K V) (k : K) (v : V) (e : K * V) :
  In e (dict_set d k v) -> e = (k, v) \/ In e d.
Proof.
  induction d as [|[k0 v0] d IH]; simpl.
  - intros [<-|[]]. now left.
  - destruct (key_eqb k0 k); simpl.
    + intros [<-|I]; auto.
    + intros [<-|I]; auto. destruct (IH I); auto.
Qed.

Lemma dict_get_in (d : dict K V) (k : K) (v : V) :
  dict_get d k = Some v -> In (k, v) d.
Proof.
  induction d as [|[k0 v0] d IH]; simpl; [discriminate|].
  destruct (key_eqb k0 k) eqn:E.
  - apply key_eqb_eq in E. subst k0. intros [= ->]. now left.
  - intros G. right. now apply IH.
Qed.

Lemma dict_get_filter_other (d : dict K V) (a k : K) :
  dict_get (filter (fun e => negb (key_eqb (fst e) a)) d) k
  = if key_eqb k a then None else dict_get d k.
Proof.
  induction d as [|[k0 v0] d IH]; simpl.
  - now destruct (key_eqb k a).
  - destruct (key_eqb k0 a) eqn:E0; simpl.
    + rewrite IH. apply key_eqb_eq in E0. subst k0.
      destruct (key_eqb k a) eqn:E1; [reflexivity|].
      destruct (key_eqb a k) eqn:E2; [|reflexivity].
      apply key_eqb_eq in E2. subst k. now rewrite key_eqb_refl in E1.
    + rewrite IH. destruct (key_eqb k0 k) eqn:E1; [|reflexivity].
      apply key_eqb_eq in E1. subst k0. now rewrite E0.
Qed.
End DictFacts.

(** ** Aggregation with no contributing agent *)

Lemma accumulate_nothing (rs : dict agent_name AgentResult)
    (st : Q * Q * dict agent_name Q) (a : agent_name) :
  Spec.contribution rs a = None -> accumulate rs st a = st.
Proof.
  unfold Spec.contribution, accumulate. destruct st as [[tws tw] sc].
  destruct (dict_get rs a) as [r|]; [|reflexivity].
  now intros ->.
Qed.

Lemma weighted_totals_nothing (rs : dict agent_name AgentResult)
    (active : list agent_name) (st : Q * Q * dict agent_name Q) :
  (forall a, In a active -> Spec.contribution rs a = None) ->
  fold_left (accumulate rs) active st = st.
Proof.
  revert st. induction active as [|a active IH]; intros st H; simpl.
  - reflexivity.
  - rewrite accumulate_nothing by (apply H; now left).
    apply IH. intros b I. apply H. now right.
Qed.

Lemma unmoderated (score : Q) (rs : dict agent_name AgentResult) :
  is_positive (base_signal score) = false ->
  is_negative (base_signal score) = false ->
  _get_final_recommendation_signal score rs = base_signal score.
Proof.
  intros P N. unfold _get_final_recommendation_signal.
  rewrite P, N, !andb_false_r. now destruct (Nat.leb 3 _).
Qed.

(** C1, as the code has it.  When no active agent has a result with an
    overall score, the aggregation returns final score 0.5 and final signal
    WEAK_HOLD (the band of 0.5), with no per-agent score; its confidence is
    0.5 when no active agent's result carries a confidence either. *)
Theorem starved_aggregation_is_neutral
    (rs : dict agent_name AgentResult) (active : list agent_name) :
  (forall a, In a active -> Spec.contribution rs a = None) ->
  rec_score (recommendation (_aggregate_agent_results rs active)) == 0.5 /\
  rec_signal (recommendation (_aggregate_agent_results rs active)) = WEAK_HOLD /\
  agent_scores (_aggregate_agent_results rs active) = [] /\
  (confidences rs active = [] ->
   rec_confidence (recommendation (_aggregate_agent_results rs active)) == 0.5).
Proof.
  intros H.
  assert (T : weighted_totals rs active = (0, 0, [])).
  { unfold weighted_totals. now apply weighted_totals_nothing. }
  assert (F : final_score rs active = 0.5).
  { unfold final_score. now rewrite T. }
  unfold _aggregate_agent_results. rewrite T, F. simpl.
  repeat split.
  - now apply unmoderated.
  - intros C. unfold _calculate_overall_confidence. now rewrite C.
Qed.

Lemma starved_aggregation_is_neutral_witness :
  rec_score (recommendation (_aggregate_agent_results [] all_agents)) == 0.5 /\
  rec_signal (recommendation (_aggregate_agent_results [] all_agents)) = WEAK_HOLD /\
  agent_scores (_aggregate_agent_results [] all_agents) = [] /\
  (confidences [] all_agents = [] ->
   rec_confidence (recommendation (_aggregate_agent_results [] all_agents)) == 0.5).
Proof.
  apply (starved_aggregation_is_neutral [] all_agents).
  intros a _. reflexivity.
Defined.

(** C1 as the specification states it fails: with no result at all the
    aggregation answers WEAK_HOLD, not HOLD, and confidence 0.5, which is
    above 0.2. *)
Lemma starved_aggregation_not_hold :
  Spec.contributing [] all_agents = [] /\
  rec_signal (recommendation (_aggregate_agent_results [] all_agents)) = WEAK_HOLD /\
  signal_eqb (rec_signal (recommendation (_aggregate_agent_results [] all_agents)))
    HOLD = false /\
  rec_confidence (recommendation (_aggregate_agent_results [] all_agents)) == 0.5 /\
  Qle_bool (rec_confidence (recommendation (_aggregate_agent_results [] all_agents)))
    0.2 = false.
Proof. repeat split. Qed.

(** ** The weighted score *)

Lemma weights_pos (a : agent_name) : 0 < weights a.
Proof. destruct a; reflexivity. Qed.

Lemma total_weights_nonneg (l : list agent_name) : 0 <= Spec.total weights l.
Proof.
  induction l as [|a l IH]; simpl; [lra|].
  pose proof (weights_pos a). lra.
Qed.

Lemma total_weights_pos (l : list agent_name) :
  l <> [] -> 0 < Spec.total weights l.
Proof.
  destruct l as [|a l]; [contradiction|]. intros _. simpl.
  pose proof (weights_pos a). pose proof (total_weights_nonneg l). lra.
Qed.

Lemma accumulate_some (rs : dict agent_name AgentResult)
    (tws tw : Q) (sc : dict agent_name Q) (a : agent_name) (score : Q) :
  Spec.contribution rs a = Some score ->
  accumulate rs (tws, tw, sc) a
  = (tws + score * weights a, tw + weights a, dict_set sc a score).
Proof.
  unfold Spec.contribution, accumulate.
  destruct (dict_get rs a) as [r|]; [|discriminate].
  now intros ->.
Qed.

(** The loop of lines 121-128 adds, to whatever it starts from, the weighted
    scores and the weights of the contributing agents. *)
Lemma weighted_totals_from (rs : dict agent_name AgentResult)
    (active : list agent_name) (tws tw : Q) (sc : dict agent_name Q) :
  fst (fst (fold_left (accumulate rs) active (tws, tw, sc)))
  == tws + Spec.total (fun a => get_or (Spec.contribution rs a) 0 * weights a)
             (Spec.contributing rs active) /\
  snd (fst (fold_left (accumulate rs) active (tws, tw, sc)))
  == tw + Spec.total weights (Spec.contributing rs active).
Proof.
  revert tws tw sc. induction active as [|a active IH]; intros tws tw sc.
  - simpl. split; lra.
  - cbn [fold_left]. unfold Spec.contributing. cbn [filter].
    fold (Spec.contributing rs active).
    destruct (Spec.contribution rs a) as [score|] eqn:C.
    + rewrite (accumulate_some _ _ _ _ _ _ C).
      destruct (IH (tws + score * weights a) (tw + weights a) (dict_set sc a score))
        as [H1 H2].
      rewrite H1, H2. unfold Spec.total. cbn [fold_right]. rewrite C.
      cbn [get_or]. split; lra.
    + rewrite accumulate_nothing by exact C. apply IH.
Qed.

Lemma weighted_totals_spec (rs : dict agent_name AgentResult)
    (active : list agent_name) :
  fst (fst (weighted_totals rs active))
  == Spec.total (fun a => get_or (Spec.contribution rs a) 0 * weights a)
       (Spec.contributing rs active) /\
  snd (fst (weighted_totals rs active))
  == Spec.total weights (Spec.contributing rs active).
Proof.
  destruct (weighted_totals_from rs active 0 0 []) as [H1 H2].
  rewrite Qplus_0_l in H1, H2. split; assumption.
Qed.

Lemma final_score_weighted (rs : dict agent_name AgentResult)
    (active : list agent_name) :
  final_score rs active == Spec.weighted_score rs active.
Proof.
  unfold final_score, Spec.weighted_score.
  destruct (weighted_totals_spec rs active) as [H1 H2].
  destruct (weighted_totals rs active) as [[tws tw] sc].
  cbn [fst snd] in H1, H2.
  destruct (Spec.contributing rs active) as [|a l] eqn:C.
  - cbn in H2. destruct (Qlt_bool 0 tw) eqn:E; [|reflexivity].
    apply Qlt_bool_true in E. lra.
  - assert (P : 0 < Spec.total weights (a :: l))
      by (apply total_weights_pos; discriminate).
    assert (E : Qlt_bool 0 tw = true) by (apply Qlt_bool_iff; lra).
    rewrite E. unfold Spec.weighted_mean.
    rewrite H1, H2. reflexivity.
Qed.

(** C2, as the code has it.  Every active agent whose result is present and
    carries an overall score contributes to the weighted score, error results
    included: the final score is the sum of score times weight over those
    agents divided by the sum of their weights, and the result synthesized
    for an agent that raised is one of them. *)
Theorem final_score_is_weighted_mean
    (rs : dict agent_name AgentResult) (active : list agent_name) :
  final_score rs active == Spec.weighted_score rs active /\
  (forall a msg,
     In a active -> dict_get rs a = Some (_create_agent_error a msg) ->
     In a (Spec.contributing rs active)).
Proof.
  split; [apply final_score_weighted|].
  intros a msg I G. unfold Spec.contributing.
  apply filter_In. split; [exact I|].
  unfold Spec.contribution. now rewrite G.
Qed.

(** C2 as the specification states it fails: with the risk agent at 0.8 and
    the two other active agents raising, leaving the error results out
    gives 0.8, while the code averages the two synthesized 0.5 in. *)
Lemma error_results_are_weighted :
  _determine_active_agents Examples.risk_query
  = [risk_assessment; fundamental; technical] /\
  Spec.weighted_score_without_errors
    (run_agents Examples.only_risk_answers
       (_determine_active_agents Examples.risk_query))
    (_determine_active_agents Examples.risk_query) == 0.8 /\
  final_score
    (run_agents Examples.only_risk_answers
       (_determine_active_agents Examples.risk_query))
    (_determine_active_agents Examples.risk_query) == 79 # 140 /\
  rec_score (recommendation
               (aggregate (analyze_stock Examples.only_risk_answers
                             Examples.risk_query))) == 0.564.
Proof. repeat split. Qed.

(** ** Consensus moderation *)

Lemma is_positive_iff (s : signal) : is_positive s = true <-> s = BUY \/ s = STRONG_BUY.
Proof. destruct s; simpl; split; intros H; try discriminate; auto; destruct H; discriminate. Qed.

Lemma is_negative_iff (s : signal) : is_negative s = true <-> s = SELL \/ s = STRONG_SELL.
Proof. destruct s; simpl; split; intros H; try discriminate; auto; destruct H; discriminate. Qed.

(** The cases of lines 182-186 on the signals that are counted, and two
    SELL signals alone. *)
Lemma moderation_cases (score : Q) (rs : dict agent_name AgentResult) :
  ((List.length (agent_signals rs) < 3)%nat ->
   _get_final_recommendation_signal score rs = base_signal score) /\
  ((3 <= List.length (agent_signals rs))%nat ->
   (2 <= count is_negative (agent_signals rs))%nat ->
   base_signal score = BUY \/ base_signal score = STRONG_BUY ->
   _get_final_recommendation_signal score rs = HOLD) /\
  ((3 <= List.length (agent_signals rs))%nat ->
   (2 <= count is_positive (agent_signals rs))%nat ->
   base_signal score = SELL \/ base_signal score = STRONG_SELL ->
   _get_final_recommendation_signal score rs = WEAK_HOLD) /\
  (((count is_negative (agent_signals rs) < 2)%nat \/
    is_positive (base_signal score) = false) ->
   ((count is_positive (agent_signals rs) < 2)%nat \/
    is_negative (base_signal score) = false) ->
   _get_final_recommendation_signal score rs = base_signal score) /\
  (forall a b r1 r2,
     recommendation_signal r1 = Some SELL ->
     recommendation_signal r2 = Some SELL ->
     0.65 <= score -> score < 0.75 ->
     _get_final_recommendation_signal score [(a, r1); (b, r2)] = BUY).
Proof.
  unfold _get_final_recommendation_signal.
  split; [|split; [|split; [|split]]].
  - intros L. apply Nat.leb_gt in L. now rewrite L.
  - intros L N B. apply Nat.leb_le in L, N. apply is_positive_iff in B.
    now rewrite L, N, B.
  - intros L P B. apply Nat.leb_le in L, P. apply is_negative_iff in B.
    rewrite L, P, B.
    replace (is_positive (base_signal score)) with false
      by (destruct (base_signal score); simpl in *; congruence).
    now rewrite andb_false_r.
  - intros N P.
    assert (N' : Nat.leb 2 (count is_negative (agent_signals rs))
                 && is_positive (base_signal score) = false).
    { destruct N as [N|N]; [apply Nat.leb_gt in N; now rewrite N|].
      rewrite N. apply andb_false_r. }
    assert (P' : Nat.leb 2 (count is_positive (agent_signals rs))
                 && is_negative (base_signal score) = false).
    { destruct P as [P|P]; [apply Nat.leb_gt in P; now rewrite P|].
      rewrite P. apply andb_false_r. }
    rewrite N', P'. now destruct (Nat.leb 3 _).
  - intros a b r1 r2 S1 S2 L U.
    unfold agent_signals. simpl. rewrite S1, S2. simpl.
    pose proof (get_recommendation_signal_band score) as B.
    change (BaseAgent.get_recommendation_signal score) with (base_signal score) in B.
    destruct (base_signal score); simpl in B; try lra. reflexivity.
Qed.

(** ** The confidence blend *)

Section SignalCounts.

Lemma occurrences_cons (s x : signal) (l : list signal) :
  Spec.occurrences s (x :: l)
  = ((if signal_eqb s x then 1 else 0) + Spec.occurrences s l)%nat.
Proof. unfold Spec.occurrences. simpl. now destruct (signal_eqb s x). Qed.

Lemma tally_get (counts : dict signal nat) (x s : signal) :
  get_or (dict_get (tally counts x) s) O
  = ((if signal_eqb s x then 1 else 0) + get_or (dict_get counts s) O)%nat.
Proof.
  unfold tally. destruct (signal_eqb s x) eqn:E.
  - apply signal_eqb_eq in E. subst s.
    rewrite (dict_get_set_same signal_eqb_eq). simpl. lia.
  - rewrite (dict_get_set_other signal_eqb_eq); [reflexivity|].
    intros ->. now rewrite (proj2 (signal_eqb_eq s s) eq_refl) in E.
Qed.

(** After the loop a signal's entry is its number of occurrences, on top
    of what the dict started with. *)
Lemma tally_all_get (l : list signal) (counts : dict signal nat) (s : signal) :
  get_or (dict_get (fold_left tally l counts) s) O
  = (get_or (dict_get counts s) O + Spec.occurrences s l)%nat.
Proof.
  revert counts. induction l as [|x l IH]; intros counts; simpl.
  - unfold Spec.occurrences. simpl. lia.
  - rewrite IH, tally_get, occurrences_cons. lia.
Qed.

(** No entry of the dict exceeds the occurrences of its key. *)
Lemma tally_all_bound (l : list signal) (counts : dict signal nat)
    (c : signal -> nat) :
  (forall k v, In (k, v) counts -> (v <= c k)%nat) ->
  (forall k, (get_or (dict_get counts k) O <= c k)%nat) ->
  forall k v, In (k, v) (fold_left tally l counts) ->
              (v <= c k + Spec.occurrences k l)%nat.
Proof.
  revert counts c. induction l as [|x l IH]; intros counts c B G k v I; simpl in I.
  - specialize (B k v I). lia.
  - specialize (IH (tally counts x)
                   (fun k => (c k + if signal_eqb k x then 1 else 0)%nat)).
    rewrite occurrences_cons.
    assert (v <= c k + (if signal_eqb k x then 1 else 0) + Spec.occurrences k l)%nat;
      [|lia].
    apply IH; [| |exact I].
    + intros k' v' I'. apply in_dict_set in I'. destruct I' as [E|I'].
      * injection E as -> ->.
        rewrite (proj2 (signal_eqb_eq x x) eq_refl). specialize (G x). lia.
      * specialize (B k' v' I'). lia.
    + intros k'. rewrite tally_get. specialize (G k'). lia.
Qed.

Lemma signal_counts_fold (l : list signal) :
  signal_counts l = fold_left tally l [].
Proof. reflexivity. Qed.

End SignalCounts.

Lemma fold_max_ge (l : list nat) (a : nat) :
  (a <= fold_left Nat.max l a)%nat /\
  (forall v, In v l -> (v <= fold_left Nat.max l a)%nat).
Proof.
  revert a. induction l as [|x l IH]; intros a; simpl.
  - split; [lia|contradiction].
  - destruct (IH (Nat.max a x)) as [H1 H2]. split; [lia|].
    intros v [<-|I]; [lia|]. now apply H2.
Qed.

Lemma fold_max_le (l : list nat) (a m : nat) :
  (a <= m)%nat -> (forall v, In v l -> (v <= m)%nat) ->
  (fold_left Nat.max l a <= m)%nat.
Proof.
  revert a. induction l as [|x l IH]; intros a A B; simpl; [exact A|].
  apply IH.
  - specialize (B x (or_introl eq_refl)). lia.
  - intros v I. apply B. now right.
Qed.

Lemma occurrences_le_mode (s : signal) (l : list signal) :
  (Spec.occurrences s l <= Spec.mode_frequency l)%nat.
Proof. unfold Spec.mode_frequency. destruct s; simpl; lia. Qed.

(** The largest count of the dict is the frequency of the most frequent
    signal. *)
Lemma max_count_is_mode (l : list signal) :
  fold_left Nat.max (values (signal_counts l)) O = Spec.mode_frequency l.
Proof.
  apply Nat.le_antisymm.
  - apply fold_max_le; [lia|].
    intros v I. unfold values in I. apply in_map_iff in I.
    destruct I as [[k v'] [E I]]. simpl in E. subst v'.
    rewrite signal_counts_fold in I.
    pose proof (tally_all_bound l [] (fun _ => O)) as B.
    specialize (B (fun _ _ F => match F with end) (fun _ => le_n O) k v I).
    pose proof (occurrences_le_mode k l). simpl in B. lia.
  - assert (O : forall s, (Spec.occurrences s l
                           <= fold_left Nat.max (values (signal_counts l)) 0)%nat).
    { intros s. pose proof (tally_all_get l [] s) as G.
      rewrite <- signal_counts_fold in G. simpl in G. rewrite <- G.
      destruct (dict_get (signal_counts l) s) as [v|] eqn:D; simpl; [|lia].
      apply fold_max_ge. unfold values. apply in_map_iff.
      exists (s, v). split; [reflexivity|].
      now apply (dict_get_in signal_eqb_eq). }
    unfold Spec.mode_frequency. simpl.
    repeat apply Nat.max_lub; try apply O. lia.
Qed.

(** C6.  The recommendation confidence is the average of the confidences of
    the active agents whose result carries one; when at least two results
    carry a signal, it is raised by 0.1 and capped at 0.95 if the most
    frequent signal's share is at least 0.8, lowered by 0.1 and floored at
    0.2 if the share is at most 0.4, and left unchanged otherwise; with
    fewer than two signals it is the raw average. *)
Theorem overall_confidence_is_blend
    (rs : dict agent_name AgentResult) (active : list agent_name) :
  confidences rs active <> [] ->
  _calculate_overall_confidence rs active
  = Spec.confidence_blend (confidences rs active) (agent_signals rs).
Proof.
  intros H. unfold _calculate_overall_confidence, Spec.confidence_blend.
  destruct (confidences rs active) as [|c cs] eqn:C; [contradiction|].
  unfold Spec.agreement_share. rewrite max_count_is_mode.
  unfold Nat.ltb.
  destruct (Nat.leb 2 (List.length (agent_signals rs))) eqn:L.
  - apply Nat.leb_le in L.
    replace (Nat.leb (S (List.length (agent_signals rs))) 2) with false
      by (symmetry; apply Nat.leb_gt; lia).
    reflexivity.
  - apply Nat.leb_gt in L.
    replace (Nat.leb (S (List.length (agent_signals rs))) 2) with true
      by (symmetry; apply Nat.leb_le; lia).
    reflexivity.
Qed.

Lemma overall_confidence_is_blend_witness :
  _calculate_overall_confidence
    (run_agents Examples.only_risk_answers [risk_assessment; fundamental; technical])
    [risk_assessment; fundamental; technical]
  = Spec.confidence_blend
      (confidences
         (run_agents Examples.only_risk_answers [risk_assessment; fundamental; technical])
         [risk_assessment; fundamental; technical])
      (agent_signals
         (run_agents Examples.only_risk_answers [risk_assessment; fundamental; technical])).
Proof.
  apply (overall_confidence_is_blend
           (run_agents Examples.only_risk_answers [risk_assessment; fundamental; technical])
           [risk_assessment; fundamental; technical]).
  simpl. discriminate.
Defined.

(** ** Agent selection *)

Lemma starts_with_iff (word s : list ascii) :
  starts_with word s = true <-> exists post, s = (word ++ post)%list.
Proof.
  revert s. induction word as [|a word IH]; intros s; simpl.
  - split; [intros _; now exists s|reflexivity].
  - destruct s as [|b s].
    + split; [discriminate|]. intros [post E]. discriminate.
    + rewrite andb_true_iff, Ascii.eqb_eq, IH. split.
      * intros [-> [post ->]]. now exists post.
      * intros [post E]. injection E as -> ->. split; [reflexivity|now exists post].
Qed.

Lemma occurs_iff (word s : list ascii) :
  occurs word s = true <-> exists pre post, s = (pre ++ word ++ post)%list.
Proof.
  split.
  - induction s as [|b s IH]; simpl.
    + rewrite orb_false_r. intros H. apply starts_with_iff in H.
      destruct H as [post E]. now exists [], post.
    + intros H. apply orb_true_iff in H. destruct H as [H|H].
      * apply starts_with_iff in H. destruct H as [post E]. now exists [], post.
      * destruct (IH H) as [pre [post E]]. exists (b :: pre), post.
        simpl. now rewrite E.
  - intros [pre [post ->]]. induction pre as [|b pre IH]; simpl.
    + assert (S : starts_with word (word ++ post) = true)
        by (apply starts_with_iff; now exists post).
      destruct (word ++ post)%list; simpl in *; now rewrite S.
    + rewrite IH. apply orb_true_r.
Qed.

(** A keyword that occurs in a text still occurs, letters only, in the
    letters of the text. *)
Lemma occurs_letters (word s : list ascii) :
  occurs word s = true -> occurs (Spec.letters word) (Spec.letters s) = true.
Proof.
  intros H. apply occurs_iff in H. destruct H as [pre [post ->]].
  apply occurs_iff. exists (Spec.letters pre), (Spec.letters post).
  unfold Spec.letters. now rewrite !filter_app.
Qed.

Lemma any_in_false_by_letters (words : list string) (q : list ascii) :
  forallb (fun k => negb (occurs (Spec.letters (list_ascii_of_string k))
                            (Spec.letters q))) words = true ->
  any_in words q = false.
Proof.
  unfold any_in. induction words as [|k words IH]; simpl; [reflexivity|].
  intros H. apply andb_true_iff in H. destruct H as [H1 H2].
  rewrite (IH H2), orb_false_r.
  destruct (occurs (list_ascii_of_string k) q) eqn:E; [|reflexivity].
  apply occurs_letters in E. now rewrite E in H1.
Qed.

Lemma determine_is_select (q : string) :
  _determine_active_agents q = Spec.select_active q.
Proof.
  unfold _determine_active_agents, Spec.select_active, Spec.categories.
  cbn [find fst snd].
  repeat match goal with
         | |- context [any_in ?ws ?x] => destruct (any_in ws x); [reflexivity|]
         end.
  reflexivity.
Qed.

(** C9.  The selector is a function of the query text alone: equal queries,
    and queries that differ only in letter case, select the same agents.  It
    returns the subset of the first keyword category, in the fixed priority
    order, that has a keyword in the lower-cased query, and all five agents
    when no category has one or the query is empty.  Every re-casing and
    re-punctuation of "What's the technical setup?" that keeps its letters
    in order and the word technical in one piece selects exactly technical
    and risk_assessment. *)
Theorem agent_selection :
  (forall q1 q2, q1 = q2 ->
     _determine_active_agents q1 = _determine_active_agents q2) /\
  (forall q1 q2, lower q1 = lower q2 ->
     _determine_active_agents q1 = _determine_active_agents q2) /\
  (forall q, _determine_active_agents q = Spec.select_active q) /\
  (forall q,
     Spec.letters (lower q) = Spec.letters (lower Spec.technical_setup_query) ->
     occurs (list_ascii_of_string "technical") (lower q) = true ->
     _determine_active_agents q = [technical; risk_assessment]) /\
  _determine_active_agents "" = all_agents /\
  (forall q,
     (forall c, In c Spec.categories -> any_in (fst c) (lower q) = false) ->
     _determine_active_agents q = all_agents).
Proof.
  split; [|split; [|split; [|split; [|split]]]].
  - intros q1 q2 ->. reflexivity.
  - intros q1 q2 E. unfold _determine_active_agents. now rewrite E.
  - apply determine_is_select.
  - intros q L T. unfold _determine_active_agents.
    rewrite any_in_false_by_letters by (rewrite L; reflexivity).
    unfold any_in at 1. cbn [existsb]. now rewrite T.
  - reflexivity.
  - intros q H. rewrite determine_is_select. unfold Spec.select_active.
    destruct (find _ Spec.categories) as [c|] eqn:F; [|reflexivity].
    apply find_some in F. destruct F as [I E].
    rewrite (H c I) in E. discriminate.
Qed.

(** ** What a raising agent leaves in the recommendation *)

Lemma run_agents_get (agents : agent_name -> result AgentResult)
    (a : agent_name) (l : list agent_name) (d : dict agent_name AgentResult) :
  dict_get (fold_left (fun rs b => dict_set rs b (outcome agents b)) l d) a
  = if existsb (agent_name_eqb a) l then Some (outcome agents a) else dict_get d a.
Proof.
  revert d. induction l as [|b l IH]; intros d; simpl; [reflexivity|].
  rewrite IH. destruct (existsb (agent_name_eqb a) l).
  - now rewrite orb_true_r.
  - rewrite orb_false_r. destruct (agent_name_eqb a b) eqn:E.
    + apply agent_name_eqb_eq in E. subst b.
      apply (dict_get_set_same agent_name_eqb_eq).
    + apply (dict_get_set_other agent_name_eqb_eq).
      intros ->. now rewrite (proj2 (agent_name_eqb_eq a a) eq_refl) in E.
Qed.

Lemma run_agents_entries (agents : agent_name -> result AgentResult)
    (l : list agent_name) (d : dict agent_name AgentResult) (k : agent_name)
    (v : AgentResult) :
  In (k, v) (fold_left (fun rs b => dict_set rs b (outcome agents b)) l d) ->
  In (k, v) d \/ v = outcome agents k.
Proof.
  revert d. induction l as [|b l IH]; intros d; simpl; [auto|].
  intros I. destruct (IH _ I) as [I'|E]; [|auto].
  apply in_dict_set in I'. destruct I' as [E|I']; [|auto].
  injection E as -> ->. auto.
Qed.

Lemma existsb_agent (a : agent_name) (l : list agent_name) :
  In a l -> existsb (agent_name_eqb a) l = true.
Proof.
  intros I. apply existsb_exists. exists a. split; [exact I|].
  now apply agent_name_eqb_eq.
Qed.

Lemma scan_without (hit : Q -> bool) (describe : agent_name -> string -> Q -> string)
    (a : agent_name) (rs : dict agent_name AgentResult) :
  (forall v, In (a, v) rs -> scores v = None) ->
  scan hit describe rs = scan hit describe (Spec.without a rs).
Proof.
  unfold scan, Spec.without.
  induction rs as [|[k v] rs IH]; intros H; simpl; [reflexivity|].
  unfold key_eqb, agent_name_Key.
  destruct (agent_name_eqb k a) eqn:E; simpl.
  - apply agent_name_eqb_eq in E. subst k.
    rewrite (H v (or_introl eq_refl)). simpl.
    apply IH. intros v' I. apply H. now right.
  - f_equal. apply IH. intros v' I. apply H. now right.
Qed.

Lemma metrics_of_without (a x : agent_name) (rs : dict agent_name AgentResult) :
  (forall v, In (a, v) rs -> key_metrics v = None) ->
  metrics_of (Spec.without a rs) x = metrics_of rs x.
Proof.
  intros H. unfold metrics_of, Spec.without.
  rewrite (dict_get_filter_other agent_name_eqb_eq).
  unfold key_eqb, agent_name_Key.
  destruct (agent_name_eqb x a) eqn:E; [|reflexivity].
  apply agent_name_eqb_eq in E. subst x.
  destruct (dict_get rs a) as [v|] eqn:G; [|reflexivity].
  symmetry. apply H. now apply (dict_get_in agent_name_eqb_eq).
Qed.

Lemma key_insights_without (a : agent_name) (rs : dict agent_name AgentResult) :
  (forall v, In (a, v) rs -> key_metrics v = None) ->
  _extract_key_insights rs = _extract_key_insights (Spec.without a rs).
Proof.
  intros H. unfold _extract_key_insights.
  now rewrite !(metrics_of_without a _ rs H).
Qed.

(** The loop of lines 121-128 records the score of every contributing
    agent under its name. *)
Lemma agent_scores_get (rs : dict agent_name AgentResult) (a : agent_name)
    (score : Q) (l : list agent_name) (st : Q * Q * dict agent_name Q) :
  Spec.contribution rs a = Some score -> In a l ->
  dict_get (snd (fold_left (accumulate rs) l st)) a = Some score.
Proof.
  intros C. assert (K : forall l st,
    dict_get (snd st) a = Some score ->
    dict_get (snd (fold_left (accumulate rs) l st)) a = Some score).
  { clear l st.
    induction l as [|b l IH]; intros [[tws tw] sc] G; cbn [fold_left]; [exact G|].
    apply IH. destruct (Spec.contribution rs b) as [s|] eqn:Cb.
    - rewrite (accumulate_some _ _ _ _ _ _ Cb). simpl.
      destruct (agent_name_eqb b a) eqn:E.
      + apply agent_name_eqb_eq in E. subst b.
        rewrite (dict_get_set_same agent_name_eqb_eq). congruence.
      + rewrite (dict_get_set_other agent_name_eqb_eq); [exact G|].
        intros ->. now rewrite (proj2 (agent_name_eqb_eq a a) eq_refl) in E.
    - now rewrite accumulate_nothing. }
  revert st.
  induction l as [|b l IH]; intros [[tws tw] sc] I; cbn [fold_left]; [contradiction|].
  destruct I as [->|I]; [|now apply IH].
  apply K. rewrite (accumulate_some _ _ _ _ _ _ C). simpl.
  apply (dict_get_set_same agent_name_eqb_eq).
Qed.

(** C10.  When an agent's analyze call raised, the key insights, the risk
    factors and the opportunities of the recommendation are those extracted
    from the other agents' results: the raising agent adds no entry, since
    the result synthesized for it has neither scores nor key metrics.  Its
    score 0.5 is still recorded among the agent scores and its confidence
    0.1 is among the confidences that are averaged. *)
Theorem raising_agent_adds_no_entry
    (agents : agent_name -> result AgentResult) (query : string)
    (a : agent_name) (e : exn) :
  agents a = Raise e ->
  key_insights (aggregate (analyze_stock agents query))
  = _extract_key_insights (Spec.without a (agent_results (analyze_stock agents query))) /\
  risk_factors (aggregate (analyze_stock agents query))
  = _extract_risk_factors (Spec.without a (agent_results (analyze_stock agents query))) /\
  opportunities (aggregate (analyze_stock agents query))
  = _extract_opportunities (Spec.without a (agent_results (analyze_stock agents query))) /\
  scores (_create_agent_error a (str_of_exn e)) = None /\
  key_metrics (_create_agent_error a (str_of_exn e)) = None /\
  (In a (active_agents (analyze_stock agents query)) ->
   dict_get (agent_results (analyze_stock agents query)) a
   = Some (_create_agent_error a (str_of_exn e)) /\
   dict_get (agent_scores (aggregate (analyze_stock agents query))) a = Some 0.5 /\
   In 0.1 (confidences (agent_results (analyze_stock agents query))
             (active_agents (analyze_stock agents query)))).
Proof.
  intros R. unfold analyze_stock. cbn [aggregate agent_results active_agents].
  set (active := _determine_active_agents query).
  set (rs := run_agents agents active).
  assert (O : outcome agents a = _create_agent_error a (str_of_exn e))
    by (unfold outcome; now rewrite R).
  assert (E : forall v, In (a, v) rs -> v = _create_agent_error a (str_of_exn e)).
  { intros v I. apply run_agents_entries in I. destruct I as [[]|I]. congruence. }
  assert (S : forall v, In (a, v) rs -> scores v = None)
    by (intros v I; now rewrite (E v I)).
  assert (M : forall v, In (a, v) rs -> key_metrics v = None)
    by (intros v I; now rewrite (E v I)).
  unfold _aggregate_agent_results.
  destruct (weighted_totals rs active) as [[tws tw] sc] eqn:W.
  cbn [key_insights risk_factors opportunities agent_scores].
  split; [now apply key_insights_without|].
  split; [unfold _extract_risk_factors; now rewrite <- scan_without|].
  split; [unfold _extract_opportunities; now rewrite <- scan_without|].
  split; [reflexivity|]. split; [reflexivity|].
  intros I.
  assert (G : dict_get rs a = Some (_create_agent_error a (str_of_exn e))).
  { unfold rs, run_agents. rewrite run_agents_get, existsb_agent by exact I.
    now rewrite O. }
  split; [exact G|]. split.
  - change sc with (snd (tws, tw, sc)). rewrite <- W. unfold weighted_totals.
    apply agent_scores_get; [|exact I].
    unfold Spec.contribution. now rewrite G.
  - unfold confidences. apply in_flat_map. exists a. split; [exact I|].
    rewrite G. simpl. now left.
Qed.

(** ** Sub-scores lie in the unit interval *)

Lemma unit_nil : Spec.in_unit_interval [].
Proof. constructor. Qed.

Lemma unit_dict_set (d : dict string Q) (k : string) (v : Q) :
  Spec.in_unit_interval d -> 0 <= v /\ v <= 1 ->
  Spec.in_unit_interval (dict_set d k v).
Proof.
  unfold Spec.in_unit_interval. intros D V.
  induction d as [|[k' v'] d IH]; simpl.
  - constructor; [exact V|constructor].
  - inversion D; subst. destruct (key_eqb k' k).
    + constructor; assumption.
    + constructor; [assumption|now apply IH].
Qed.

(** Settles a bound on a score that is a clamped value or one of finitely
    many constants chosen by tests on the inputs. *)
Ltac unit_bound :=
  first
    [ apply clamp01_bounds
    | repeat match goal with
        | |- context [match ?x with Some _ => _ | None => _ end] => destruct x
        | |- context [if ?b then _ else _] => destruct b
        end;
      unfold Py.min, Py.max;
      repeat match goal with
        | |- context [if ?b then _ else _] => destruct b eqn:?
        end;
      split; lra ].

Lemma fundamental_scores_unit (f : Fundamentals) :
  Spec.in_unit_interval (FundamentalAnalysisAgent._calculate_fundamental_scores f).
Proof.
  unfold FundamentalAnalysisAgent._calculate_fundamental_scores.
  repeat apply unit_dict_set; try apply unit_nil.
  - unfold FundamentalAnalysisAgent.valuation_score. unit_bound.
  - unfold FundamentalAnalysisAgent.profitability_score. unit_bound.
  - unfold FundamentalAnalysisAgent.financial_health_score. unit_bound.
  - unfold FundamentalAnalysisAgent.growth_score. unit_bound.
Qed.

Lemma macro_scores_unit (sector : option string) (m : MacroData) :
  Spec.in_unit_interval (MacroContextAgent._calculate_macro_scores sector m).
Proof.
  unfold MacroContextAgent._calculate_macro_scores.
  repeat apply unit_dict_set; try apply unit_nil.
  - unfold MacroContextAgent.gdp_impact_score. unit_bound.
  - unfold MacroContextAgent.interest_rate_impact_score. unit_bound.
  - unfold MacroContextAgent.inflation_impact_score. unit_bound.
  - unfold MacroContextAgent.currency_impact_score. unit_bound.
  - unfold MacroContextAgent.market_sentiment_score. unit_bound.
Qed.

Lemma bind_ok {A B} (m : result A) (k : A -> result B) (b : B) :
  Py.bind m k = Ok b -> exists a, m = Ok a /\ k a = Ok b.
Proof. destruct m as [a|e]; simpl; [eauto|discriminate]. Qed.

Lemma ok_inj {A} (a b : A) : Ok a = Ok b -> a = b.
Proof. now intros [= ->]. Qed.

Lemma risk_scores_unit (f : Fundamentals) (p : PriceData) (hist : Hist)
    (sc : dict string Q) :
  RiskAssessmentAgent._calculate_risk_scores f p hist = Ok sc ->
  Spec.in_unit_interval sc.
Proof.
  unfold RiskAssessmentAgent._calculate_risk_scores. intros H.
  apply bind_ok in H. destruct H as [liq [L H]].
  apply bind_ok in H. destruct H as [down [D H]].
  apply ok_inj in H. subst sc.
  repeat apply unit_dict_set; try apply unit_nil.
  - unfold RiskAssessmentAgent.valuation_risk_score. unit_bound.
  - unfold RiskAssessmentAgent.financial_risk_score. unit_bound.
  - unfold RiskAssessmentAgent.volatility_risk_score. unit_bound.
  - unfold RiskAssessmentAgent.liquidity_risk_score in L.
    apply bind_ok in L. destruct L as [cap [_ L]].
    apply ok_inj in L. subst liq. unit_bound.
  - unfold RiskAssessmentAgent._calculate_safety_margin_score. unit_bound.
  - unfold RiskAssessmentAgent._calculate_downside_risk_score in D.
    apply bind_ok in D. destruct D as [s [S D]].
    apply ok_inj in D. subst down.
    assert (B : s == 0.3 \/ s == 0.5 \/ s == 0.6 \/ s == 0.7 \/ s == 0.8).
    { destruct (_ && _) in S.
      - apply bind_ok in S. destruct S as [pos [_ S]].
        apply ok_inj in S. subst s.
        repeat match goal with
               | |- context [if ?b then _ else _] => destruct b
               end; intuition reflexivity.
      - apply ok_inj in S. subst s. intuition reflexivity. }
    unfold Py.min, Py.max.
    repeat match goal with
           | |- context [if ?b then _ else _] => destruct b eqn:?
           end;
      destruct B as [B|[B|[B|[B|B]]]]; rewrite ?B; split; lra.
Qed.

Lemma technical_scores_unit (i : Indicators) (price_data : fetched PriceData)
    (sc : dict string Q) :
  TechnicalAnalysisAgent._calculate_technical_scores i price_data = Ok sc ->
  Spec.in_unit_interval sc.
Proof.
  unfold TechnicalAnalysisAgent._calculate_technical_scores. intros H.
  apply bind_ok in H. destruct H as [vol [V H]].
  assert (B : Spec.in_unit_interval
                (dict_set (dict_set (dict_set (dict_set [] "momentum_score"
                   (TechnicalAnalysisAgent.momentum_score i)) "trend_score"
                   (TechnicalAnalysisAgent.trend_score i)) "macd_score"
                   (TechnicalAnalysisAgent.macd_score i)) "volatility_score" vol)).
  { repeat apply unit_dict_set; try apply unit_nil.
    - unfold TechnicalAnalysisAgent.momentum_score. unit_bound.
    - unfold TechnicalAnalysisAgent.trend_score. unit_bound.
    - unfold TechnicalAnalysisAgent.macd_score. unit_bound.
    - unfold TechnicalAnalysisAgent.volatility_score in V.
      destruct (_ && _) in V.
      + apply bind_ok in V. destruct V as [pos [_ V]].
        apply ok_inj in V. subst vol. unit_bound.
      + apply ok_inj in V. subst vol. split; lra. }
  destruct price_data as [p|msg].
  - apply bind_ok in H. destruct H as [position [P H]].
    apply ok_inj in H. subst sc.
    apply unit_dict_set; [exact B|].
    unfold TechnicalAnalysisAgent.price_position_score in P.
    destruct (_ && _) in P.
    + apply bind_ok in P. destruct P as [pos [_ P]].
      apply ok_inj in P. subst position. unit_bound.
    + apply ok_inj in P. subst position. split; lra.
  - apply ok_inj in H. now subst sc.
Qed.

Lemma index_lt (l : list Q) (x : Q) (i : nat) :
  Py.index l x = Ok i -> (i < List.length l)%nat.
Proof.
  revert i. induction l as [|y l IH]; intros i; simpl; [discriminate|].
  destruct (Qeq_bool y x).
  - intros [= <-]. lia.
  - destruct (Py.index l x) as [j|e]; [|discriminate].
    intros [= <-]. specialize (IH j eq_refl). lia.
Qed.

Lemma div_inv (a b v : Q) : Py.div a b = Ok v -> ~ b == 0 /\ v = a / b.
Proof.
  unfold Py.div. destruct (Qeq_bool b 0) eqn:E; [discriminate|].
  intros [= <-]. split; [now apply Qeq_bool_neq|reflexivity].
Qed.

Lemma len_nonneg {A} (l : list A) : 0 <= Py.len l.
Proof.
  unfold Py.len. change 0 with (inject_Z 0). rewrite <- Zle_Qle. lia.
Qed.

Lemma percentile_unit (ordered : list Q) (x v : Q) :
  PeerComparisonAgent.percentile ordered x = Ok v -> 0 <= v /\ v <= 1.
Proof.
  unfold PeerComparisonAgent.percentile. intros H.
  apply bind_ok in H. destruct H as [idx [I H]].
  apply index_lt in I. apply div_inv in H. destruct H as [N ->].
  pose proof (len_nonneg ordered) as P.
  assert (L : inject_Z (Z.of_nat idx) + 1 <= Py.len ordered).
  { unfold Py.len. change 1 with (inject_Z 1). rewrite <- inject_Z_plus.
    rewrite <- Zle_Qle. lia. }
  assert (Z : 0 <= inject_Z (Z.of_nat idx)).
  { change 0 with (inject_Z 0). rewrite <- Zle_Qle. lia. }
  split.
  - apply Qle_shift_div_l; lra.
  - apply Qle_shift_div_r; lra.
Qed.

Lemma sum_bounds (l : list Q) :
  Forall (fun v => 0 <= v /\ v <= 1) l ->
  0 <= fold_right Qplus 0 l /\ fold_right Qplus 0 l <= Py.len l.
Proof.
  unfold Py.len. induction 1 as [|v l [V0 V1] _ [IH0 IH1]].
  - split; [simpl; lra|unfold Qle; simpl; lia].
  - cbn [fold_right List.length]. rewrite Nat2Z.inj_succ.
    unfold Z.succ. rewrite inject_Z_plus. change (inject_Z 1) with 1.
    split; lra.
Qed.

Lemma mean_unit (l : list Q) (v : Q) :
  Forall (fun v => 0 <= v /\ v <= 1) l ->
  Py.div (Py.sum l) (Py.len l) = Ok v -> 0 <= v /\ v <= 1.
Proof.
  intros F H. apply div_inv in H. destruct H as [N ->].
  pose proof (len_nonneg l) as P. destruct (sum_bounds l F) as [S0 S1].
  rewrite sum_fold_right. split.
  - apply Qle_shift_div_l; lra.
  - apply Qle_shift_div_r; lra.
Qed.

Lemma ranking_factors_unit (target : Fundamentals) (peers : list Fundamentals)
    (fs : list Q) :
  PeerComparisonAgent.ranking_factors target peers = Ok fs ->
  Forall (fun v => 0 <= v /\ v <= 1) fs.
Proof.
  unfold PeerComparisonAgent.ranking_factors. intros H.
  apply bind_ok in H. destruct H as [fs1 [H1 H2]].
  assert (F1 : Forall (fun v => 0 <= v /\ v <= 1) fs1).
  { destruct (_ && _) in H1.
    - apply bind_ok in H1. destruct H1 as [pc [P H1]].
      apply ok_inj in H1. subst fs1.
      constructor; [now apply percentile_unit in P|constructor].
    - apply ok_inj in H1. subst fs1. constructor. }
  destruct (_ && _) in H2.
  - apply bind_ok in H2. destruct H2 as [pc [P H2]].
    apply ok_inj in H2. subst fs.
    apply Forall_app. split; [exact F1|].
    constructor; [now apply percentile_unit in P|constructor].
  - apply ok_inj in H2. now subst fs.
Qed.

Lemma peer_scores_unit (target : Fundamentals) (peers : list Fundamentals)
    (sc : dict string Q) :
  PeerComparisonAgent._calculate_peer_scores target peers = Ok sc ->
  Spec.in_unit_interval sc.
Proof.
  unfold PeerComparisonAgent._calculate_peer_scores. intros H.
  destruct peers as [|p0 peers'].
  - apply ok_inj in H. subst sc. repeat constructor; simpl; lra.
  - remember (p0 :: peers') as peers eqn:E. clear E.
    apply bind_ok in H. destruct H as [val [V H]].
    apply bind_ok in H. destruct H as [prof [P H]].
    apply bind_ok in H. destruct H as [rank [R H]].
    apply ok_inj in H. subst sc.
    repeat apply unit_dict_set; try apply unit_nil.
    + unfold PeerComparisonAgent.relative_valuation_score in V.
      destruct (_ && _) in V.
      * apply bind_ok in V. destruct V as [m [_ V]].
        apply ok_inj in V. subst val. unit_bound.
      * apply ok_inj in V. subst val. split; lra.
    + unfold PeerComparisonAgent.relative_profitability_score in P.
      destruct (_ && _) in P.
      * apply bind_ok in P. destruct P as [m [_ P]].
        apply ok_inj in P. subst prof. unit_bound.
      * apply ok_inj in P. subst prof. split; lra.
    + unfold PeerComparisonAgent.peer_ranking_score in R.
      apply bind_ok in R. destruct R as [fs [F R]].
      apply ranking_factors_unit in F.
      destruct fs as [|f0 fs'].
      * apply ok_inj in R. subst rank. split; lra.
      * now apply (mean_unit (f0 :: fs')).
Qed.

(** ** The results the agents return *)

Lemma create_response_shape (name : string) (w : Q) (clk : string)
    (sub_scores : dict string Q) (text : string)
    (metrics : dict string (option Q)) (conf : Q) (r : AgentResult) :
  BaseAgent.create_response name w clk sub_scores text metrics conf = Ok r ->
  exists s,
    scores r = Some sub_scores /\ overall_score r = Some s /\
    recommendation_signal r = Some (BaseAgent.get_recommendation_signal s) /\
    confidence r = Some conf /\ error r = None.
Proof.
  unfold BaseAgent.create_response. intros H.
  apply bind_ok in H. destruct H as [s [_ H]].
  simpl in H. apply ok_inj in H. subst r. exists s. repeat split.
Qed.

Lemma created_is_shaped (name : string) (w : Q) (clk : string)
    (sub_scores : dict string Q) (text : string)
    (metrics : dict string (option Q)) (conf : Q) (r : AgentResult) :
  Spec.in_unit_interval sub_scores ->
  BaseAgent.create_response name w clk sub_scores text metrics conf = Ok r ->
  Spec.agent_shaped r.
Proof.
  intros U H. apply create_response_shape in H.
  destruct H as [s [S [O [G [C E]]]]]. split.
  - exists s, (BaseAgent.get_recommendation_signal s), conf.
    repeat split; auto.
  - now exists sub_scores.
Qed.

Lemma sentinel_is_shaped (r : AgentResult) :
  Spec.is_sentinel r -> Spec.agent_shaped r.
Proof.
  intros [S [O [G [C _]]]]. split.
  - exists 0.5, HOLD, 0.1. repeat split; auto.
  - exists []. split; [exact S|constructor].
Qed.

Lemma dict_set_nonempty {V} (d : dict string V) (k : string) (v : V) :
  dict_set d k v <> [].
Proof. destruct d as [|[k' v'] d]; simpl; [|destruct (key_eqb k' k)]; discriminate. Qed.

(** Each of the four agents whose module imports [datetime] builds the
    sentinel on demand. *)
Lemma technical_error_response (clk msg : string) :
  exists r, TechnicalAnalysisAgent._create_error_response clk msg = Ok r /\
            Spec.is_sentinel r /\ error r = Some msg.
Proof. eexists. split; [reflexivity|]. repeat split. now exists msg. Qed.

Lemma peer_error_response (clk msg : string) :
  exists r, PeerComparisonAgent._create_error_response clk msg = Ok r /\
            Spec.is_sentinel r /\ error r = Some msg.
Proof. eexists. split; [reflexivity|]. repeat split. now exists msg. Qed.

Lemma macro_error_response (clk msg : string) :
  exists r, MacroContextAgent._create_error_response clk msg = Ok r /\
            Spec.is_sentinel r /\ error r = Some msg.
Proof. eexists. split; [reflexivity|]. repeat split. now exists msg. Qed.

Lemma risk_error_response (clk msg : string) :
  exists r, RiskAssessmentAgent._create_error_response clk msg = Ok r /\
            Spec.is_sentinel r /\ error r = Some msg.
Proof. eexists. split; [reflexivity|]. repeat split. now exists msg. Qed.

(** The fundamental agent's module does not import [datetime]: building its
    sentinel raises. *)
Lemma fundamental_error_response (clk msg : string) :
  FundamentalAnalysisAgent._create_error_response clk msg
  = Raise (NameError "datetime").
Proof. reflexivity. Qed.

Lemma fundamental_analyze_shaped (w : World) (ticker : string) (r : AgentResult) :
  FundamentalAnalysisAgent.analyze w ticker = Ok r ->
  Spec.agent_shaped r /\ error r = None.
Proof.
  unfold FundamentalAnalysisAgent.analyze, try_except.
  destruct (fetch_fundamentals w ticker) as [f|msg].
  - destruct (BaseAgent.create_response _ _ _ _ _ _ _) as [r'|e] eqn:C.
    + intros H. apply ok_inj in H. subst r'. split.
      * eapply created_is_shaped; [apply fundamental_scores_unit|exact C].
      * apply create_response_shape in C. now destruct C as [s [_ [_ [_ [_ E]]]]].
    + rewrite fundamental_error_response. discriminate.
  - rewrite !fundamental_error_response. discriminate.
Qed.

Lemma macro_analyze_shaped (w : World) (ticker : string) (r : AgentResult) :
  MacroContextAgent.analyze w ticker = Ok r -> Spec.agent_shaped r.
Proof.
  unfold MacroContextAgent.analyze, try_except.
  destruct (BaseAgent.create_response _ _ _ _ _ _ _) as [r'|e] eqn:C.
  - intros H. apply ok_inj in H. subst r'.
    eapply created_is_shaped; [apply macro_scores_unit|exact C].
  - destruct (macro_error_response (clock w) (str_of_exn e)) as [r' [E [S _]]].
    rewrite E. intros H. apply ok_inj in H. subst r'.
    now apply sentinel_is_shaped.
Qed.

Lemma risk_analyze_shaped (w : World) (ticker : string) (r : AgentResult) :
  RiskAssessmentAgent.analyze w ticker = Ok r -> Spec.agent_shaped r.
Proof.
  unfold RiskAssessmentAgent.analyze, try_except.
  match goal with |- match ?body with _ => _ end = _ -> _ =>
    destruct body as [r'|e] eqn:B end.
  - intros H. apply ok_inj in H. subst r'.
    destruct (fetch_fundamentals w ticker) as [f|m1];
      [destruct (fetch_price_data w ticker) as [p|m2]|].
    + apply bind_ok in B. destruct B as [hist [_ B]].
      apply bind_ok in B. destruct B as [sc [S B]].
      eapply created_is_shaped; [eapply risk_scores_unit; exact S|exact B].
    + destruct (risk_error_response (clock w)
                  "Unable to fetch required data for risk analysis")
        as [r' [E [S _]]].
      rewrite E in B. apply ok_inj in B. subst r'. now apply sentinel_is_shaped.
    + destruct (risk_error_response (clock w)
                  "Unable to fetch required data for risk analysis")
        as [r' [E [S _]]].
      rewrite E in B. apply ok_inj in B. subst r'. now apply sentinel_is_shaped.
  - destruct (risk_error_response (clock w) (str_of_exn e)) as [r' [E [S _]]].
    rewrite E. intros H. apply ok_inj in H. subst r'.
    now apply sentinel_is_shaped.
Qed.

Lemma technical_analyze_shaped (w : World) (ticker : string) (r : AgentResult) :
  TechnicalAnalysisAgent.analyze w ticker = Ok r -> Spec.agent_shaped r.
Proof.
  unfold TechnicalAnalysisAgent.analyze, try_except.
  match goal with |- match ?body with _ => _ end = _ -> _ =>
    destruct body as [r'|e] eqn:B end.
  - intros H. apply ok_inj in H. subst r'.
    apply bind_ok in B. destruct B as [hist [_ B]].
    destruct (_ || _) in B.
    + destruct (technical_error_response (clock w) "Insufficient historical data")
        as [r' [E [S _]]].
      rewrite E in B. apply ok_inj in B. subst r'. now apply sentinel_is_shaped.
    + destruct (calculate_indicators w hist) as [i|msg].
      * apply bind_ok in B. destruct B as [sc [S B]].
        eapply created_is_shaped; [eapply technical_scores_unit; exact S|exact B].
      * destruct (technical_error_response (clock w) msg) as [r' [E [S _]]].
        rewrite E in B. apply ok_inj in B. subst r'. now apply sentinel_is_shaped.
  - destruct (technical_error_response (clock w) (str_of_exn e)) as [r' [E [S _]]].
    rewrite E. intros H. apply ok_inj in H. subst r'.
    now apply sentinel_is_shaped.
Qed.

Lemma peer_analyze_shaped (w : World) (ticker : string) (r : AgentResult) :
  PeerComparisonAgent.analyze w ticker = Ok r -> Spec.agent_shaped r.
Proof.
  unfold PeerComparisonAgent.analyze, try_except.
  match goal with |- match ?body with _ => _ end = _ -> _ =>
    destruct body as [r'|e] eqn:B end.
  - intros H. apply ok_inj in H. subst r'.
    destruct (fetch_fundamentals w ticker) as [target|msg].
    + destruct (PeerComparisonAgent._get_peers w ticker) as [|p0 ps].
      * unfold PeerComparisonAgent._create_limited_analysis in B.
        simpl in B. apply ok_inj in B. subst r. split.
        -- exists 0.5, HOLD, 0.3. simpl. repeat split; auto.
        -- eexists. split; [reflexivity|]. repeat constructor; simpl; lra.
      * apply bind_ok in B. destruct B as [sc [S B]].
        apply bind_ok in B. destruct B as [km [_ B]].
        apply bind_ok in B. destruct B as [conf [_ B]].
        eapply created_is_shaped; [eapply peer_scores_unit; exact S|exact B].
    + destruct (peer_error_response (clock w)
                  ("Cannot fetch target stock data: " ++ msg)) as [r' [E [S _]]].
      rewrite E in B. apply ok_inj in B. subst r'. now apply sentinel_is_shaped.
  - destruct (peer_error_response (clock w) (str_of_exn e)) as [r' [E [S _]]].
    rewrite E. intros H. apply ok_inj in H. subst r'.
    now apply sentinel_is_shaped.
Qed.

Lemma registered_agents_shaped (w : World) (ticker : string) (a : agent_name)
    (r : AgentResult) :
  registered_agents w ticker a = Ok r -> Spec.agent_shaped r.
Proof.
  destruct a; simpl; intros H.
  - now apply fundamental_analyze_shaped in H.
  - now apply technical_analyze_shaped in H.
  - now apply peer_analyze_shaped in H.
  - now apply macro_analyze_shaped in H.
  - now apply risk_analyze_shaped in H.
Qed.

(** C8.  Every sub-score an agent computes lies in the closed interval from
    0 to 1, whatever the inputs (negative or huge ratios, missing values):
    this holds for the score sets of the five agents whenever they are
    produced, and for the sub-score set of every result an agent's analyze
    returns. *)
Theorem sub_scores_in_unit_interval :
  (forall f,
     Spec.in_unit_interval (FundamentalAnalysisAgent._calculate_fundamental_scores f)) /\
  (forall sector m,
     Spec.in_unit_interval (MacroContextAgent._calculate_macro_scores sector m)) /\
  (forall f p hist sc,
     RiskAssessmentAgent._calculate_risk_scores f p hist = Ok sc ->
     Spec.in_unit_interval sc) /\
  (forall i price_data sc,
     TechnicalAnalysisAgent._calculate_technical_scores i price_data = Ok sc ->
     Spec.in_unit_interval sc) /\
  (forall target peers sc,
     PeerComparisonAgent._calculate_peer_scores target peers = Ok sc ->
     Spec.in_unit_interval sc) /\
  (forall w ticker a r,
     registered_agents w ticker a = Ok r ->
     exists sc, scores r = Some sc /\ Spec.in_unit_interval sc).
Proof.
  split; [apply fundamental_scores_unit|].
  split; [apply macro_scores_unit|].
  split; [apply risk_scores_unit|].
  split; [apply technical_scores_unit|].
  split; [apply peer_scores_unit|].
  intros w ticker a r H. apply registered_agents_shaped in H.
  now destruct H as [_ H].
Qed.

(** The risk agent does produce its six scores on pathological inputs, and
    they are within bounds. *)
Lemma sub_scores_in_unit_interval_witness :
  exists sc,
    RiskAssessmentAgent._calculate_risk_scores Examples.pathological
      Examples.pathological_prices Examples.long_history = Ok sc /\
    List.length sc = 6%nat /\
    Spec.in_unit_interval sc.
Proof.
  eexists. split; [reflexivity|]. split; [reflexivity|].
  apply (proj1 (proj2 (proj2 sub_scores_in_unit_interval))
           Examples.pathological Examples.pathological_prices Examples.long_history).
  reflexivity.
Defined.

(** ** Hard failures at the agent boundary *)

(** The four agents other than the fundamental one never raise: a failure
    inside [analyze] comes back as the sentinel. *)
Lemma sibling_agents_never_raise (w : World) (ticker : string) (a : agent_name) :
  a <> fundamental -> exists r, registered_agents w ticker a = Ok r.
Proof.
  intros N. destruct a; [contradiction| | | |]; simpl.
  - unfold TechnicalAnalysisAgent.analyze, try_except.
    match goal with |- exists r, match ?body with _ => _ end = _ =>
      destruct body as [r'|e] end; [eauto|].
    destruct (technical_error_response (clock w) (str_of_exn e)) as [r [E _]]. eauto.
  - unfold PeerComparisonAgent.analyze, try_except.
    match goal with |- exists r, match ?body with _ => _ end = _ =>
      destruct body as [r'|e] end; [eauto|].
    destruct (peer_error_response (clock w) (str_of_exn e)) as [r [E _]]. eauto.
  - unfold MacroContextAgent.analyze, try_except.
    match goal with |- exists r, match ?body with _ => _ end = _ =>
      destruct body as [r'|e] end; [eauto|].
    destruct (macro_error_response (clock w) (str_of_exn e)) as [r [E _]]. eauto.
  - unfold RiskAssessmentAgent.analyze, try_except.
    match goal with |- exists r, match ?body with _ => _ end = _ =>
      destruct body as [r'|e] end; [eauto|].
    destruct (risk_error_response (clock w) (str_of_exn e)) as [r [E _]]. eauto.
Qed.

(** On an upstream error response the technical, peer and risk agents
    return the sentinel. *)
Lemma sibling_agents_return_sentinel :
  (exists r, TechnicalAnalysisAgent.analyze Examples.unreachable "INFY.NS" = Ok r /\
             Spec.is_sentinel r) /\
  (exists r, PeerComparisonAgent.analyze Examples.unreachable "INFY.NS" = Ok r /\
             Spec.is_sentinel r) /\
  (exists r, RiskAssessmentAgent.analyze Examples.unreachable "INFY.NS" = Ok r /\
             Spec.is_sentinel r).
Proof.
  repeat split; eexists; (split; [reflexivity|]); repeat split; eexists; reflexivity.
Qed.

(** C4 fails for the fundamental agent.  Its module never imports
    [datetime], which [_create_error_response] reads: on an upstream error
    response the sentinel is not built, the [NameError] raised in the [try]
    block is caught, the handler raises it again, and it leaves [analyze]. *)
Theorem fundamental_analyze_raises (w : World) (ticker msg : string) :
  fetch_fundamentals w ticker = FetchError msg ->
  FundamentalAnalysisAgent.analyze w ticker = Raise (NameError "datetime").
Proof.
  intros F. unfold FundamentalAnalysisAgent.analyze. rewrite F.
  reflexivity.
Qed.

Lemma fundamental_analyze_raises_witness :
  FundamentalAnalysisAgent.analyze Examples.unreachable "INFY.NS"
  = Raise (NameError "datetime").
Proof.
  apply (fundamental_analyze_raises Examples.unreachable "INFY.NS" "No data available").
  reflexivity.
Defined.

(** The fundamental agent never returns a result with the error field
    populated: it answers with scores or it raises. *)
Lemma fundamental_analyze_no_sentinel (w : World) (ticker : string) (r : AgentResult) :
  FundamentalAnalysisAgent.analyze w ticker = Ok r -> error r = None.
Proof. intros H. now apply fundamental_analyze_shaped in H. Qed.

(** ** Instances at concrete inputs *)

Lemma raising_agent_adds_no_entry_witness :
  key_insights (aggregate (analyze_stock Examples.only_risk_answers Examples.risk_query))
  = _extract_key_insights
      (Spec.without fundamental
         (agent_results (analyze_stock Examples.only_risk_answers Examples.risk_query))) /\
  risk_factors (aggregate (analyze_stock Examples.only_risk_answers Examples.risk_query))
  = _extract_risk_factors
      (Spec.without fundamental
         (agent_results (analyze_stock Examples.only_risk_answers Examples.risk_query))) /\
  opportunities (aggregate (analyze_stock Examples.only_risk_answers Examples.risk_query))
  = _extract_opportunities
      (Spec.without fundamental
         (agent_results (analyze_stock Examples.only_risk_answers Examples.risk_query))) /\
  scores (_create_agent_error fundamental (str_of_exn (Exception "connection refused")))
  = None /\
  key_metrics (_create_agent_error fundamental (str_of_exn (Exception "connection refused")))
  = None /\
  (In fundamental
      (active_agents (analyze_stock Examples.only_risk_answers Examples.risk_query)) ->
   dict_get (agent_results (analyze_stock Examples.only_risk_answers Examples.risk_query))
     fundamental
   = Some (_create_agent_error fundamental (str_of_exn (Exception "connection refused"))) /\
   dict_get (agent_scores
               (aggregate (analyze_stock Examples.only_risk_answers Examples.risk_query)))
     fundamental = Some 0.5 /\
   In 0.1 (confidences
             (agent_results (analyze_stock Examples.only_risk_answers Examples.risk_query))
             (active_agents (analyze_stock Examples.only_risk_answers Examples.risk_query)))).
Proof.
  apply (raising_agent_adds_no_entry Examples.only_risk_answers Examples.risk_query
           fundamental (Exception "connection refused")).
  reflexivity.
Defined.

(** ** The agents that enter the aggregation of an [analyze_stock] call *)

Lemma dict_set_fresh (d : dict agent_name AgentResult) (k : agent_name)
    (v : AgentResult) :
  ~ In k (keys d) -> dict_set d k v = (d ++ [(k, v)])%list.
Proof.
  induction d as [|[k' v'] d IH]; simpl; [reflexivity|].
  intros N. destruct (key_eqb k' k) eqn:E.
  - apply agent_name_eqb_eq in E. subst k'. contradict N. now left.
  - rewrite IH; [reflexivity|]. intros I. apply N. now right.
Qed.

Lemma run_agents_from (agents : agent_name -> result AgentResult)
    (l : list agent_name) (d : dict agent_name AgentResult) :
  NoDup l -> (forall a, In a l -> ~ In a (keys d)) ->
  fold_left (fun rs b => dict_set rs b (outcome agents b)) l d
  = (d ++ map (fun a => (a, outcome agents a)) l)%list.
Proof.
  revert d. induction l as [|a l IH]; intros d N F; simpl.
  - now rewrite app_nil_r.
  - inversion N as [|? ? Na Nl]; subst.
    rewrite dict_set_fresh by (apply F; now left).
    rewrite IH; [now rewrite <- app_assoc|exact Nl|].
    intros b I. unfold keys. rewrite map_app, in_app_iff. simpl.
    intros [K|[K|[]]].
    + apply (F b); [now right|exact K].
    + subst b. contradiction.
Qed.

Lemma run_agents_map (agents : agent_name -> result AgentResult)
    (l : list agent_name) :
  NoDup l -> run_agents agents l = map (fun a => (a, outcome agents a)) l.
Proof.
  intros N. unfold run_agents. rewrite run_agents_from; auto.
Qed.

Lemma determine_NoDup (q : string) : NoDup (_determine_active_agents q).
Proof.
  unfold _determine_active_agents, all_agents.
  repeat match goal with
         | |- context [any_in ?ws ?x] => destruct (any_in ws x)
         end;
    repeat constructor; simpl; intuition discriminate.
Qed.

Lemma outcome_aggregable (agents : agent_name -> result AgentResult) (a : agent_name) :
  (forall r, agents a = Ok r -> Spec.aggregable r) ->
  Spec.aggregable (outcome agents a).
Proof.
  intros H. unfold outcome. destruct (agents a) as [r|e]; [now apply H|].
  exists 0.5, HOLD, 0.1. simpl. repeat split; auto.
Qed.

(** In an [analyze_stock] call every active agent has a result with an
    overall score, a signal and a confidence: the agents that contribute to
    the weighted score, those whose signals are counted and those whose
    confidences are averaged are the same, namely all active agents. *)
Lemma every_active_agent_enters
    (agents : agent_name -> result AgentResult) (query : string) :
  (forall a r, agents a = Ok r -> Spec.aggregable r) ->
  Spec.contributing (agent_results (analyze_stock agents query))
    (active_agents (analyze_stock agents query))
  = active_agents (analyze_stock agents query) /\
  List.length (agent_signals (agent_results (analyze_stock agents query)))
  = List.length (active_agents (analyze_stock agents query)) /\
  List.length (confidences (agent_results (analyze_stock agents query))
                 (active_agents (analyze_stock agents query)))
  = List.length (active_agents (analyze_stock agents query)).
Proof.
  intros H. unfold analyze_stock. cbn [agent_results active_agents].
  set (l := _determine_active_agents query).
  assert (G : forall a, In a l ->
                dict_get (run_agents agents l) a = Some (outcome agents a)).
  { intros a I. unfold run_agents. now rewrite run_agents_get, existsb_agent. }
  assert (A : forall a, Spec.aggregable (outcome agents a))
    by (intros a; apply outcome_aggregable, H).
  split; [|split].
  - unfold Spec.contributing. apply forallb_filter_id. apply forallb_forall.
    intros a I. unfold Spec.contribution. rewrite (G a I).
    destruct (A a) as [s [sg [c [O _]]]]. now rewrite O.
  - rewrite (run_agents_map agents l (determine_NoDup query)).
    unfold agent_signals, values. rewrite map_map. simpl.
    clear G. induction l as [|a l IH]; simpl; [reflexivity|].
    destruct (A a) as [s [sg [c [_ [S _]]]]]. rewrite S. simpl. now rewrite IH.
  - unfold confidences.
    assert (K : forall m, (forall a, In a m -> In a l) ->
       List.length (flat_map (fun a => match dict_get (run_agents agents l) a with
                                       | Some r => match confidence r with
                                                   | Some c => [c]
                                                   | None => []
                                                   end
                                       | None => []
                                       end) m) = List.length m).
    { induction m as [|a m IH]; intros I; simpl; [reflexivity|].
      rewrite (G a) by (apply I; now left).
      destruct (A a) as [s [sg [c [_ [_ [_ C]]]]]]. rewrite C. simpl.
      rewrite IH; [reflexivity|]. intros b Ib. apply I. now right. }
    apply K. auto.
Qed.

Lemma filter_length_le {A} (P N : A -> bool) (l : list A) :
  (forall a, In a l -> P a = true -> N a = true) ->
  (List.length (filter P l) <= List.length (filter N l))%nat.
Proof.
  induction l as [|a l IH]; intros S; simpl; [lia|].
  assert (IH' : (List.length (filter P l) <= List.length (filter N l))%nat)
    by (apply IH; intros b I; apply S; now right).
  destruct (P a) eqn:Pa.
  - rewrite (S a (or_introl eq_refl) Pa). simpl. lia.
  - destruct (N a); simpl; lia.
Qed.

(** When a sub-collection is as large as the collection, it is all of it. *)
Lemma filter_exhausts {A} (P N : A -> bool) (l : list A) :
  (forall a, In a l -> P a = true -> N a = true) ->
  (List.length (filter N l) <= List.length (filter P l))%nat ->
  forall a, In a l -> N a = true -> P a = true.
Proof.
  induction l as [|b l IH]; intros S L a I Na; [contradiction|].
  assert (S' : forall a, In a l -> P a = true -> N a = true)
    by (intros c Ic; apply S; now right).
  pose proof (filter_length_le P N l S') as M.
  simpl in L. destruct (P b) eqn:Pb.
  - rewrite (S b (or_introl eq_refl) Pb) in L. simpl in L.
    destruct I as [->|I]; [exact Pb|].
    apply IH; auto. lia.
  - destruct (N b) eqn:Nb; simpl in L; [lia|].
    destruct I as [->|I]; [congruence|].
    apply IH; auto.
Qed.

Lemma count_signals_map (p : signal -> bool) (f : agent_name -> AgentResult)
    (l : list agent_name) :
  count p (agent_signals (map (fun a => (a, f a)) l))
  = List.length (filter (fun a => match recommendation_signal (f a) with
                                  | Some s => p s
                                  | None => false
                                  end) l).
Proof.
  unfold count, agent_signals, values. rewrite map_map. simpl.
  induction l as [|a l IH]; simpl; [reflexivity|].
  destruct (recommendation_signal (f a)) as [s|]; simpl; [|exact IH].
  destruct (p s); simpl; now rewrite IH.
Qed.

(** A weighted mean of scores that are all at most (at least) [c] is at
    most (at least) [c]. *)
Lemma weighted_mean_bounds (rs : dict agent_name AgentResult)
    (l : list agent_name) (c : Q) :
  l <> [] ->
  ((forall a, In a l -> get_or (Spec.contribution rs a) 0 <= c) ->
   Spec.weighted_mean rs l <= c) /\
  ((forall a, In a l -> c <= get_or (Spec.contribution rs a) 0) ->
   c <= Spec.weighted_mean rs l).
Proof.
  intros N. pose proof (total_weights_pos l N) as P.
  assert (E : Spec.weighted_mean rs l
              = Spec.total (fun a => get_or (Spec.contribution rs a) 0 * weights a) l
                / Spec.total weights l)
    by (destruct l; [contradiction|reflexivity]).
  rewrite E. clear E N. split; intros H.
  - apply Qle_shift_div_r; [exact P|]. clear P.
    induction l as [|a l IH]; simpl; [lra|].
    assert (I : Spec.total (fun a => get_or (Spec.contribution rs a) 0 * weights a) l
                <= c * Spec.total weights l)
      by (apply IH; intros b Ib; apply H; now right).
    pose proof (H a (or_introl eq_refl)) as Ha. pose proof (weights_pos a) as W.
    nra.
  - apply Qle_shift_div_l; [exact P|]. clear P.
    induction l as [|a l IH]; simpl; [lra|].
    assert (I : c * Spec.total weights l
                <= Spec.total (fun a => get_or (Spec.contribution rs a) 0 * weights a) l)
      by (apply IH; intros b Ib; apply H; now right).
    pose proof (H a (or_introl eq_refl)) as Ha. pose proof (weights_pos a) as W.
    nra.
Qed.

(** Moderation needs three answers.  In an [analyze_stock] call, when fewer
    than three active agents answered without error, the final signal is the
    base signal of the weighted score: error results count among the signals
    but are HOLD at 0.5, so two dissenting answers cannot pull the weighted
    score to the other side. *)
Lemma moderation_needs_three_answers
    (agents : agent_name -> result AgentResult) (query : string) :
  (forall a r, agents a = Ok r -> Spec.aggregable r) ->
  (List.length (Spec.answered (agent_results (analyze_stock agents query))
                  (active_agents (analyze_stock agents query))) < 3)%nat ->
  rec_signal (recommendation (aggregate (analyze_stock agents query)))
  = base_signal (final_score (agent_results (analyze_stock agents query))
                   (active_agents (analyze_stock agents query))).
Proof.
  intros H. unfold analyze_stock. cbn [agent_results active_agents aggregate].
  set (l := _determine_active_agents query).
  set (f := outcome agents).
  assert (G : forall a, In a l -> dict_get (run_agents agents l) a = Some (f a)).
  { intros a I. unfold run_agents. now rewrite run_agents_get, existsb_agent. }
  assert (A : forall a, Spec.aggregable (f a))
    by (intros a; apply outcome_aggregable, H).
  assert (C : forall a, In a l ->
                Spec.contribution (run_agents agents l) a = overall_score (f a)).
  { intros a I. unfold Spec.contribution. now rewrite (G a I). }
  set (ans := fun a => match error (f a) with Some _ => false | None => true end).
  assert (An : Spec.answered (run_agents agents l) l = filter ans l).
  { unfold Spec.answered. apply filter_ext_in. intros a I. now rewrite (G a I). }
  rewrite An. intros L3.
  unfold _aggregate_agent_results.
  destruct (weighted_totals (run_agents agents l) l) as [[tws tw] sc].
  cbn [recommendation rec_signal].
  pose proof (final_score_weighted (run_agents agents l) l) as F.
  pose proof (get_recommendation_signal_band
                (final_score (run_agents agents l) l)) as B.
  change (BaseAgent.get_recommendation_signal (final_score (run_agents agents l) l))
    with (base_signal (final_score (run_agents agents l) l)) in B.
  assert (Wm : Spec.contributing (run_agents agents l) l = [] ->
               Spec.weighted_score (run_agents agents l) l = 0.5).
  { unfold Spec.weighted_score. now intros ->. }
  assert (Cs : forall p, count p (agent_signals (run_agents agents l))
                         = List.length
                             (filter (fun a => match recommendation_signal (f a) with
                                               | Some s => p s
                                               | None => false
                                               end) l)).
  { intros p. rewrite (run_agents_map agents l (determine_NoDup query)).
    apply count_signals_map. }
  unfold _get_final_recommendation_signal. rewrite !Cs.
  set (neg := fun a => match recommendation_signal (f a) with
                       | Some s => is_negative s | None => false end).
  set (pos := fun a => match recommendation_signal (f a) with
                       | Some s => is_positive s | None => false end).
  assert (Nneg : forall a, neg a = true ->
                   ans a = true /\ exists s, overall_score (f a) = Some s /\ s < 0.45).
  { intros a. unfold neg, ans. destruct (A a) as [s [sg [c [O [S [[[E1 E2]|[E1 E2]] _]]]]]];
      rewrite S; subst sg; [|discriminate].
    intros Ng. rewrite E2. split; [reflexivity|]. exists s. split; [exact O|].
    pose proof (get_recommendation_signal_band s) as Bs.
    destruct (BaseAgent.get_recommendation_signal s); simpl in *; try discriminate; lra. }
  assert (Npos : forall a, pos a = true ->
                   ans a = true /\ exists s, overall_score (f a) = Some s /\ 0.65 <= s).
  { intros a. unfold pos, ans. destruct (A a) as [s [sg [c [O [S [[[E1 E2]|[E1 E2]] _]]]]]];
      rewrite S; subst sg; [|discriminate].
    intros Ps. rewrite E2. split; [reflexivity|]. exists s. split; [exact O|].
    pose proof (get_recommendation_signal_band s) as Bs.
    destruct (BaseAgent.get_recommendation_signal s); simpl in *; try discriminate; lra. }
  assert (Err : forall a, ans a = false -> overall_score (f a) = Some 0.5).
  { intros a. unfold ans. destruct (A a) as [s [sg [c [O [S [[[E1 E2]|[E1 E2]] _]]]]]].
    - now rewrite E2.
    - now subst s. }
  destruct (Nat.leb 3 _); [|reflexivity].
  destruct (Nat.leb 2 (List.length (filter neg l))) eqn:N2.
  - (* two dissenting SELL answers: every answer is one of them *)
    apply Nat.leb_le in N2.
    assert (All : forall a, In a l -> ans a = true -> neg a = true).
    { apply filter_exhausts; [intros a _ Na; now apply Nneg|lia]. }
    assert (Le : forall a, In a (Spec.contributing (run_agents agents l) l) ->
                   get_or (Spec.contribution (run_agents agents l) a) 0 <= 0.5).
    { intros a Ia. apply filter_In in Ia. destruct Ia as [Ia _].
      rewrite (C a Ia). destruct (ans a) eqn:Aa.
      - destruct (Nneg a (All a Ia Aa)) as [_ [s [O Ls]]]. rewrite O. simpl. lra.
      - rewrite (Err a Aa). simpl. lra. }
    assert (U : final_score (run_agents agents l) l <= 0.5).
    { rewrite F. unfold Spec.weighted_score.
      destruct (Spec.contributing (run_agents agents l) l) as [|a0 l0] eqn:Cn.
      - simpl. lra.
      - now apply (weighted_mean_bounds _ (a0 :: l0) 0.5). }
    replace (is_positive (base_signal (final_score (run_agents agents l) l)))
      with false.
    + rewrite andb_false_r. destruct (_ && _) eqn:M; [|reflexivity].
      apply andb_true_iff in M. destruct M as [P2 Ng]. apply Nat.leb_le in P2.
      assert (Sub : forall a, In a l -> neg a = true -> pos a = true ->  False).
      { intros a _. unfold neg, pos. destruct (recommendation_signal (f a)) as [s|];
          [destruct s|]; discriminate. }
      assert (All' : forall a, In a l -> ans a = true -> pos a = true).
      { apply filter_exhausts; [intros a _ Pa; now apply Npos|lia]. }
      exfalso.
      destruct (filter neg l) as [|a0 m] eqn:Fn; [simpl in N2; lia|].
      assert (Ia : In a0 (filter neg l)) by (rewrite Fn; now left).
      apply filter_In in Ia. destruct Ia as [Ia Na].
      apply (Sub a0 Ia Na). apply All'; [exact Ia|]. now apply Nneg.
    + destruct (base_signal (final_score (run_agents agents l) l));
        simpl in *; try reflexivity; lra.
  - cbn [andb]. destruct (_ && _) eqn:M; [|reflexivity].
    apply andb_true_iff in M. destruct M as [P2 Ng]. apply Nat.leb_le in P2.
    assert (All : forall a, In a l -> ans a = true -> pos a = true).
    { apply filter_exhausts; [intros a _ Pa; now apply Npos|lia]. }
    assert (Ge : forall a, In a (Spec.contributing (run_agents agents l) l) ->
                   0.5 <= get_or (Spec.contribution (run_agents agents l) a) 0).
    { intros a Ia. apply filter_In in Ia. destruct Ia as [Ia _].
      rewrite (C a Ia). destruct (ans a) eqn:Aa.
      - destruct (Npos a (All a Ia Aa)) as [_ [s [O Ls]]]. rewrite O. simpl. lra.
      - rewrite (Err a Aa). simpl. lra. }
    assert (U : 0.5 <= final_score (run_agents agents l) l).
    { rewrite F. unfold Spec.weighted_score.
      destruct (Spec.contributing (run_agents agents l) l) as [|a0 l0] eqn:Cn.
      - simpl. lra.
      - now apply (weighted_mean_bounds _ (a0 :: l0) 0.5). }
    exfalso.
    destruct (base_signal (final_score (run_agents agents l) l));
      simpl in *; try discriminate; lra.
Qed.

(** When every active agent raised, the aggregation averages the
    synthesized error results: score 0.5, signal WEAK_HOLD, and the
    confidence 0.1 raised to 0.2 by the agreement of the HOLD signals. *)
Lemma all_agents_failed (e : exn) (query : string) :
  rec_score (recommendation (aggregate (analyze_stock (fun _ => Raise e) query)))
  == 0.5 /\
  rec_signal (recommendation (aggregate (analyze_stock (fun _ => Raise e) query)))
  = WEAK_HOLD /\
  rec_confidence (recommendation (aggregate (analyze_stock (fun _ => Raise e) query)))
  == 0.2.
Proof.
  unfold analyze_stock, _determine_active_agents, all_agents.
  repeat match goal with
         | |- context [any_in ?ws ?x] => destruct (any_in ws x)
         end;
    repeat split.
Qed.

(** C3.  The signals counted are those of the agents whose result entered
    the aggregation.  With fewer than three of them the base signal is
    returned unchanged; with at least three, two or more SELL or STRONG_SELL
    signals turn a BUY or STRONG_BUY base into HOLD, two or more BUY or
    STRONG_BUY signals turn a SELL or STRONG_SELL base into WEAK_HOLD, and in
    every other case the base signal is kept; in particular two SELL signals
    alone leave a BUY-range score at BUY.  In an [analyze_stock] call the
    agents whose signals are counted are the contributing agents, and when
    fewer than three of them answered without error the final signal is the
    base signal as well. *)
Theorem consensus_moderation :
  (forall score rs,
     ((List.length (agent_signals rs) < 3)%nat ->
      _get_final_recommendation_signal score rs = base_signal score) /\
     ((3 <= List.length (agent_signals rs))%nat ->
      (2 <= count is_negative (agent_signals rs))%nat ->
      base_signal score = BUY \/ base_signal score = STRONG_BUY ->
      _get_final_recommendation_signal score rs = HOLD) /\
     ((3 <= List.length (agent_signals rs))%nat ->
      (2 <= count is_positive (agent_signals rs))%nat ->
      base_signal score = SELL \/ base_signal score = STRONG_SELL ->
      _get_final_recommendation_signal score rs = WEAK_HOLD) /\
     (((count is_negative (agent_signals rs) < 2)%nat \/
       is_positive (base_signal score) = false) ->
      ((count is_positive (agent_signals rs) < 2)%nat \/
       is_negative (base_signal score) = false) ->
      _get_final_recommendation_signal score rs = base_signal score)) /\
  (forall score a b r1 r2,
     recommendation_signal r1 = Some SELL ->
     recommendation_signal r2 = Some SELL ->
     0.65 <= score -> score < 0.75 ->
     _get_final_recommendation_signal score [(a, r1); (b, r2)] = BUY) /\
  (forall agents query,
     (forall a r, agents a = Ok r -> Spec.aggregable r) ->
     List.length (agent_signals (agent_results (analyze_stock agents query)))
     = List.length (Spec.contributing (agent_results (analyze_stock agents query))
                      (active_agents (analyze_stock agents query))) /\
     ((List.length (Spec.answered (agent_results (analyze_stock agents query))
                      (active_agents (analyze_stock agents query))) < 3)%nat ->
      rec_signal (recommendation (aggregate (analyze_stock agents query)))
      = base_signal (final_score (agent_results (analyze_stock agents query))
                       (active_agents (analyze_stock agents query))))).
Proof.
  split; [|split].
  - intros score rs.
    destruct (moderation_cases score rs) as [H1 [H2 [H3 [H4 _]]]]. auto.
  - intros score a b r1 r2.
    destruct (moderation_cases score []) as [_ [_ [_ [_ H5]]]]. apply H5.
  - intros agents query H. split.
    + destruct (every_active_agent_enters agents query H) as [E1 [E2 _]].
      now rewrite E1, E2.
    + now apply moderation_needs_three_answers.
Qed.

Lemma consensus_moderation_witness :
  _get_final_recommendation_signal 0.7
    [(fundamental, Examples.scored "Fundamental_Analysis_Agent" 0.4 0.9);
     (technical, Examples.scored "Technical_Analysis_Agent" 0.4 0.9)] = BUY /\
  _get_final_recommendation_signal 0.7
    [(fundamental, Examples.scored "Fundamental_Analysis_Agent" 0.4 0.9);
     (technical, Examples.scored "Technical_Analysis_Agent" 0.4 0.9);
     (risk_assessment, Examples.scored "Risk_Assessment_Agent" 1 0.9)] = HOLD.
Proof.
  split.
  - apply (proj1 (proj2 consensus_moderation));
      [reflexivity|reflexivity|apply Qle_bool_iff|apply Qlt_bool_iff]; reflexivity.
  - apply (proj1 (proj2 (proj1 consensus_moderation 0.7 _)));
      [apply Nat.leb_le; reflexivity|apply Nat.leb_le; reflexivity|now left].
Defined.

Lemma score_to_signal_banded_monotone_witness :
  (signal_rank (BaseAgent.get_recommendation_signal 0.5) <=
   signal_rank (BaseAgent.get_recommendation_signal 0.7))%nat /\
  BaseAgent.get_recommendation_signal 0.5 = WEAK_HOLD /\
  BaseAgent.get_recommendation_signal 0.7 = BUY.
Proof.
  split; [|split].
  - apply (proj1 (proj2 (proj2 (proj2 score_to_signal_banded_monotone))) 0.5 0.7).
    apply Qlt_bool_iff. reflexivity.
  - apply (proj1 (proj2 (proj2 score_to_signal_banded_monotone))).
    split; [apply Qle_bool_iff|apply Qlt_bool_iff]; reflexivity.
  - apply (proj1 (proj2 (proj2 score_to_signal_banded_monotone))).
    split; [apply Qle_bool_iff|apply Qlt_bool_iff]; reflexivity.
Defined.

Lemma agent_selection_witness :
  _determine_active_agents "WHAT'S THE TECHNICAL SETUP" = [technical; risk_assessment] /\
  _determine_active_agents "what's, the ... technical set-up?!"
  = [technical; risk_assessment] /\
  _determine_active_agents "hello there" = all_agents.
Proof.
  split; [|split].
  - apply (proj1 (proj2 (proj2 (proj2 agent_selection)))); vm_compute; reflexivity.
  - apply (proj1 (proj2 (proj2 (proj2 agent_selection)))); vm_compute; reflexivity.
  - apply (proj2 (proj2 (proj2 (proj2 (proj2 agent_selection))))).
    intros c I. simpl in I.
    repeat (destruct I as [<-|I]; [vm_compute; reflexivity|]). contradiction.
Defined.

Lemma final_score_is_weighted_mean_witness :
  final_score
    (run_agents Examples.only_risk_answers [risk_assessment; fundamental; technical])
    [risk_assessment; fundamental; technical]
  == Spec.weighted_score
       (run_agents Examples.only_risk_answers [risk_assessment; fundamental; technical])
       [risk_assessment; fundamental; technical] /\
  In fundamental
    (Spec.contributing
       (run_agents Examples.only_risk_answers [risk_assessment; fundamental; technical])
       [risk_assessment; fundamental; technical]).
Proof.
  split.
  - apply (proj1 (final_score_is_weighted_mean _ _)).
  - apply (proj2 (final_score_is_weighted_mean _ _) fundamental
             (str_of_exn (Exception "connection refused")));
      [simpl; auto|reflexivity].
Defined.

(** * Further properties of the engine *)

(** ** The weighted score *)

Lemma final_score_between
    (rs : dict agent_name AgentResult) (active : list agent_name) (lo hi : Q) :
  Spec.contributing rs active <> [] ->
  (forall a s, In a active -> Spec.contribution rs a = Some s -> lo <= s /\ s <= hi) ->
  lo <= final_score rs active /\ final_score rs active <= hi.
Proof.
  intros N H. rewrite final_score_weighted. unfold Spec.weighted_score.
  destruct (weighted_mean_bounds rs (Spec.contributing rs active) lo N) as [_ Lo].
  destruct (weighted_mean_bounds rs (Spec.contributing rs active) hi N) as [Hi _].
  assert (B : forall a, In a (Spec.contributing rs active) ->
                lo <= get_or (Spec.contribution rs a) 0 /\
                get_or (Spec.contribution rs a) 0 <= hi).
  { intros a I. apply filter_In in I. destruct I as [I C].
    destruct (Spec.contribution rs a) as [s|] eqn:E; [|discriminate].
    simpl. now apply (H a s). }
  split; [apply Lo|apply Hi]; intros a I; now apply B.
Qed.


(** X1.  When at least one active agent contributes and every contributing
    overall score lies between [lo] and [hi], so does the final weighted
    score (lines 117-131): the aggregate never leaves the range of the
    scores it averages. *)
Theorem final_score_within_scores
    (rs : dict agent_name AgentResult) (active : list agent_name) (lo hi : Q) :
  Spec.contributing rs active <> [] ->
  (forall a s, In a active -> Spec.contribution rs a = Some s -> lo <= s /\ s <= hi) ->
  lo <= final_score rs active /\ final_score rs active <= hi.
Proof. exact (final_score_between rs active lo hi). Qed.

Lemma final_score_within_scores_witness :
  0.5 <= final_score
           (run_agents Examples.only_risk_answers [risk_assessment; fundamental; technical])
           [risk_assessment; fundamental; technical] /\
  final_score
    (run_agents Examples.only_risk_answers [risk_assessment; fundamental; technical])
    [risk_assessment; fundamental; technical] <= 0.8.
Proof.
  apply (final_score_within_scores
           (run_agents Examples.only_risk_answers [risk_assessment; fundamental; technical])
           [risk_assessment; fundamental; technical] 0.5 0.8).
  - vm_compute. discriminate.
  - intros a s [<-|[<-|[<-|[]]]] E; vm_compute in E; injection E as <-;
      split; apply Qle_bool_iff; reflexivity.
Defined.

(** X2.  When exactly one active agent contributes, the final score is that
    agent's own overall score: normalising by the weight used undoes the
    weighting (lines 127-131). *)
Theorem single_agent_score_unchanged
    (rs : dict agent_name AgentResult) (active : list agent_name)
    (a : agent_name) (s : Q) :
  Spec.contributing rs active = [a] ->
  Spec.contribution rs a = Some s ->
  final_score rs active == s.
Proof.
  intros C E. rewrite final_score_weighted. unfold Spec.weighted_score.
  rewrite C. unfold Spec.weighted_mean, Spec.total. simpl. rewrite E. simpl.
  pose proof (weights_pos a) as W. field. lra.
Qed.

Lemma single_agent_score_unchanged_witness :
  final_score [(technical, Examples.scored "Technical_Analysis_Agent" 0.62 0.9)]
    all_agents == 0.62.
Proof.
  apply (single_agent_score_unchanged
           [(technical, Examples.scored "Technical_Analysis_Agent" 0.62 0.9)]
           all_agents technical 0.62); reflexivity.
Defined.

Lemma agent_scores_keep (rs : dict agent_name AgentResult) (a : agent_name)
    (l : list agent_name) (st : Q * Q * dict agent_name Q) :
  (~ In a l \/ Spec.contribution rs a = None) ->
  dict_get (snd (fold_left (accumulate rs) l st)) a = dict_get (snd st) a.
Proof.
  revert st. induction l as [|b l IH]; intros [[tws tw] sc] H; cbn [fold_left];
    [reflexivity|].
  rewrite IH by (destruct H as [H|H]; [left; intros I; apply H; now right|now right]).
  destruct (Spec.contribution rs b) as [s|] eqn:Cb.
  - rewrite (accumulate_some _ _ _ _ _ _ Cb). simpl.
    apply (dict_get_set_other agent_name_eqb_eq).
    intros ->. destruct H as [H|H]; [apply H; now left|congruence].
  - now rewrite accumulate_nothing.
Qed.

(** X3.  The per-agent score map of the aggregate holds, under each active
    agent's name, exactly the overall score that agent contributed, and
    nothing for an agent that is not active or brought no overall score
    (lines 119-126). *)
Theorem agent_scores_lookup
    (rs : dict agent_name AgentResult) (active : list agent_name) (a : agent_name) :
  (In a active ->
   dict_get (agent_scores (_aggregate_agent_results rs active)) a
   = Spec.contribution rs a) /\
  (~ In a active ->
   dict_get (agent_scores (_aggregate_agent_results rs active)) a = None).
Proof.
  unfold _aggregate_agent_results.
  destruct (weighted_totals rs active) as [[tws tw] sc] eqn:W.
  cbn [agent_scores]. change sc with (snd (tws, tw, sc)). rewrite <- W.
  unfold weighted_totals. split; intros I.
  - destruct (Spec.contribution rs a) as [s|] eqn:C.
    + now apply agent_scores_get.
    + rewrite agent_scores_keep; [reflexivity|now right].
  - rewrite agent_scores_keep; [reflexivity|now left].
Qed.

(** ** Confidence *)

Lemma mean_within (lo hi : Q) (l : list Q) :
  l <> [] -> Ranges.all_within lo hi l ->
  lo <= Py.sum l / Py.len l /\ Py.sum l / Py.len l <= hi.
Proof.
  intros N F. pose proof (len_pos l N) as P.
  assert (B : lo * Py.len l <= fold_right Qplus 0 l /\
              fold_right Qplus 0 l <= hi * Py.len l).
  { clear N P. unfold Py.len. induction F as [|c l [C0 C1] _ [IH0 IH1]].
    - simpl. change (inject_Z 0) with 0. split; lra.
    - cbn [fold_right List.length]. rewrite Nat2Z.inj_succ.
      unfold Z.succ. rewrite inject_Z_plus. change (inject_Z 1) with 1.
      split; lra. }
  rewrite sum_fold_right. split.
  - apply Qle_shift_div_l; lra.
  - apply Qle_shift_div_r; lra.
Qed.

(** X4.  When every averaged confidence lies in the unit interval, the
    overall confidence does too, whatever the signals are and also when
    there is nothing to average: the agreement bonus and the disagreement
    penalty are clamped (lines 190-225). *)
Theorem overall_confidence_in_unit_interval
    (rs : dict agent_name AgentResult) (active : list agent_name) :
  Ranges.all_within 0 1 (confidences rs active) ->
  0 <= _calculate_overall_confidence rs active /\
  _calculate_overall_confidence rs active <= 1.
Proof.
  intros F. unfold _calculate_overall_confidence.
  destruct (confidences rs active) as [|c cs] eqn:C; [split; lra|].
  destruct (mean_within 0 1 (c :: cs)) as [A0 A1]; [discriminate|exact F|].
  destruct (Nat.leb 2 _); [|split; assumption].
  destruct (Qle_bool 0.8 _).
  - unfold Py.min. branch; qprop; split; lra.
  - destruct (Qle_bool _ 0.4); [|split; assumption].
    unfold Py.max. branch; qprop; split; lra.
Qed.

Lemma overall_confidence_in_unit_interval_witness :
  0 <= _calculate_overall_confidence
         (run_agents Examples.only_risk_answers [risk_assessment; fundamental; technical])
         [risk_assessment; fundamental; technical] /\
  _calculate_overall_confidence
    (run_agents Examples.only_risk_answers [risk_assessment; fundamental; technical])
    [risk_assessment; fundamental; technical] <= 1.
Proof.
  apply (overall_confidence_in_unit_interval
           (run_agents Examples.only_risk_answers [risk_assessment; fundamental; technical])
           [risk_assessment; fundamental; technical]).
  repeat constructor; apply Qle_bool_iff; reflexivity.
Defined.

Ltac closed_bounds := split; apply Qle_bool_iff; vm_compute; reflexivity.

Lemma fundamental_confidence_range (f : Fundamentals) :
  0.5 <= FundamentalAnalysisAgent._calculate_confidence f /\
  FundamentalAnalysisAgent._calculate_confidence f <= 0.9.
Proof.
  unfold FundamentalAnalysisAgent._calculate_confidence.
  destruct (pe_ratio f), (roe f), (debt_to_equity f), (profit_margin f);
    closed_bounds.
Qed.

Lemma technical_confidence_range (i : Indicators) :
  0.6 <= TechnicalAnalysisAgent._calculate_confidence i /\
  TechnicalAnalysisAgent._calculate_confidence i <= 0.9.
Proof.
  unfold TechnicalAnalysisAgent._calculate_confidence.
  destruct (rsi14 i), (sma20 i), (sma50 i), (macd i), (bb_upper i);
    closed_bounds.
Qed.

Lemma risk_confidence_range (f : Fundamentals) (hist : Hist) :
  0.5 <= RiskAssessmentAgent._calculate_confidence f hist /\
  RiskAssessmentAgent._calculate_confidence f hist <= 0.9.
Proof.
  unfold RiskAssessmentAgent._calculate_confidence.
  destruct (pe_ratio f), (debt_to_equity f), (market_cap f), (year_of_history hist);
    closed_bounds.
Qed.

Lemma macro_confidence_value :
  MacroContextAgent._calculate_confidence MacroContextAgent._get_macro_indicators
  == 0.8.
Proof. reflexivity. Qed.

Lemma peer_confidence_range (peers : list Fundamentals) (c : Q) :
  PeerComparisonAgent._calculate_confidence peers = Ok c -> 0.2 <= c /\ c <= 0.9.
Proof.
  unfold PeerComparisonAgent._calculate_confidence.
  destruct peers as [|p0 ps]; [intros H; apply ok_inj in H; subst c; closed_bounds|].
  remember (p0 :: ps) as peers eqn:E.
  assert (N : peers <> []) by (subst peers; discriminate). clear E.
  intros H. apply bind_ok in H. destruct H as [dq [D H]].
  apply ok_inj in H. subst c. apply div_inv in D. destruct D as [_ ->].
  pose proof (len_pos peers N) as P.
  set (complete := filter (fun p => Py.truthy (pe_ratio p) && Py.truthy (roe p)) peers).
  assert (C0 : 0 <= Py.len complete) by apply len_nonneg.
  assert (C1 : 0 <= Py.len complete / Py.len peers)
    by (apply Qle_shift_div_l; lra).
  assert (F0 : 0 <= Py.min 1.0 (Py.len peers / 3)).
  { unfold Py.min. branch; qprop; [|lra].
    apply Qle_shift_div_l; lra. }
  set (x := 0.4 + Py.min 1.0 (Py.len peers / 3) * 0.3
            + Py.len complete / Py.len peers * 0.2).
  assert (X : 0.4 <= x) by (unfold x; lra).
  split; [|apply min_bounds].
  destruct (min_cases 0.9 x) as [E|E]; rewrite E; lra.
Qed.

Lemma values_unit (sc : dict string Q) :
  Spec.in_unit_interval sc -> Forall (fun v => 0 <= v /\ v <= 1) (values sc).
Proof.
  unfold Spec.in_unit_interval, values. intros F.
  induction F as [|[k v] d H _ IH]; simpl; constructor; auto.
Qed.

Lemma created_is_bounded (name : string) (w : Q) (clk : string)
    (sub_scores : dict string Q) (text : string)
    (metrics : dict string (option Q)) (conf : Q) (r : AgentResult) :
  Spec.in_unit_interval sub_scores -> 0.1 <= conf /\ conf <= 0.9 ->
  BaseAgent.create_response name w clk sub_scores text metrics conf = Ok r ->
  Ranges.bounded r.
Proof.
  intros U [C0 C1] H. unfold BaseAgent.create_response in H.
  apply bind_ok in H. destruct H as [s [D H]].
  simpl in H. apply ok_inj in H. subst r.
  assert (L : Py.len sub_scores = Py.len (values sub_scores))
    by (unfold Py.len, values; now rewrite length_map).
  rewrite L in D. apply mean_unit in D; [|now apply values_unit].
  exists s, conf. simpl. tauto.
Qed.

Lemma sentinel_is_bounded (r : AgentResult) : Spec.is_sentinel r -> Ranges.bounded r.
Proof.
  intros [_ [O [_ [C _]]]]. exists 0.5, 0.1.
  repeat split; auto; apply Qle_bool_iff; reflexivity.
Qed.

Lemma fundamental_analyze_bounded (w : World) (ticker : string) (r : AgentResult) :
  FundamentalAnalysisAgent.analyze w ticker = Ok r -> Ranges.bounded r.
Proof.
  unfold FundamentalAnalysisAgent.analyze, try_except.
  destruct (fetch_fundamentals w ticker) as [f|msg].
  - destruct (BaseAgent.create_response _ _ _ _ _ _ _) as [r'|e] eqn:C.
    + intros H. apply ok_inj in H. subst r'.
      eapply created_is_bounded; [apply fundamental_scores_unit| |exact C].
      pose proof (fundamental_confidence_range f). lra.
    + rewrite fundamental_error_response. discriminate.
  - rewrite !fundamental_error_response. discriminate.
Qed.

Lemma macro_analyze_bounded (w : World) (ticker : string) (r : AgentResult) :
  MacroContextAgent.analyze w ticker = Ok r -> Ranges.bounded r.
Proof.
  unfold MacroContextAgent.analyze, try_except.
  destruct (BaseAgent.create_response _ _ _ _ _ _ _) as [r'|e] eqn:C.
  - intros H. apply ok_inj in H. subst r'.
    eapply created_is_bounded; [apply macro_scores_unit| |exact C].
    pose proof macro_confidence_value. lra.
  - destruct (macro_error_response (clock w) (str_of_exn e)) as [r' [E [S _]]].
    rewrite E. intros H. apply ok_inj in H. subst r'.
    now apply sentinel_is_bounded.
Qed.

Lemma risk_analyze_bounded (w : World) (ticker : string) (r : AgentResult) :
  RiskAssessmentAgent.analyze w ticker = Ok r -> Ranges.bounded r.
Proof.
  unfold RiskAssessmentAgent.analyze, try_except.
  match goal with |- match ?body with _ => _ end = _ -> _ =>
    destruct body as [r'|e] eqn:B end.
  - intros H. apply ok_inj in H. subst r'.
    destruct (fetch_fundamentals w ticker) as [f|m1];
      [destruct (fetch_price_data w ticker) as [p|m2]|].
    + apply bind_ok in B. destruct B as [hist [_ B]].
      apply bind_ok in B. destruct B as [sc [S B]].
      eapply created_is_bounded; [eapply risk_scores_unit; exact S| |exact B].
      pose proof (risk_confidence_range f hist). lra.
    + destruct (risk_error_response (clock w)
                  "Unable to fetch required data for risk analysis")
        as [r' [E [S _]]].
      rewrite E in B. apply ok_inj in B. subst r'. now apply sentinel_is_bounded.
    + destruct (risk_error_response (clock w)
                  "Unable to fetch required data for risk analysis")
        as [r' [E [S _]]].
      rewrite E in B. apply ok_inj in B. subst r'. now apply sentinel_is_bounded.
  - destruct (risk_error_response (clock w) (str_of_exn e)) as [r' [E [S _]]].
    rewrite E. intros H. apply ok_inj in H. subst r'.
    now apply sentinel_is_bounded.
Qed.

Lemma technical_analyze_bounded (w : World) (ticker : string) (r : AgentResult) :
  TechnicalAnalysisAgent.analyze w ticker = Ok r -> Ranges.bounded r.
Proof.
  unfold TechnicalAnalysisAgent.analyze, try_except.
  match goal with |- match ?body with _ => _ end = _ -> _ =>
    destruct body as [r'|e] eqn:B end.
  - intros H. apply ok_inj in H. subst r'.
    apply bind_ok in B. destruct B as [hist [_ B]].
    destruct (_ || _) in B.
    + destruct (technical_error_response (clock w) "Insufficient historical data")
        as [r' [E [S _]]].
      rewrite E in B. apply ok_inj in B. subst r'. now apply sentinel_is_bounded.
    + destruct (calculate_indicators w hist) as [i|msg].
      * apply bind_ok in B. destruct B as [sc [S B]].
        eapply created_is_bounded; [eapply technical_scores_unit; exact S| |exact B].
        pose proof (technical_confidence_range i). lra.
      * destruct (technical_error_response (clock w) msg) as [r' [E [S _]]].
        rewrite E in B. apply ok_inj in B. subst r'. now apply sentinel_is_bounded.
  - destruct (technical_error_response (clock w) (str_of_exn e)) as [r' [E [S _]]].
    rewrite E. intros H. apply ok_inj in H. subst r'.
    now apply sentinel_is_bounded.
Qed.

Lemma peer_analyze_bounded (w : World) (ticker : string) (r : AgentResult) :
  PeerComparisonAgent.analyze w ticker = Ok r -> Ranges.bounded r.
Proof.
  unfold PeerComparisonAgent.analyze, try_except.
  match goal with |- match ?body with _ => _ end = _ -> _ =>
    destruct body as [r'|e] eqn:B end.
  - intros H. apply ok_inj in H. subst r'.
    destruct (fetch_fundamentals w ticker) as [target|msg].
    + destruct (PeerComparisonAgent._get_peers w ticker) as [|p0 ps].
      * unfold PeerComparisonAgent._create_limited_analysis in B.
        simpl in B. apply ok_inj in B. subst r.
        exists 0.5, 0.3. simpl.
        repeat split; auto; apply Qle_bool_iff; reflexivity.
      * apply bind_ok in B. destruct B as [sc [S B]].
        apply bind_ok in B. destruct B as [km [_ B]].
        apply bind_ok in B. destruct B as [conf [Cf B]].
        eapply created_is_bounded; [eapply peer_scores_unit; exact S| |exact B].
        apply peer_confidence_range in Cf. lra.
    + destruct (peer_error_response (clock w)
                  ("Cannot fetch target stock data: " ++ msg)) as [r' [E [S _]]].
      rewrite E in B. apply ok_inj in B. subst r'. now apply sentinel_is_bounded.
  - destruct (peer_error_response (clock w) (str_of_exn e)) as [r' [E [S _]]].
    rewrite E. intros H. apply ok_inj in H. subst r'.
    now apply sentinel_is_bounded.
Qed.

Lemma registered_agents_bounded
    (w : World) (ticker : string) (a : agent_name) (r : AgentResult) :
  registered_agents w ticker a = Ok r -> Ranges.bounded r.
Proof.
  destruct a; simpl; intros H.
  - now apply fundamental_analyze_bounded in H.
  - now apply technical_analyze_bounded in H.
  - now apply peer_analyze_bounded in H.
  - now apply macro_analyze_bounded in H.
  - now apply risk_analyze_bounded in H.
Qed.

(** X5.  Every result an agent's analyze returns, computed or sentinel, has
    an overall score in the unit interval and a confidence between 0.1 and
    0.9: the 0.95 and 0.85 caps of the confidence formulas are never
    reached. *)
Theorem agent_results_are_bounded
    (w : World) (ticker : string) (a : agent_name) (r : AgentResult) :
  registered_agents w ticker a = Ok r ->
  exists s c,
    overall_score r = Some s /\ 0 <= s /\ s <= 1 /\
    confidence r = Some c /\ 0.1 <= c /\ c <= 0.9.
Proof. intros H. exact (registered_agents_bounded w ticker a r H). Qed.

Lemma agent_results_are_bounded_witness :
  exists r,
    registered_agents Examples.unreachable "INFY.NS" macro_context = Ok r /\
    exists s c,
      overall_score r = Some s /\ 0 <= s /\ s <= 1 /\
      confidence r = Some c /\ 0.1 <= c /\ c <= 0.9.
Proof.
  eexists. split; [reflexivity|].
  apply (agent_results_are_bounded Examples.unreachable "INFY.NS" macro_context).
  reflexivity.
Defined.

(** ** Ranges of the recommendation *)

Lemma round_half_even_bounds (y : Q) (k m : Z) :
  inject_Z k <= y -> y <= inject_Z m ->
  (k <= Py.round_half_even y <= m)%Z.
Proof.
  intros K M. unfold Py.round_half_even.
  pose proof (Qfloor_le y) as F0. pose proof (Qlt_floor y) as F1.
  assert (Kf : (k <= Qfloor y)%Z).
  { rewrite <- (Qfloor_Z k). now apply Qfloor_resp_le. }
  assert (Fm : (Qfloor y <= m)%Z).
  { rewrite <- (Qfloor_Z m). now apply Qfloor_resp_le. }
  assert (Up : inject_Z (Qfloor y) < y -> (Qfloor y + 1 <= m)%Z).
  { intros L. assert (T : inject_Z (Qfloor y) < inject_Z m) by lra.
    rewrite <- Zlt_Qlt in T. lia. }
  destruct (Qlt_bool (y - inject_Z (Qfloor y)) 0.5) eqn:E1; [lia|].
  apply Qlt_bool_false in E1.
  assert (L : inject_Z (Qfloor y) < y) by lra.
  specialize (Up L).
  destruct (Qlt_bool 0.5 _); [lia|]. destruct (Z.even _); lia.
Qed.

(** Rounding to three decimals keeps a score between two bounds that are
    themselves multiples of 0.001. *)
Lemma round3_bounds (x lo hi : Q) (k m : Z) :
  lo == inject_Z k / 1000 -> hi == inject_Z m / 1000 ->
  lo <= x -> x <= hi ->
  lo <= Py.round3 x /\ Py.round3 x <= hi.
Proof.
  intros Elo Ehi K M. unfold Py.round3.
  assert (Ek : lo * 1000 == inject_Z k) by (rewrite Elo; field).
  assert (Em : hi * 1000 == inject_Z m) by (rewrite Ehi; field).
  destruct (round_half_even_bounds (x * 1000) k m) as [A B]; [lra|lra|].
  rewrite Zle_Qle in A, B. split.
  - apply Qle_shift_div_l; lra.
  - apply Qle_shift_div_r; lra.
Qed.

Lemma overall_confidence_range
    (rs : dict agent_name AgentResult) (active : list agent_name) :
  Ranges.all_within 0.1 0.9 (confidences rs active) ->
  0.1 <= _calculate_overall_confidence rs active /\
  _calculate_overall_confidence rs active <= 0.95.
Proof.
  intros F. unfold _calculate_overall_confidence.
  destruct (confidences rs active) as [|c cs] eqn:C; [split; lra|].
  destruct (mean_within 0.1 0.9 (c :: cs)) as [A0 A1]; [discriminate|exact F|].
  destruct (Nat.leb 2 _); [|split; lra].
  destruct (Qle_bool 0.8 _).
  - unfold Py.min. branch; qprop; split; lra.
  - destruct (Qle_bool _ 0.4); [|split; lra].
    unfold Py.max. branch; qprop; split; lra.
Qed.

Lemma outcome_bounded (agents : agent_name -> result AgentResult) (a : agent_name) :
  (forall r, agents a = Ok r -> Ranges.bounded r) ->
  Ranges.bounded (outcome agents a).
Proof.
  intros H. unfold outcome. destruct (agents a) as [r|e]; [now apply H|].
  exists 0.5, 0.1. simpl. repeat split; auto; apply Qle_bool_iff; reflexivity.
Qed.

Lemma determine_nonempty (q : string) : _determine_active_agents q <> [].
Proof.
  unfold _determine_active_agents, all_agents.
  repeat match goal with
         | |- context [any_in ?ws ?x] => destruct (any_in ws x)
         end; discriminate.
Qed.

Lemma recommendation_ranges_from
    (agents : agent_name -> result AgentResult) (query : string) :
  (forall a r, agents a = Ok r -> Ranges.bounded r) ->
  (0 <= rec_score (recommendation (aggregate (analyze_stock agents query))) /\
   rec_score (recommendation (aggregate (analyze_stock agents query))) <= 1) /\
  (0.1 <= rec_confidence (recommendation (aggregate (analyze_stock agents query))) /\
   rec_confidence (recommendation (aggregate (analyze_stock agents query))) <= 0.95).
Proof.
  intros H. unfold analyze_stock. cbn [aggregate].
  set (l := _determine_active_agents query).
  set (rs := run_agents agents l).
  assert (G : forall a, In a l -> dict_get rs a = Some (outcome agents a)).
  { intros a I. unfold rs, run_agents. now rewrite run_agents_get, existsb_agent. }
  assert (B : forall a, Ranges.bounded (outcome agents a))
    by (intros a; apply outcome_bounded, H).
  assert (S : 0 <= final_score rs l /\ final_score rs l <= 1).
  { apply final_score_between.
    - pose proof (determine_nonempty query) as N. fold l in N.
      destruct l as [|a l']; [contradiction|].
      unfold Spec.contributing. simpl. unfold Spec.contribution.
      rewrite (G a (or_introl eq_refl)).
      destruct (B a) as [s [c [O _]]]. rewrite O. discriminate.
    - intros a s I C. unfold Spec.contribution in C. rewrite (G a I) in C.
      destruct (B a) as [s' [c [O [S0 [S1 _]]]]]. rewrite O in C.
      injection C as <-. now split. }
  assert (C : 0.1 <= _calculate_overall_confidence rs l /\
              _calculate_overall_confidence rs l <= 0.95).
  { apply overall_confidence_range. unfold Ranges.all_within, confidences.
    apply Forall_forall. intros c I. apply in_flat_map in I.
    destruct I as [a [Ia I]]. rewrite (G a Ia) in I.
    destruct (B a) as [s [c' [_ [_ [_ [Cf [C0 C1]]]]]]]. rewrite Cf in I.
    destruct I as [<-|[]]. now split. }
  unfold _aggregate_agent_results.
  destruct (weighted_totals rs l) as [[tws tw] sc].
  cbn [recommendation rec_score rec_confidence].
  split.
  - apply (round3_bounds _ 0 1 0 1000); [reflexivity|reflexivity|tauto|tauto].
  - apply (round3_bounds _ 0.1 0.95 100 950); [reflexivity|reflexivity|tauto|tauto].
Qed.

(** X6.  Whatever the data sources answer and whatever the query, the
    recommendation [analyze_stock] builds from the five registered agents
    has a (rounded) score in the unit interval and a (rounded) confidence
    between 0.1 and 0.95. *)
Theorem recommendation_ranges (w : World) (ticker query : string) :
  (0 <= rec_score (recommendation (aggregate
          (analyze_stock (registered_agents w ticker) query))) /\
   rec_score (recommendation (aggregate
          (analyze_stock (registered_agents w ticker) query))) <= 1) /\
  (0.1 <= rec_confidence (recommendation (aggregate
          (analyze_stock (registered_agents w ticker) query))) /\
   rec_confidence (recommendation (aggregate
          (analyze_stock (registered_agents w ticker) query))) <= 0.95).
Proof.
  apply recommendation_ranges_from.
  intros a r H. exact (registered_agents_bounded w ticker a r H).
Qed.

(** ** Insights, risks and opportunities *)

(** X7.  The recommendation never lists more than four key insights (two
    from the fundamental metrics, one from the RSI, one from the debt
    ratio: the cut at five in line 295 never removes anything), nor more
    than four risk factors or four opportunities (lines 253-333). *)
Theorem extraction_sizes (rs : dict agent_name AgentResult) :
  (List.length (_extract_key_insights rs) <= 4)%nat /\
  (List.length (_extract_risk_factors rs) <= 4)%nat /\
  (List.length (_extract_opportunities rs) <= 4)%nat.
Proof.
  split; [|split].
  - unfold _extract_key_insights.
    repeat match goal with
           | |- context [match ?x with Some _ => _ | None => _ end] => destruct x
           | |- context [if ?b then _ else _] => destruct b
           end; simpl; lia.
  - unfold _extract_risk_factors. rewrite length_firstn. lia.
  - unfold _extract_opportunities. rewrite length_firstn. lia.
Qed.

Lemma scan_without_silent (hit : Q -> bool)
    (describe : agent_name -> string -> Q -> string)
    (a : agent_name) (rs : dict agent_name AgentResult) :
  (forall score_name v, describe a score_name v = "") ->
  scan hit describe rs = scan hit describe (Spec.without a rs).
Proof.
  intros S. unfold scan, Spec.without.
  induction rs as [|[k r] rs IH]; simpl; [reflexivity|].
  unfold key_eqb, agent_name_Key.
  destruct (agent_name_eqb k a) eqn:E; simpl; [|now f_equal].
  apply agent_name_eqb_eq in E. subst k.
  assert (N : match scores r with
              | Some sc =>
                  flat_map (fun '(score_name, score_value) =>
                              if hit score_value then
                                if String.eqb (describe a score_name score_value) ""
                                then [] else [describe a score_name score_value]
                              else []) sc
              | None => []
              end = []).
  { destruct (scores r) as [sc|]; [|reflexivity].
    induction sc as [|[n v] sc IHsc]; simpl; [reflexivity|].
    rewrite IHsc, S. simpl. now destruct (hit v). }
  rewrite N. exact IH.
Qed.

(** X8.  Whatever its sub-scores, the peer comparison result adds neither a
    risk factor nor an opportunity, the macro result adds no risk factor and
    the risk assessment result adds no opportunity: the phrase tables of
    lines 338-353 and 360-374 have no entry for them. *)
Theorem silent_agents (rs : dict agent_name AgentResult) :
  _extract_risk_factors rs = _extract_risk_factors (Spec.without peer_comparison rs) /\
  _extract_opportunities rs = _extract_opportunities (Spec.without peer_comparison rs) /\
  _extract_risk_factors rs = _extract_risk_factors (Spec.without macro_context rs) /\
  _extract_opportunities rs = _extract_opportunities (Spec.without risk_assessment rs).
Proof.
  unfold _extract_risk_factors, _extract_opportunities.
  repeat split; f_equal; apply scan_without_silent; reflexivity.
Qed.

Lemma scan_nothing (hit : Q -> bool)
    (describe : agent_name -> string -> Q -> string)
    (rs : dict agent_name AgentResult) :
  (forall a r sc n v, In (a, r) rs -> scores r = Some sc -> In (n, v) sc ->
                      hit v = false) ->
  scan hit describe rs = [].
Proof.
  unfold scan. induction rs as [|[a r] rs IH]; intros H; simpl; [reflexivity|].
  rewrite IH by (intros a' r' sc n v I; apply (H a' r' sc n v); now right).
  rewrite app_nil_r.
  destruct (scores r) as [sc|] eqn:S; [|reflexivity].
  assert (K : forall n v, In (n, v) sc -> hit v = false)
    by (intros n v I; apply (H a r sc n v); [now left|exact S|exact I]).
  clear S H IH. induction sc as [|[n v] sc IHsc]; simpl; [reflexivity|].
  rewrite (K n v (or_introl eq_refl)). simpl.
  apply IHsc. intros n' v' I. apply (K n' v'). now right.
Qed.

(** X9.  When every sub-score of every result lies strictly between 0.4 and
    0.7, the recommendation lists no risk factor and no opportunity (lines
    309 and 328). *)
Theorem middling_scores_list_nothing (rs : dict agent_name AgentResult) :
  (forall a r sc n v, In (a, r) rs -> scores r = Some sc -> In (n, v) sc ->
                      0.4 < v /\ v < 0.7) ->
  _extract_risk_factors rs = [] /\ _extract_opportunities rs = [].
Proof.
  intros H. unfold _extract_risk_factors, _extract_opportunities.
  rewrite !scan_nothing; [split; reflexivity| |].
  - intros a r sc n v I S J. destruct (H a r sc n v I S J) as [_ U].
    destruct (Qle_bool 0.7 v) eqn:E; [|reflexivity]. qprop. lra.
  - intros a r sc n v I S J. destruct (H a r sc n v I S J) as [L _].
    destruct (Qle_bool v 0.4) eqn:E; [|reflexivity]. qprop. lra.
Qed.

Lemma middling_scores_list_nothing_witness :
  _extract_risk_factors
    [(fundamental, Examples.scored "Fundamental_Analysis_Agent" 0.5 0.9);
     (technical, Examples.scored "Technical_Analysis_Agent" 0.6 0.9)] = [] /\
  _extract_opportunities
    [(fundamental, Examples.scored "Fundamental_Analysis_Agent" 0.5 0.9);
     (technical, Examples.scored "Technical_Analysis_Agent" 0.6 0.9)] = [].
Proof.
  apply (middling_scores_list_nothing
           [(fundamental, Examples.scored "Fundamental_Analysis_Agent" 0.5 0.9);
            (technical, Examples.scored "Technical_Analysis_Agent" 0.6 0.9)]).
  intros a r sc n v [E|[E|[]]] S I; injection E as <- <-;
    simpl in S; injection S as <-; destruct I as [E|[]]; injection E as <- <-;
    split; apply Qlt_bool_iff; reflexivity.
Defined.

(** ** One result per active agent *)

(** X10.  [analyze_stock] stores exactly one result per selected agent, in
    selection order.  An agent that returned has its own result stored, one
    that raised has the synthesized error result, whatever the other agents
    did; an agent that was not selected has none (lines 51-61). *)
Theorem one_result_per_active_agent
    (agents : agent_name -> result AgentResult) (query : string) :
  keys (agent_results (analyze_stock agents query))
  = active_agents (analyze_stock agents query) /\
  (forall a r, In a (active_agents (analyze_stock agents query)) ->
     agents a = Ok r ->
     dict_get (agent_results (analyze_stock agents query)) a = Some r) /\
  (forall a e, In a (active_agents (analyze_stock agents query)) ->
     agents a = Raise e ->
     dict_get (agent_results (analyze_stock agents query)) a
     = Some (_create_agent_error a (str_of_exn e))) /\
  (forall a, ~ In a (active_agents (analyze_stock agents query)) ->
     dict_get (agent_results (analyze_stock agents query)) a = None).
Proof.
  unfold analyze_stock. cbn [agent_results active_agents].
  split; [|split; [|split]].
  - rewrite (run_agents_map agents _ (determine_NoDup query)).
    unfold keys. rewrite map_map. simpl. apply map_id.
  - intros a r I E. unfold run_agents.
    rewrite run_agents_get, existsb_agent by exact I. unfold outcome. now rewrite E.
  - intros a e I E. unfold run_agents.
    rewrite run_agents_get, existsb_agent by exact I. unfold outcome. now rewrite E.
  - intros a N. unfold run_agents. rewrite run_agents_get.
    destruct (existsb _ _) eqn:E; [|reflexivity].
    apply existsb_exists in E. destruct E as [b [I E]].
    apply agent_name_eqb_eq in E. subst b. contradiction.
Qed.

Lemma agent_signals_length (rs : dict agent_name AgentResult) :
  (List.length (agent_signals rs) <= List.length rs)%nat.
Proof.
  unfold agent_signals, values.
  induction rs as [|[a r] rs IH]; simpl; [lia|].
  destruct (recommendation_signal r); simpl; lia.
Qed.

(** X11.  A query of the technical category (no fundamental keyword, some
    technical keyword) runs two agents only, technical and risk_assessment,
    so consensus moderation cannot apply: the final signal is the base
    signal of the weighted score, whatever the two agents answer. *)
Theorem technical_queries_are_never_moderated
    (agents : agent_name -> result AgentResult) (query : string) :
  any_in ["fundamental"; "valuation"; "p/e"; "financial"; "balance sheet"]
    (lower query) = false ->
  any_in ["technical"; "chart"; "trend"; "momentum"; "rsi"; "macd"]
    (lower query) = true ->
  active_agents (analyze_stock agents query) = [technical; risk_assessment] /\
  rec_signal (recommendation (aggregate (analyze_stock agents query)))
  = base_signal (final_score (agent_results (analyze_stock agents query))
                   (active_agents (analyze_stock agents query))).
Proof.
  intros F T. unfold analyze_stock. cbn [agent_results active_agents aggregate].
  assert (A : _determine_active_agents query = [technical; risk_assessment])
    by (unfold _determine_active_agents; now rewrite F, T).
  rewrite A. split; [reflexivity|].
  unfold _aggregate_agent_results.
  destruct (weighted_totals _ _) as [[tws tw] sc].
  cbn [recommendation rec_signal]. unfold _get_final_recommendation_signal.
  pose proof (agent_signals_length
                (run_agents agents [technical; risk_assessment])) as L.
  rewrite (run_agents_map agents [technical; risk_assessment]) in L at 2
    by (repeat constructor; simpl; intuition discriminate).
  simpl List.length in L.
  replace (Nat.leb 3 _) with false; [reflexivity|].
  symmetry. apply Nat.leb_gt. lia.
Qed.

Lemma technical_queries_are_never_moderated_witness :
  active_agents (analyze_stock Examples.only_risk_answers Spec.technical_setup_query)
  = [technical; risk_assessment] /\
  rec_signal (recommendation
                (aggregate (analyze_stock Examples.only_risk_answers
                              Spec.technical_setup_query)))
  = base_signal
      (final_score
         (agent_results (analyze_stock Examples.only_risk_answers
                           Spec.technical_setup_query))
         (active_agents (analyze_stock Examples.only_risk_answers
                           Spec.technical_setup_query))).
Proof.
  apply (technical_queries_are_never_moderated Examples.only_risk_answers
           Spec.technical_setup_query); vm_compute; reflexivity.
Defined.

(** ** What the agents answer at the edges *)

(** X12.  When the fundamentals are fetched, the fundamental agent does
    return: its result carries the four sub-scores computed from them, the
    confidence of the data availability and no error.  The missing import
    only bites on the error path. *)
Theorem fundamental_analyze_answers
    (w : World) (ticker : string) (f : Fundamentals) :
  fetch_fundamentals w ticker = Fetched f ->
  exists r,
    FundamentalAnalysisAgent.analyze w ticker = Ok r /\
    scores r = Some (FundamentalAnalysisAgent._calculate_fundamental_scores f) /\
    List.length (FundamentalAnalysisAgent._calculate_fundamental_scores f) = 4%nat /\
    confidence r = Some (FundamentalAnalysisAgent._calculate_confidence f) /\
    error r = None.
Proof.
  intros F. unfold FundamentalAnalysisAgent.analyze. rewrite F.
  unfold BaseAgent.create_response, FundamentalAnalysisAgent._calculate_fundamental_scores.
  cbn [dict_set key_eqb string_Key String.eqb Ascii.eqb Bool.eqb].
  unfold Py.div.
  match goal with |- context [Qeq_bool ?x 0] =>
    replace (Qeq_bool x 0) with false by reflexivity end.
  simpl. eexists. repeat split.
Qed.

Lemma fundamental_analyze_answers_witness :
  exists r,
    FundamentalAnalysisAgent.analyze Scenarios.healthy "INFY.NS" = Ok r /\
    scores r
    = Some (FundamentalAnalysisAgent._calculate_fundamental_scores Scenarios.sound) /\
    List.length (FundamentalAnalysisAgent._calculate_fundamental_scores Scenarios.sound)
    = 4%nat /\
    confidence r = Some (FundamentalAnalysisAgent._calculate_confidence Scenarios.sound) /\
    error r = None.
Proof.
  apply (fundamental_analyze_answers Scenarios.healthy "INFY.NS" Scenarios.sound).
  reflexivity.
Defined.

(** X13.  The macro agent answers for every ticker, also when the
    fundamentals cannot be fetched (the sector is then "Unknown"): it
    returns five sub-scores, no error, and always the same confidence 0.8,
    since its indicators are the fixed table of [_get_macro_indicators]. *)
Theorem macro_analyze_always_answers (w : World) (ticker : string) :
  exists r sc c,
    MacroContextAgent.analyze w ticker = Ok r /\
    scores r = Some sc /\ List.length sc = 5%nat /\
    confidence r = Some c /\ c == 0.8 /\
    error r = None.
Proof.
  unfold MacroContextAgent.analyze, BaseAgent.create_response,
    MacroContextAgent._calculate_macro_scores.
  cbn [dict_set key_eqb string_Key String.eqb Ascii.eqb Bool.eqb].
  unfold Py.div.
  match goal with |- context [Qeq_bool ?x 0] =>
    replace (Qeq_bool x 0) with false by reflexivity end.
  simpl. eexists. eexists. eexists. repeat split.
Qed.

(** X14.  With fewer than fifty rows of price history the technical agent
    computes nothing: it returns the sentinel with the error
    "Insufficient historical data" (lines 27-28). *)
Theorem technical_analyze_needs_history
    (w : World) (ticker : string) (hist : Hist) :
  history w ticker "1y" = Ok hist -> (hist_len hist < 50)%nat ->
  exists r,
    TechnicalAnalysisAgent.analyze w ticker = Ok r /\
    Spec.is_sentinel r /\
    error r = Some "Insufficient historical data".
Proof.
  intros H L. unfold TechnicalAnalysisAgent.analyze. rewrite H. simpl.
  replace (Nat.ltb (hist_len hist) 50) with true
    by (symmetry; apply Nat.ltb_lt; exact L).
  rewrite orb_true_r.
  destruct (technical_error_response (clock w) "Insufficient historical data")
    as [r [E [S M]]].
  rewrite E. simpl. now exists r.
Qed.

Lemma technical_analyze_needs_history_witness :
  exists r,
    TechnicalAnalysisAgent.analyze Scenarios.young_listing "INFY.NS" = Ok r /\
    Spec.is_sentinel r /\
    error r = Some "Insufficient historical data".
Proof.
  apply (technical_analyze_needs_history Scenarios.young_listing "INFY.NS"
           Scenarios.one_month); [reflexivity|].
  apply Nat.ltb_lt. reflexivity.
Defined.

(** X15.  When the fundamentals or the price data cannot be fetched, the
    risk agent returns the sentinel with the fixed message "Unable to fetch
    required data for risk analysis"; the upstream error text is dropped and
    the price history is not consulted (lines 26-27). *)
Theorem risk_analyze_without_data (w : World) (ticker : string) :
  (exists msg, fetch_fundamentals w ticker = FetchError msg) \/
  (exists msg, fetch_price_data w ticker = FetchError msg) ->
  exists r,
    RiskAssessmentAgent.analyze w ticker = Ok r /\
    Spec.is_sentinel r /\
    error r = Some "Unable to fetch required data for risk analysis".
Proof.
  intros H.
  destruct (risk_error_response (clock w)
              "Unable to fetch required data for risk analysis") as [r [E [S M]]].
  exists r. split; [|now split].
  unfold RiskAssessmentAgent.analyze.
  destruct H as [[msg F]|[msg F]]; rewrite F.
  - now rewrite E.
  - destruct (fetch_fundamentals w ticker); now rewrite E.
Qed.

Lemma risk_analyze_without_data_witness :
  exists r,
    RiskAssessmentAgent.analyze Examples.unreachable "INFY.NS" = Ok r /\
    Spec.is_sentinel r /\
    error r = Some "Unable to fetch required data for risk analysis".
Proof.
  apply (risk_analyze_without_data Examples.unreachable "INFY.NS").
  left. exists "No data available". reflexivity.
Defined.

(** X16.  A market capitalisation of [None] makes the risk agent fail as a
    whole: the first comparison of line 121 raises [TypeError], no score is
    kept, and [analyze] returns the sentinel. *)
Theorem risk_analyze_without_market_cap
    (w : World) (ticker : string) (f : Fundamentals) (p : PriceData) (hist : Hist) :
  fetch_fundamentals w ticker = Fetched f ->
  fetch_price_data w ticker = Fetched p ->
  history w ticker "2y" = Ok hist ->
  market_cap f = None ->
  RiskAssessmentAgent._calculate_risk_scores f p hist = Raise TypeError /\
  exists r,
    RiskAssessmentAgent.analyze w ticker = Ok r /\
    Spec.is_sentinel r /\
    error r = Some (str_of_exn TypeError).
Proof.
  intros F P H M.
  assert (S : RiskAssessmentAgent._calculate_risk_scores f p hist = Raise TypeError).
  { unfold RiskAssessmentAgent._calculate_risk_scores,
      RiskAssessmentAgent.liquidity_risk_score. now rewrite M. }
  split; [exact S|].
  destruct (risk_error_response (clock w) (str_of_exn TypeError)) as [r [E [Se Me]]].
  exists r. split; [|now split].
  unfold RiskAssessmentAgent.analyze. rewrite F, P, H. simpl. rewrite S. simpl.
  exact E.
Qed.

Lemma risk_analyze_without_market_cap_witness :
  RiskAssessmentAgent._calculate_risk_scores
    {| sector := Some "Technology"; market_cap := None; pe_ratio := Some 24;
       pb_ratio := Some 7.5; roe := Some 0.31; debt_to_equity := Some 0.1;
       profit_margin := Some 0.17; revenue_growth := Some 0.08 |}
    Scenarios.prices Scenarios.two_years = Raise TypeError /\
  exists r,
    RiskAssessmentAgent.analyze Scenarios.no_market_cap "INFY.NS" = Ok r /\
    Spec.is_sentinel r /\
    error r = Some (str_of_exn TypeError).
Proof.
  apply (risk_analyze_without_market_cap Scenarios.no_market_cap "INFY.NS");
    reflexivity.
Defined.

(** X17.  The downside score divides by the 52-week range: it raises
    [ZeroDivisionError] exactly when price, low and high are all present and
    non-zero and the high equals the low (line 205), and it raises nothing
    else. *)
Theorem downside_score_raises_on_flat_range (p : PriceData) (hist : Hist) :
  (RiskAssessmentAgent._calculate_downside_risk_score p hist = Raise ZeroDivisionError
   <-> (~ get_or (current_price p) 0 == 0 /\
        ~ get_or (low_52w p) 0 == 0 /\
        ~ get_or (high_52w p) 0 == 0 /\
        get_or (high_52w p) 0 == get_or (low_52w p) 0)) /\
  (forall e, RiskAssessmentAgent._calculate_downside_risk_score p hist = Raise e ->
             e = ZeroDivisionError).
Proof.
  unfold RiskAssessmentAgent._calculate_downside_risk_score.
  destruct (Qeq_bool (get_or (current_price p) 0) 0) eqn:E1;
  destruct (Qeq_bool (get_or (low_52w p) 0) 0) eqn:E2;
  destruct (Qeq_bool (get_or (high_52w p) 0) 0) eqn:E3; simpl;
    try (split; [split; [discriminate|]; qprop; tauto|discriminate]).
  unfold Py.div.
  destruct (Qeq_bool (get_or (high_52w p) 0 - get_or (low_52w p) 0) 0) eqn:D; simpl.
  - split; [|now intros e [= <-]].
    split; [intros _|reflexivity]. qprop. repeat split; auto. lra.
  - split; [|discriminate].
    split; [discriminate|]. intros [_ [_ [_ Eq]]]. qprop. exfalso. apply D. lra.
Qed.

Lemma risk_analyze_on_flat_range :
  exists r,
    RiskAssessmentAgent.analyze Scenarios.flat_year "INFY.NS" = Ok r /\
    Spec.is_sentinel r /\
    error r = Some "float division by zero".
Proof. eexists. split; [reflexivity|]. repeat split. eexists. reflexivity. Qed.

(** X18.  A ticker with no known peer gets a limited answer from the peer
    agent, not an error: three neutral sub-scores, overall score 0.5,
    signal HOLD, confidence 0.3 and no error field (lines 43-44 and
    262-282). *)
Theorem peer_analyze_without_peers
    (w : World) (ticker : string) (target : Fundamentals) :
  fetch_fundamentals w ticker = Fetched target ->
  PeerComparisonAgent._get_peers w ticker = [] ->
  exists r,
    PeerComparisonAgent.analyze w ticker = Ok r /\
    scores r = Some [("relative_valuation_score", 0.5);
                     ("relative_profitability_score", 0.5);
                     ("peer_ranking_score", 0.5)] /\
    overall_score r = Some 0.5 /\
    recommendation_signal r = Some HOLD /\
    confidence r = Some 0.3 /\
    error r = None.
Proof.
  intros F P. unfold PeerComparisonAgent.analyze. rewrite F, P.
  eexists. split; [reflexivity|]. repeat split.
Qed.

Lemma peer_analyze_without_peers_witness :
  exists r,
    PeerComparisonAgent.analyze Scenarios.healthy "ZOMATO.NS" = Ok r /\
    scores r = Some [("relative_valuation_score", 0.5);
                     ("relative_profitability_score", 0.5);
                     ("peer_ranking_score", 0.5)] /\
    overall_score r = Some 0.5 /\
    recommendation_signal r = Some HOLD /\
    confidence r = Some 0.3 /\
    error r = None.
Proof.
  apply (peer_analyze_without_peers Scenarios.healthy "ZOMATO.NS" Scenarios.sound);
    reflexivity.
Defined.

(** X19.  When peers are known but none of them can be fetched, the peer
    agent answers through [create_response]: the same three neutral
    sub-scores and overall score 0.5, but signal WEAK_HOLD (the band of 0.5)
    and confidence 0.2, unlike the limited answer for a ticker without
    peers. *)
Theorem peer_analyze_unreachable_peers
    (w : World) (ticker : string) (target : Fundamentals) :
  fetch_fundamentals w ticker = Fetched target ->
  PeerComparisonAgent._get_peers w ticker <> [] ->
  PeerComparisonAgent._fetch_peer_data w (PeerComparisonAgent._get_peers w ticker) = [] ->
  exists r s,
    PeerComparisonAgent.analyze w ticker = Ok r /\
    scores r = Some [("relative_valuation_score", 0.5);
                     ("relative_profitability_score", 0.5);
                     ("peer_ranking_score", 0.5)] /\
    overall_score r = Some s /\ s == 0.5 /\
    recommendation_signal r = Some WEAK_HOLD /\
    confidence r = Some 0.2 /\
    error r = None.
Proof.
  intros F N P. unfold PeerComparisonAgent.analyze. rewrite F.
  destruct (PeerComparisonAgent._get_peers w ticker) as [|p0 ps] eqn:G;
    [contradiction|].
  rewrite P. eexists. eexists. split; [reflexivity|]. repeat split.
Qed.

Lemma peer_analyze_unreachable_peers_witness :
  exists r s,
    PeerComparisonAgent.analyze Scenarios.lonely "INFY.NS" = Ok r /\
    scores r = Some [("relative_valuation_score", 0.5);
                     ("relative_profitability_score", 0.5);
                     ("peer_ranking_score", 0.5)] /\
    overall_score r = Some s /\ s == 0.5 /\
    recommendation_signal r = Some WEAK_HOLD /\
    confidence r = Some 0.2 /\
    error r = None.
Proof.
  apply (peer_analyze_unreachable_peers Scenarios.lonely "INFY.NS" Scenarios.sound);
    [reflexivity|discriminate|reflexivity].
Defined.

(** X20.  In an [analyze_stock] call that selects the fundamental agent
    while its data source answers with an error, the orchestrator catches
    the agent's [NameError] and stores the synthesized error result (which
    has neither sub-scores nor key metrics): the upstream message is
    replaced by "name 'datetime' is not defined", and the neutral 0.5 of
    that result is entered in the per-agent scores of the aggregate. *)
Theorem failed_fundamentals_in_analyze_stock
    (w : World) (ticker query msg : string) :
  fetch_fundamentals w ticker = FetchError msg ->
  In fundamental (active_agents (analyze_stock (registered_agents w ticker) query)) ->
  dict_get (agent_results (analyze_stock (registered_agents w ticker) query)) fundamental
  = Some (_create_agent_error fundamental "name 'datetime' is not defined") /\
  dict_get (agent_scores (aggregate (analyze_stock (registered_agents w ticker) query)))
    fundamental = Some 0.5.
Proof.
  intros F I. unfold analyze_stock in *. cbn [agent_results active_agents aggregate] in *.
  assert (O : outcome (registered_agents w ticker) fundamental
              = _create_agent_error fundamental "name 'datetime' is not defined").
  { unfold outcome. simpl. unfold FundamentalAnalysisAgent.analyze. now rewrite F. }
  assert (G : dict_get (run_agents (registered_agents w ticker)
                          (_determine_active_agents query)) fundamental
              = Some (_create_agent_error fundamental "name 'datetime' is not defined")).
  { unfold run_agents. rewrite run_agents_get, existsb_agent by exact I.
    now rewrite O. }
  split; [exact G|].
  unfold _aggregate_agent_results.
  destruct (weighted_totals _ _) as [[tws tw] sc] eqn:W.
  cbn [agent_scores]. change sc with (snd (tws, tw, sc)). rewrite <- W.
  unfold weighted_totals. apply agent_scores_get; [|exact I].
  unfold Spec.contribution. now rewrite G.
Qed.

Lemma failed_fundamentals_in_analyze_stock_witness :
  dict_get (agent_results
              (analyze_stock (registered_agents Examples.unreachable "INFY.NS")
                 "Should I invest in INFY?")) fundamental
  = Some (_create_agent_error fundamental "name 'datetime' is not defined") /\
  dict_get (agent_scores
              (aggregate (analyze_stock (registered_agents Examples.unreachable "INFY.NS")
                            "Should I invest in INFY?"))) fundamental = Some 0.5.
Proof.
  apply (failed_fundamentals_in_analyze_stock Examples.unreachable "INFY.NS"
           "Should I invest in INFY?" "No data available"); [reflexivity|].
  vm_compute. auto.
Defined.

(** ** Shapes of the scoring curves *)

(** X21.  Leverage never helps: a higher debt-to-equity ratio never gives a
    higher financial health score (fundamental agent) nor a higher
    financial risk score (risk agent); both fall through four bands. *)
Theorem leverage_scores_are_antitone (f1 f2 : Fundamentals) (d1 d2 : Q) :
  debt_to_equity f1 = Some d1 -> debt_to_equity f2 = Some d2 -> d1 <= d2 ->
  FundamentalAnalysisAgent.financial_health_score f2
  <= FundamentalAnalysisAgent.financial_health_score f1 /\
  RiskAssessmentAgent.financial_risk_score f2
  <= RiskAssessmentAgent.financial_risk_score f1.
Proof.
  intros E1 E2 L.
  unfold FundamentalAnalysisAgent.financial_health_score,
    RiskAssessmentAgent.financial_risk_score.
  rewrite E1, E2.
  split; repeat branch; qprop; lra.
Qed.

Lemma leverage_scores_are_antitone_witness :
  FundamentalAnalysisAgent.financial_health_score Examples.pathological
  <= FundamentalAnalysisAgent.financial_health_score Scenarios.sound /\
  RiskAssessmentAgent.financial_risk_score Examples.pathological
  <= RiskAssessmentAgent.financial_risk_score Scenarios.sound.
Proof.
  apply (leverage_scores_are_antitone Scenarios.sound Examples.pathological 0.1 12345);
    [reflexivity|reflexivity|].
  apply Qle_bool_iff. reflexivity.
Defined.

(** X22.  Growth always helps: a higher revenue growth never gives a lower
    growth score; a growth of exactly zero is read as missing and scores the
    neutral 0.5, between shrinking (0.3) and growing (lines 102-116). *)
Theorem growth_score_is_monotone (f1 f2 : Fundamentals) (g1 g2 : Q) :
  revenue_growth f1 = Some g1 -> revenue_growth f2 = Some g2 -> g1 <= g2 ->
  FundamentalAnalysisAgent.growth_score f1 <= FundamentalAnalysisAgent.growth_score f2.
Proof.
  intros E1 E2 L. unfold FundamentalAnalysisAgent.growth_score. rewrite E1, E2.
  repeat branch; qprop; lra.
Qed.

Lemma growth_score_is_monotone_witness :
  FundamentalAnalysisAgent.growth_score Examples.pathological
  <= FundamentalAnalysisAgent.growth_score Scenarios.sound.
Proof.
  apply (growth_score_is_monotone Examples.pathological Scenarios.sound
           (-1000000) 0.08); [reflexivity|reflexivity|].
  apply Qle_bool_iff. reflexivity.
Defined.

(** X23.  The technical agent stores five sub-scores when the price data is
    available and four when it is not: the price position score is then
    absent, not neutral, so the overall score averages four values (lines
    137-154). *)
Theorem technical_scores_without_prices (i : Indicators)
    (price_data : fetched PriceData) (sc : dict string Q) :
  TechnicalAnalysisAgent._calculate_technical_scores i price_data = Ok sc ->
  match price_data with
  | Fetched _ =>
      List.length sc = 5%nat /\ dict_mem sc "price_position_score" = true
  | FetchError _ =>
      List.length sc = 4%nat /\ dict_mem sc "price_position_score" = false
  end.
Proof.
  unfold TechnicalAnalysisAgent._calculate_technical_scores. intros H.
  apply bind_ok in H. destruct H as [vol [_ H]].
  destruct price_data as [p|msg].
  - apply bind_ok in H. destruct H as [pos [_ H]].
    apply ok_inj in H. subst sc. split; reflexivity.
  - apply ok_inj in H. subst sc. split; reflexivity.
Qed.

Lemma technical_scores_without_prices_witness :
  exists sc,
    TechnicalAnalysisAgent._calculate_technical_scores Scenarios.indicators
      (FetchError "No price data available") = Ok sc /\
    List.length sc = 4%nat /\ dict_mem sc "price_position_score" = false.
Proof.
  eexists. split; [reflexivity|].
  apply (technical_scores_without_prices Scenarios.indicators
           (FetchError "No price data available")).
  reflexivity.
Defined.

(** ** Peer comparison never fails on its own data *)

Lemma insert_length (le : Q -> Q -> bool) (x : Q) (l : list Q) :
  List.length (Py.insert le x l) = S (List.length l).
Proof.
  induction l as [|y l IH]; simpl; [reflexivity|].
  destruct (le x y); simpl; [reflexivity|now rewrite IH].
Qed.

Lemma insert_In (le : Q -> Q -> bool) (x y : Q) (l : list Q) :
  In y (Py.insert le x l) <-> y = x \/ In y l.
Proof.
  induction l as [|z l IH]; simpl; [intuition|].
  destruct (le x z); simpl; [intuition|]. rewrite IH. intuition.
Qed.

Lemma sorted_length (l : list Q) : List.length (Py.sorted l) = List.length l.
Proof.
  unfold Py.sorted. induction l as [|x l IH]; simpl; [reflexivity|].
  now rewrite insert_length, IH.
Qed.

Lemma sorted_In (l : list Q) (y : Q) : In y (Py.sorted l) <-> In y l.
Proof.
  unfold Py.sorted. induction l as [|x l IH]; simpl; [tauto|].
  rewrite insert_In, IH. intuition.
Qed.

Lemma sorted_reverse_In (l : list Q) (y : Q) : In y (Py.sorted_reverse l) <-> In y l.
Proof.
  unfold Py.sorted_reverse. induction l as [|x l IH]; simpl; [tauto|].
  rewrite insert_In, IH. intuition.
Qed.

Lemma index_In (l : list Q) (x : Q) : In x l -> exists i, Py.index l x = Ok i.
Proof.
  induction l as [|y l IH]; simpl; [tauto|].
  intros [->|I].
  - rewrite (proj2 (Qeq_bool_iff x x) (Qeq_refl x)). eauto.
  - destruct (Qeq_bool y x); [eauto|].
    destruct (IH I) as [i ->]. eauto.
Qed.

(** [sorted(l)[len(l)//2]] is defined on every non-empty list and is one of
    its values. *)
Lemma median_ok (l : list Q) :
  l <> [] -> exists m, PeerComparisonAgent.median l = Ok m /\ In m l.
Proof.
  intros N. unfold PeerComparisonAgent.median, Py.item.
  destruct (nth_error (Py.sorted l) (Nat.div (List.length l) 2)) as [m|] eqn:E.
  - exists m. split; [reflexivity|]. apply sorted_In. eapply nth_error_In; eauto.
  - apply nth_error_None in E. rewrite sorted_length in E.
    destruct l as [|x l]; [contradiction|].
    pose proof (Nat.div_lt (List.length (x :: l)) 2) as D.
    simpl List.length in *. lia.
Qed.

Lemma percentile_ok (ordered : list Q) (x : Q) :
  In x ordered -> exists v, PeerComparisonAgent.percentile ordered x = Ok v.
Proof.
  intros I. unfold PeerComparisonAgent.percentile.
  destruct (index_In ordered x I) as [i ->]. simpl.
  rewrite div_len_ok; [eauto|]. intros ->. contradiction.
Qed.

Lemma length_nonempty {A} (l : list A) :
  negb (Nat.eqb (List.length l) 0) = true -> l <> [].
Proof. destruct l; simpl; [discriminate|discriminate]. Qed.

Lemma relative_valuation_ok (target : Fundamentals) (peers : list Fundamentals) :
  exists v, PeerComparisonAgent.relative_valuation_score target peers = Ok v.
Proof.
  unfold PeerComparisonAgent.relative_valuation_score.
  destruct (Py.truthy (pe_ratio target)); simpl; [|eauto].
  destruct (negb _) eqn:E; [|eauto].
  destruct (median_ok _ (length_nonempty _ E)) as [m [-> _]]. simpl. eauto.
Qed.

Lemma relative_profitability_ok (target : Fundamentals) (peers : list Fundamentals) :
  exists v, PeerComparisonAgent.relative_profitability_score target peers = Ok v.
Proof.
  unfold PeerComparisonAgent.relative_profitability_score.
  destruct (Py.truthy (roe target)); simpl; [|eauto].
  destruct (negb _) eqn:E; [|eauto].
  destruct (median_ok _ (length_nonempty _ E)) as [m [-> _]]. simpl. eauto.
Qed.

Lemma ranking_factors_ok (target : Fundamentals) (peers : list Fundamentals) :
  exists fs, PeerComparisonAgent.ranking_factors target peers = Ok fs.
Proof.
  unfold PeerComparisonAgent.ranking_factors.
  assert (P : forall l x, exists v,
             PeerComparisonAgent.percentile (Py.sorted (l ++ [x])) x = Ok v).
  { intros l x. apply percentile_ok, sorted_In, in_or_app. right. now left. }
  assert (R : forall l x, exists v,
             PeerComparisonAgent.percentile (Py.sorted_reverse (l ++ [x])) x = Ok v).
  { intros l x. apply percentile_ok, sorted_reverse_In, in_or_app. right. now left. }
  destruct (Py.truthy (pe_ratio target) && _).
  - destruct (P (PeerComparisonAgent.truthy_values pe_ratio peers)
                (get_or (pe_ratio target) 0)) as [v ->]. simpl.
    destruct (Py.truthy (roe target) && _); [|eauto].
    destruct (R (PeerComparisonAgent.truthy_values roe peers)
                (get_or (roe target) 0)) as [v' ->]. simpl. eauto.
  - simpl. destruct (Py.truthy (roe target) && _); [|eauto].
    destruct (R (PeerComparisonAgent.truthy_values roe peers)
                (get_or (roe target) 0)) as [v' ->]. simpl. eauto.
Qed.

Lemma peer_ranking_ok (target : Fundamentals) (peers : list Fundamentals) :
  exists v, PeerComparisonAgent.peer_ranking_score target peers = Ok v.
Proof.
  unfold PeerComparisonAgent.peer_ranking_score.
  destruct (ranking_factors_ok target peers) as [fs ->]. simpl.
  destruct fs as [|f fs]; [eauto|].
  rewrite div_len_ok; [eauto|discriminate].
Qed.

Lemma peer_scores_ok (target : Fundamentals) (peers : list Fundamentals) :
  exists sc,
    PeerComparisonAgent._calculate_peer_scores target peers = Ok sc /\
    map fst sc = ["relative_valuation_score"; "relative_profitability_score";
                  "peer_ranking_score"].
Proof.
  unfold PeerComparisonAgent._calculate_peer_scores.
  destruct peers as [|p0 peers']; [eexists; split; reflexivity|].
  destruct (relative_valuation_ok target (p0 :: peers')) as [v ->].
  destruct (relative_profitability_ok target (p0 :: peers')) as [v' ->].
  destruct (peer_ranking_ok target (p0 :: peers')) as [v'' ->].
  eexists. split; reflexivity.
Qed.

Lemma peer_key_metrics_ok (target : Fundamentals) (peers : list Fundamentals) :
  exists m, PeerComparisonAgent._extract_key_metrics target peers = Ok m.
Proof.
  unfold PeerComparisonAgent._extract_key_metrics.
  destruct peers as [|p0 peers']; [eauto|].
  assert (A : forall (l : list Q) (k : Q -> Q -> result (dict string (option Q))),
             l <> [] ->
             (forall m a, exists r, k m a = Ok r) ->
             exists r, Py.bind (PeerComparisonAgent.median l)
                         (fun m => Py.bind (Py.div (Py.sum l) (Py.len l)) (k m))
                       = Ok r).
  { intros l k N K. destruct (median_ok l N) as [m [-> _]]. simpl.
    rewrite (div_len_ok _ l N). simpl. apply K. }
  generalize (PeerComparisonAgent.truthy_values pe_ratio (p0 :: peers')) as lp.
  generalize (PeerComparisonAgent.truthy_values roe (p0 :: peers')) as lr.
  generalize (Py.len (p0 :: peers')) as n.
  intros n lr lp.
  match goal with |- exists m, Py.bind ?first _ = _ =>
    assert (F : exists r, first = Ok r) end.
  { destruct lp as [|x xs]; [eauto|]. apply A; [discriminate|eauto]. }
  destruct F as [r ->]. cbn [Py.bind].
  destruct lr as [|y ys]; [eauto|]. apply A; [discriminate|eauto].
Qed.

Lemma peer_confidence_ok (peers : list Fundamentals) :
  exists c, PeerComparisonAgent._calculate_confidence peers = Ok c.
Proof.
  unfold PeerComparisonAgent._calculate_confidence.
  destruct peers as [|p0 peers']; [eauto|].
  rewrite div_len_ok; [simpl; eauto|discriminate].
Qed.

Lemma create_response_returns (name : string) (w : Q) (clk : string)
    (sub_scores : dict string Q) (text : string)
    (metrics : dict string (option Q)) (conf : Q) :
  sub_scores <> [] ->
  exists r,
    BaseAgent.create_response name w clk sub_scores text metrics conf = Ok r /\
    scores r = Some sub_scores /\ confidence r = Some conf /\ error r = None.
Proof.
  intros N. unfold BaseAgent.create_response.
  rewrite (div_len_ok _ sub_scores N). simpl. eexists. repeat split.
Qed.

(** X24.  Once the target's fundamentals are fetched, the peer agent always
    answers, whatever the peers' data looks like: no median of an empty
    list, no failed [index] and no division by zero can occur in the scores,
    the key metrics or the confidence, because each is guarded by the
    non-emptiness of the list it reads.  The result has no error field and
    exactly the three peer sub-scores. *)
Theorem peer_analyze_answers
    (w : World) (ticker : string) (target : Fundamentals) :
  fetch_fundamentals w ticker = Fetched target ->
  exists r sc,
    PeerComparisonAgent.analyze w ticker = Ok r /\
    error r = None /\
    scores r = Some sc /\
    map fst sc = ["relative_valuation_score"; "relative_profitability_score";
                  "peer_ranking_score"].
Proof.
  intros F. unfold PeerComparisonAgent.analyze. rewrite F.
  destruct (PeerComparisonAgent._get_peers w ticker) as [|p0 ps].
  - eexists. eexists. split; [reflexivity|]. repeat split.
  - set (peer_data := PeerComparisonAgent._fetch_peer_data w (p0 :: ps)).
    destruct (peer_scores_ok target peer_data) as [sc [-> K]].
    destruct (peer_key_metrics_ok target peer_data) as [m ->].
    destruct (peer_confidence_ok peer_data) as [c ->].
    simpl Py.bind.
    assert (N : sc <> []) by (intros ->; discriminate).
    destruct (create_response_returns PeerComparisonAgent.self_name
                PeerComparisonAgent.self_weight (clock w) sc
                (narrative w PeerComparisonAgent.self_name) m c N)
      as [r [-> [S [_ E]]]].
    exists r, sc. simpl. auto.
Qed.

Lemma peer_analyze_answers_witness :
  exists r sc,
    PeerComparisonAgent.analyze Scenarios.healthy "INFY.NS" = Ok r /\
    error r = None /\
    scores r = Some sc /\
    map fst sc = ["relative_valuation_score"; "relative_profitability_score";
                  "peer_ranking_score"].
Proof.
  apply (peer_analyze_answers Scenarios.healthy "INFY.NS" Scenarios.sound).
  reflexivity.
Defined.

(** X25.  The peer median is the upper middle value: on a non-empty list
    it is always one of the peers' own values (never an average), and of
    two peers it is the larger one. *)
Theorem peer_median_is_a_peer_value :
  (forall l, l <> [] -> exists m, PeerComparisonAgent.median l = Ok m /\ In m l) /\
  (forall a b,
     PeerComparisonAgent.median [a; b] = Ok (if Qle_bool a b then b else a)).
Proof.
  split; [exact median_ok|].
  intros a b. unfold PeerComparisonAgent.median, Py.sorted. simpl.
  destruct (Qle_bool a b); reflexivity.
Qed.

(** ** A loss-making company *)

Lemma clamp01_above (c x : Q) : c <= x -> c <= 1 -> c <= clamp01 x.
Proof.
  intros L U. unfold clamp01.
  pose proof (max_bounds 0 (Py.min 1 x)) as [_ M].
  destruct (min_cases 1 x) as [E|E]; rewrite E in *; lra.
Qed.

Lemma fundamental_analyze_key_metrics
    (w : World) (ticker : string) (f : Fundamentals) :
  fetch_fundamentals w ticker = Fetched f ->
  exists r,
    FundamentalAnalysisAgent.analyze w ticker = Ok r /\
    key_metrics r = Some (FundamentalAnalysisAgent._extract_key_metrics f).
Proof.
  intros F. unfold FundamentalAnalysisAgent.analyze. rewrite F.
  unfold BaseAgent.create_response, FundamentalAnalysisAgent._calculate_fundamental_scores.
  cbn [dict_set key_eqb string_Key String.eqb Ascii.eqb Bool.eqb].
  unfold Py.div.
  match goal with |- context [Qeq_bool ?x 0] =>
    replace (Qeq_bool x 0) with false by reflexivity end.
  simpl. eexists. split; reflexivity.
Qed.

(** X26.  A negative trailing P/E is read as a low one.  The fundamental
    agent scores it in its cheapest band (valuation score at least 0.9), and
    whenever the fundamental agent is selected the first key insight of the
    recommendation is "Attractive valuation with P/E of ..." carrying that
    negative ratio. *)
Theorem negative_pe_reads_as_attractive
    (w : World) (ticker query : string) (f : Fundamentals) (pe : Q) :
  fetch_fundamentals w ticker = Fetched f ->
  pe_ratio f = Some pe ->
  pe < 0 ->
  In fundamental (_determine_active_agents query) ->
  0.9 <= FundamentalAnalysisAgent.valuation_score f /\
  hd_error (key_insights (aggregate (analyze_stock (registered_agents w ticker) query)))
  = Some (AttractiveValuation pe).
Proof.
  intros F P N A. split.
  - unfold FundamentalAnalysisAgent.valuation_score. rewrite P. cbv zeta.
    apply clamp01_above; [|lra].
    destruct (pb_ratio f) as [pb|]; repeat branch; qprop; lra.
  - unfold analyze_stock. cbn [aggregate key_insights _aggregate_agent_results].
    unfold _aggregate_agent_results.
    destruct (weighted_totals _ _) as [[tws tw] sc]. cbn [key_insights].
    unfold _extract_key_insights.
    assert (M : metrics_of (run_agents (registered_agents w ticker)
                              (_determine_active_agents query)) fundamental
                = Some (FundamentalAnalysisAgent._extract_key_metrics f)).
    { unfold metrics_of, run_agents. rewrite run_agents_get.
      rewrite (existsb_agent _ _ A). unfold outcome. cbn [registered_agents].
      destruct (fundamental_analyze_key_metrics w ticker f F) as [r [-> K]].
      exact K. }
    rewrite M.
    assert (K : metric (FundamentalAnalysisAgent._extract_key_metrics f) "pe_ratio"
                = Some pe).
    { unfold metric, FundamentalAnalysisAgent._extract_key_metrics. simpl.
      exact P. }
    rewrite K.
    assert (T : and_then (Some pe) (fun pe0 => Qlt_bool pe0 15) = true).
    { unfold and_then.
      destruct (Qeq_bool pe 0) eqn:E; [apply Qeq_bool_iff in E; lra|].
      simpl. apply Qlt_bool_iff. lra. }
    rewrite T. cbn [get_or app].
    repeat match goal with
           | |- context [match ?m with Some _ => _ | None => _ end] =>
               destruct m
           | |- context [if ?c then _ else _] => destruct c
           end; reflexivity.
Qed.

Lemma negative_pe_reads_as_attractive_witness :
  0.9 <= FundamentalAnalysisAgent.valuation_score Examples.pathological /\
  hd_error (key_insights (aggregate (analyze_stock
              (registered_agents
                 {| fetch_fundamentals := fun _ => Fetched Examples.pathological;
                    fetch_price_data := fun _ => FetchError "No price data available";
                    history := fun _ _ => Raise (Exception "connection refused");
                    calculate_indicators := fun _ => FetchError "no indicators";
                    nse_group_a_peers := fun _ => [];
                    narrative := fun _ => "";
                    clock := "2024-01-01T00:00:00" |} "XYZ.NS")
              "is it cheap?")))
  = Some (AttractiveValuation (-250)).
Proof.
  apply (negative_pe_reads_as_attractive
           {| fetch_fundamentals := fun _ => Fetched Examples.pathological;
              fetch_price_data := fun _ => FetchError "No price data available";
              history := fun _ _ => Raise (Exception "connection refused");
              calculate_indicators := fun _ => FetchError "no indicators";
              nse_group_a_peers := fun _ => [];
              narrative := fun _ => "";
              clock := "2024-01-01T00:00:00" |}
           "XYZ.NS" "is it cheap?" Examples.pathological (-250)).
  - reflexivity.
  - reflexivity.
  - apply Qlt_bool_iff. reflexivity.
  - vm_compute. auto.
Defined.

(** ** Keywords are matched as substrings *)

Lemma list_ascii_of_string_app (a b : string) :
  list_ascii_of_string (a ++ b)
  = (list_ascii_of_string a ++ list_ascii_of_string b)%list.
Proof. induction a as [|c a IH]; simpl; [reflexivity|now rewrite IH]. Qed.

Lemma lower_app (a b : string) : lower (a ++ b) = (lower a ++ lower b)%list.
Proof. unfold lower. now rewrite list_ascii_of_string_app, map_app. Qed.

(** The keywords of the selector are written in lower case. *)
Lemma keywords_are_lower_case (c : list string * list agent_name) (kw : string) :
  In c Spec.categories -> In kw (fst c) -> lower kw = list_ascii_of_string kw.
Proof.
  unfold Spec.categories. simpl.
  intros I K.
  repeat (destruct I as [<-|I]; [simpl in K; intuition (subst; reflexivity)|]).
  contradiction.
Qed.

Lemma find_first {A} (f : A -> bool) (l : list A) (n : nat) (c : A) :
  nth_error l n = Some c -> f c = true ->
  exists m c', (m <= n)%nat /\ nth_error l m = Some c' /\ find f l = Some c'.
Proof.
  revert n. induction l as [|x l IH]; intros n; [destruct n; discriminate|].
  simpl. destruct (f x) eqn:E.
  - intros _ _. exists 0%nat, x. repeat split. lia.
  - destruct n as [|n]; simpl.
    + intros [= ->] F. congruence.
    + intros N F. destruct (IH n N F) as [m [c' [L [M R]]]].
      exists (S m), c'. repeat split; auto. lia.
Qed.

(** X27.  Keywords are matched as substrings of the lower-cased query, also
    inside other words, and categories are tried in their fixed order: when
    a keyword of the n-th category occurs anywhere in the query, the agents
    selected are those of that category or of an earlier one. *)
Theorem keyword_anywhere_selects_category
    (pre post kw : string) (n : nat) (c : list string * list agent_name) :
  nth_error Spec.categories n = Some c ->
  In kw (fst c) ->
  exists m c',
    (m <= n)%nat /\ nth_error Spec.categories m = Some c' /\
    _determine_active_agents (pre ++ kw ++ post) = snd c'.
Proof.
  intros N K.
  assert (O : any_in (fst c) (lower (pre ++ kw ++ post)) = true).
  { unfold any_in. apply existsb_exists. exists kw. split; [exact K|].
    apply occurs_iff. exists (lower pre), (lower post).
    rewrite !lower_app.
    now rewrite (keywords_are_lower_case c kw (nth_error_In _ _ N) K). }
  destruct (find_first (fun c0 => any_in (fst c0) (lower (pre ++ kw ++ post)))
              Spec.categories n c N O) as [m [c' [L [M F]]]].
  exists m, c'. repeat split; auto.
  rewrite determine_is_select. unfold Spec.select_active. now rewrite F.
Qed.

Lemma keyword_anywhere_selects_category_witness :
  exists m c',
    (m <= 1)%nat /\ nth_error Spec.categories m = Some c' /\
    _determine_active_agents ("Should I dive" ++ "rsi" ++ "fy my holdings?") = snd c'.
Proof.
  apply (keyword_anywhere_selects_category "Should I dive" "fy my holdings?" "rsi"
           1%nat (["technical"; "chart"; "trend"; "momentum"; "rsi"; "macd"],
                  [technical; risk_assessment])).
  - reflexivity.
  - simpl. auto 10.
Defined.

(** ** Failures at the agent boundary *)

(** X28.  When every agent raises, [analyze_stock] still returns a
    recommendation, whatever the query and the exception: score 0.5, signal
    WEAK_HOLD and confidence 0.2 (the 0.1 of the synthesized error results
    plus 0.1 for their agreement). *)
Theorem recommendation_when_every_agent_raises (e : exn) (query : string) :
  rec_score (recommendation (aggregate (analyze_stock (fun _ => Raise e) query)))
  == 0.5 /\
  rec_signal (recommendation (aggregate (analyze_stock (fun _ => Raise e) query)))
  = WEAK_HOLD /\
  rec_confidence (recommendation (aggregate (analyze_stock (fun _ => Raise e) query)))
  == 0.2.
Proof. exact (all_agents_failed e query). Qed.

(** X29.  The technical, peer comparison, macro context and risk agents
    never raise, whatever their data sources do: each returns a result for
    every world and ticker. *)
Theorem four_agents_never_raise (w : World) (ticker : string) :
  (exists r, TechnicalAnalysisAgent.analyze w ticker = Ok r) /\
  (exists r, PeerComparisonAgent.analyze w ticker = Ok r) /\
  (exists r, MacroContextAgent.analyze w ticker = Ok r) /\
  (exists r, RiskAssessmentAgent.analyze w ticker = Ok r).
Proof.
  repeat split.
  - apply (sibling_agents_never_raise w ticker technical). discriminate.
  - apply (sibling_agents_never_raise w ticker peer_comparison). discriminate.
  - apply (sibling_agents_never_raise w ticker macro_context). discriminate.
  - apply (sibling_agents_never_raise w ticker risk_assessment). discriminate.
Qed.

(** X30.  Collapsed Bollinger bands stop the technical agent.  When the
    upper band equals the lower band (both non-zero) and the current price
    is non-zero, the band position of line 125 divides by zero: the score
    calculation raises, and [analyze] answers with the sentinel carrying
    "float division by zero" instead of any technical score. *)
Theorem technical_analyze_on_collapsed_bands
    (w : World) (ticker : string) (hist : Hist) (i : Indicators) (price u l : Q) :
  history w ticker "1y" = Ok hist ->
  (50 <= hist_len hist)%nat ->
  calculate_indicators w hist = Fetched i ->
  ind_current_price i = Some price -> ~ price == 0 ->
  bb_upper i = Some u -> bb_lower i = Some l -> ~ u == 0 -> u == l ->
  TechnicalAnalysisAgent._calculate_technical_scores i (fetch_price_data w ticker)
  = Raise ZeroDivisionError /\
  exists r,
    TechnicalAnalysisAgent.analyze w ticker = Ok r /\
    Spec.is_sentinel r /\
    error r = Some "float division by zero".
Proof.
  intros H L C P Np U Lo Nu E.
  assert (V : TechnicalAnalysisAgent.volatility_score i = Raise ZeroDivisionError).
  { unfold TechnicalAnalysisAgent.volatility_score, Py.truthy.
    rewrite P, U, Lo. cbn [get_or].
    replace (Qeq_bool price 0) with false
      by (symmetry; apply not_true_is_false; intros T; apply Qeq_bool_iff in T; auto).
    replace (Qeq_bool u 0) with false
      by (symmetry; apply not_true_is_false; intros T; apply Qeq_bool_iff in T; auto).
    replace (Qeq_bool l 0) with false
      by (symmetry; apply not_true_is_false; intros T; apply Qeq_bool_iff in T;
          apply Nu; lra).
    cbn [negb andb]. unfold Py.div.
    replace (Qeq_bool (u - l) 0) with true
      by (symmetry; apply Qeq_bool_iff; lra).
    reflexivity. }
  assert (S : TechnicalAnalysisAgent._calculate_technical_scores i
                (fetch_price_data w ticker) = Raise ZeroDivisionError).
  { unfold TechnicalAnalysisAgent._calculate_technical_scores. now rewrite V. }
  split; [exact S|].
  unfold TechnicalAnalysisAgent.analyze. rewrite H. cbn [Py.bind].
  replace (Nat.eqb (hist_len hist) 0) with false
    by (symmetry; apply Nat.eqb_neq; lia).
  replace (Nat.ltb (hist_len hist) 50) with false
    by (symmetry; apply Nat.ltb_ge; exact L).
  cbn [orb]. rewrite C, S. cbn [Py.bind Py.try_except].
  destruct (technical_error_response (clock w) (Py.str_of_exn ZeroDivisionError))
    as [r [R [Sn M]]].
  exists r. auto.
Qed.

Lemma technical_analyze_on_collapsed_bands_witness :
  TechnicalAnalysisAgent._calculate_technical_scores
    {| ind_current_price := Some 100; rsi14 := Some 50; sma20 := Some 100;
       sma50 := Some 100; sma200 := Some 100; macd := Some 0;
       macd_signal := Some 0; bb_upper := Some 100; bb_middle := Some 100;
       bb_lower := Some 100 |}
    (fetch_price_data Scenarios.flat_year "INFY.NS")
  = Raise ZeroDivisionError /\
  exists r,
    TechnicalAnalysisAgent.analyze
      {| fetch_fundamentals := fun _ => Fetched Scenarios.sound;
         fetch_price_data := fetch_price_data Scenarios.flat_year;
         history := fun _ _ => Ok Scenarios.two_years;
         calculate_indicators := fun _ =>
           Fetched {| ind_current_price := Some 100; rsi14 := Some 50;
                      sma20 := Some 100; sma50 := Some 100; sma200 := Some 100;
                      macd := Some 0; macd_signal := Some 0;
                      bb_upper := Some 100; bb_middle := Some 100;
                      bb_lower := Some 100 |};
         nse_group_a_peers := fun _ => [];
         narrative := fun _ => "";
         clock := "2024-01-01T00:00:00" |} "INFY.NS" = Ok r /\
    Spec.is_sentinel r /\
    error r = Some "float division by zero".
Proof.
  apply (technical_analyze_on_collapsed_bands
           {| fetch_fundamentals := fun _ => Fetched Scenarios.sound;
              fetch_price_data := fetch_price_data Scenarios.flat_year;
              history := fun _ _ => Ok Scenarios.two_years;
              calculate_indicators := fun _ =>
                Fetched {| ind_current_price := Some 100; rsi14 := Some 50;
                           sma20 := Some 100; sma50 := Some 100; sma200 := Some 100;
                           macd := Some 0; macd_signal := Some 0;
                           bb_upper := Some 100; bb_middle := Some 100;
                           bb_lower := Some 100 |};
              nse_group_a_peers := fun _ => [];
              narrative := fun _ => "";
              clock := "2024-01-01T00:00:00" |}
           "INFY.NS" Scenarios.two_years
           {| ind_current_price := Some 100; rsi14 := Some 50;
              sma20 := Some 100; sma50 := Some 100; sma200 := Some 100;
              macd := Some 0; macd_signal := Some 0;
              bb_upper := Some 100; bb_middle := Some 100;
              bb_lower := Some 100 |}
           100 100 100);
    try reflexivity; try discriminate.
  apply Nat.leb_le. reflexivity.
Defined.
